(** * Transport-Optimization-AI: the elasticity simulator and the allocation optimizer

    A shallow embedding of
      - [src/transport_ai/simulation/incentives.py]  ([simulate_incentives]) and
      - [src/transport_ai/optimization/optimizer.py] ([optimize_demand]),
    followed by the properties of both.

    Conventions of the embedding.
      - A pandas [float64] that holds a finite value is an exact rational
        ([Q], compared with [==]); rounding is not modelled.  The IEEE
        special values appear where the code can produce them from finite
        data, namely in the one unguarded division of the simulator
        ([np.npfloat], [np.div]).
      - A timestamp is a [datetime64[ns]] instant: the number of
        nanoseconds since the epoch, a [Z].
      - A table is the list of its rows, in index order; a column is the
        list of its cells.  Boolean masks are lists of [bool] aligned with
        the table.
      - Python exceptions are values of [Result]. *)

From Stdlib Require Import List String ZArith QArith Qminmax Lqa Lia Bool Permutation.
From Stdlib Require Import Qabs Qround Qpower.
Import ListNotations.

Open Scope Q_scope.

(** ** Shared numeric helpers *)

Module np.

(** [Series.sum()]. *)
Definition sum (l : list Q) : Q := fold_right Qplus 0 l.

(** A [float64] result: finite, or one of the IEEE special values. *)
Inductive npfloat : Type :=
| Finite (q : Q)
| PosInf
| NegInf
| NaN.

(** [a / b] on numpy scalars: division by zero raises nothing, it gives
    [nan] for [0 / 0] and a signed infinity otherwise. *)
Definition div (a b : Q) : npfloat :=
  if Qeq_bool b 0 then
    if Qeq_bool a 0 then NaN
    else if Qle_bool 0 a then PosInf else NegInf
  else Finite (a / b).

Definition sub (x y : npfloat) : npfloat :=
  match x, y with
  | NaN, _ | _, NaN => NaN
  | Finite a, Finite b => Finite (a - b)
  | PosInf, PosInf | NegInf, NegInf => NaN
  | PosInf, _ => PosInf
  | NegInf, _ => NegInf
  | Finite _, PosInf => NegInf
  | Finite _, NegInf => PosInf
  end.

(** The product of an infinity with a finite [b]. *)
Definition scale_inf (positive : bool) (b : Q) : npfloat :=
  if Qeq_bool b 0 then NaN
  else if Bool.eqb positive (Qle_bool 0 b) then PosInf else NegInf.

Definition mul (x y : npfloat) : npfloat :=
  match x, y with
  | NaN, _ | _, NaN => NaN
  | Finite a, Finite b => Finite (a * b)
  | PosInf, Finite b | Finite b, PosInf => scale_inf true b
  | NegInf, Finite b | Finite b, NegInf => scale_inf false b
  | PosInf, PosInf | NegInf, NegInf => PosInf
  | PosInf, NegInf | NegInf, PosInf => NegInf
  end.

(** Equality of results, up to the representation of the rational. *)
Definition eq (x y : npfloat) : Prop :=
  match x, y with
  | Finite a, Finite b => a == b
  | PosInf, PosInf | NegInf, NegInf | NaN, NaN => True
  | _, _ => False
  end.

(** [Series.clip(lower=lo)] on one cell. *)
Definition clip_lower (lo x : Q) : Q := if Qle_bool lo x then x else lo.

End np.

(** ** Tables *)

Definition Timestamp : Type := Z.

(** [Series.dt.hour]: the hour of day of a [datetime64[ns]] instant. *)
Definition dt_hour (ts : Timestamp) : Z := ((ts / 3600000000000) mod 24)%Z.

(** [Series.between(left, right)], inclusive on both sides. *)
Definition between (left right h : Z) : bool := ((left <=? h) && (h <=? right))%Z.

Record DemandRecord : Type := {
  route_id : string;
  stop_id : string;
  timestamp : Timestamp;
  validations : Q
}.

Record CapacityRecord : Type := {
  cap_route_id : string;
  cap_timestamp : Timestamp;
  cap_capacity : Q
}.

(** A demand [DataFrame]: the labels of the columns it has, and its rows.
    A cell of a record under a label the frame does not have is never
    read: the lookup of the column raises first. *)
Record DataFrame : Type := {
  columns : list string;
  records : list DemandRecord
}.

Definition has_column (df : DataFrame) (label : string) : bool :=
  existsb (String.eqb label) (columns df).

Inductive Exception : Type :=
| KeyError (key : string)
| ImportError (msg : string).

Inductive Result (A : Type) : Type :=
| Return (a : A)
| Raise (e : Exception).
Arguments Return {A} a.
Arguments Raise {A} e.

(** [col[mask]]: the cells of a column at the rows the mask selects. *)
Fixpoint loc {A : Type} (mask : list bool) (col : list A) : list A :=
  match mask, col with
  | true :: mask', x :: col' => x :: loc mask' col'
  | false :: mask', _ :: col' => loc mask' col'
  | _, _ => []
  end.

(** [col[mask] = values]: the selected rows take the cells of [values],
    in order; the other rows keep theirs. *)
Fixpoint set_loc {A : Type} (mask : list bool) (values col : list A) : list A :=
  match mask, col with
  | true :: mask', x :: col' =>
      match values with
      | v :: values' => v :: set_loc mask' values' col'
      | [] => x :: set_loc mask' [] col'
      end
  | false :: mask', x :: col' => x :: set_loc mask' values col'
  | _, _ => col
  end.

(** Elementwise [a + b] of two aligned series. *)
Fixpoint series_add (a b : list Q) : list Q :=
  match a, b with
  | x :: a', y :: b' => (x + y) :: series_add a' b'
  | _, _ => []
  end.

(** [mask.sum()]: the number of selected rows. *)
Definition mask_sum (mask : list bool) : nat := List.length (filter (fun b => b) mask).

(** ** The elasticity simulator ([simulation/incentives.py]) *)

Module incentives.

Record ElasticityConfig : Type := {
  price_elasticity : Q;
  time_elasticity : Q;
  peak_hours : Z * Z;
  shoulder_hours : Z * Z
}.

(** The dataclass defaults [peak_hours=(7, 9)], [shoulder_hours=(10, 15)]. *)
Definition default_config (price time : Q) : ElasticityConfig :=
  {| price_elasticity := price; time_elasticity := time;
     peak_hours := (7, 9)%Z; shoulder_hours := (10, 15)%Z |}.

(** A row of [baseline] and of [simulated]: the demand row and its
    [hour] column. *)
Record HourRow : Type := {
  record : DemandRecord;
  hour : Z
}.

Record SimulationResult : Type := {
  baseline : list HourRow;
  simulated : list HourRow;
  peak_reduction_pct : np.npfloat;
  revenue_delta_pct : Q
}.

Definition with_validations (r : HourRow) (v : Q) : HourRow :=
  {| record := {| route_id := route_id (record r); stop_id := stop_id (record r);
                  timestamp := timestamp (record r); validations := v |};
     hour := hour r |}.

(** [frame["validations"] = col]. *)
Fixpoint set_validations (frame : list HourRow) (col : list Q) : list HourRow :=
  match frame, col with
  | r :: frame', v :: col' => with_validations r v :: set_validations frame' col'
  | _, _ => frame
  end.

Definition validations_col (frame : list HourRow) : list Q :=
  map (fun r => validations (record r)) frame.

Definition peak_mask_of (elasticity : ElasticityConfig) (frame : list HourRow) : list bool :=
  map (fun r => between (fst (peak_hours elasticity)) (snd (peak_hours elasticity)) (hour r)) frame.

Definition shoulder_mask_of (elasticity : ElasticityConfig) (frame : list HourRow) : list bool :=
  map (fun r => between (fst (shoulder_hours elasticity)) (snd (shoulder_hours elasticity)) (hour r)) frame.

(** The body of [simulate_incentives] once both columns were found. *)
Definition simulate_frame (rows : list DemandRecord) (elasticity : ElasticityConfig)
    (fare : Q) : SimulationResult :=
  let baseline := map (fun r => {| record := r; hour := dt_hour (timestamp r) |}) rows in
  let baseline_revenue := np.sum (validations_col baseline) * fare in
  let simulated := baseline in
  let peak_mask := peak_mask_of elasticity simulated in
  let shoulder_mask := shoulder_mask_of elasticity simulated in
  let peak_demand := loc peak_mask (validations_col simulated) in
  let shoulder_demand := loc shoulder_mask (validations_col simulated) in
  let total_elasticity := price_elasticity elasticity + time_elasticity elasticity in
  let shifted := map (fun v => v * (- total_elasticity)) peak_demand in
  let col1 := set_loc peak_mask (series_add peak_demand shifted) (validations_col simulated) in
  let shoulder_count := inject_Z (Z.of_nat (Nat.max (mask_sum shoulder_mask) 1)) in
  let col2 :=
    set_loc shoulder_mask
      (map (fun v => v - np.sum shifted / shoulder_count) shoulder_demand) col1 in
  let col3 := map (np.clip_lower 0) col2 in
  let simulated := set_validations simulated col3 in
  let simulated_revenue := np.sum (validations_col simulated) * fare in
  let peak_reduction :=
    np.sub (np.Finite 1)
      (np.div (np.sum (loc peak_mask (validations_col simulated))) (np.sum peak_demand)) in
  let revenue_delta :=
    if negb (Qeq_bool baseline_revenue 0)
    then (simulated_revenue - baseline_revenue) / baseline_revenue
    else 0 in
  {| baseline := baseline;
     simulated := simulated;
     peak_reduction_pct := np.mul peak_reduction (np.Finite 100);
     revenue_delta_pct := revenue_delta * 100 |}.

(** [simulate_incentives]: the column lookups [baseline["timestamp"]]
    and [baseline["validations"]] come first, in this order, and raise
    [KeyError] on a frame without the column. *)
Definition simulate_incentives (demand : DataFrame) (elasticity : ElasticityConfig)
    (fare : Q) : Result SimulationResult :=
  if negb (has_column demand "timestamp") then Raise (KeyError "timestamp")
  else if negb (has_column demand "validations") then Raise (KeyError "validations")
  else Return (simulate_frame (records demand) elasticity fare).

(** *** Row-wise reading of the same computation *)

Definition total_elasticity (elasticity : ElasticityConfig) : Q :=
  price_elasticity elasticity + time_elasticity elasticity.

Definition in_peak (elasticity : ElasticityConfig) (r : DemandRecord) : bool :=
  between (fst (peak_hours elasticity)) (snd (peak_hours elasticity)) (dt_hour (timestamp r)).

Definition in_shoulder (elasticity : ElasticityConfig) (r : DemandRecord) : bool :=
  between (fst (shoulder_hours elasticity)) (snd (shoulder_hours elasticity))
    (dt_hour (timestamp r)).

(** The three classes of the specification. *)
Inductive HourClass : Type := Peak | Shoulder | Other.

Definition is_class (elasticity : ElasticityConfig) (r : DemandRecord) (c : HourClass) : bool :=
  match c with
  | Peak => in_peak elasticity r
  | Shoulder => in_shoulder elasticity r
  | Other => negb (in_peak elasticity r) && negb (in_shoulder elasticity r)
  end.

(** No hour of the day lies in both ranges. *)
Definition ranges_disjoint (elasticity : ElasticityConfig) : bool :=
  forallb
    (fun h => negb (between (fst (peak_hours elasticity)) (snd (peak_hours elasticity)) h
                    && between (fst (shoulder_hours elasticity))
                         (snd (shoulder_hours elasticity)) h))
    (map Z.of_nat (seq 0 24)).

(** The validations of the peak rows, and of the shoulder rows. *)
Definition peak_validations (elasticity : ElasticityConfig) (rows : list DemandRecord) : list Q :=
  map validations (filter (in_peak elasticity) rows).

Definition shoulder_count (elasticity : ElasticityConfig) (rows : list DemandRecord) : nat :=
  List.length (filter (in_shoulder elasticity) rows).

(** [shifted.sum()]. *)
Definition shifted_sum (elasticity : ElasticityConfig) (rows : list DemandRecord) : Q :=
  np.sum (map (fun v => v * (- total_elasticity elasticity)) (peak_validations elasticity rows)).

(** [shifted.sum() / shoulder_count]. *)
Definition shoulder_share (elasticity : ElasticityConfig) (rows : list DemandRecord) : Q :=
  shifted_sum elasticity rows
  / inject_Z (Z.of_nat (Nat.max (shoulder_count elasticity rows) 1)).

(** The simulated validations of one row of the table [rows]. *)
Definition simulated_cell (elasticity : ElasticityConfig) (rows : list DemandRecord)
    (r : DemandRecord) : Q :=
  np.clip_lower 0
    (if in_shoulder elasticity r then validations r - shoulder_share elasticity rows
     else if in_peak elasticity r
          then validations r + validations r * (- total_elasticity elasticity)
          else validations r).

End incentives.

(** ** The allocation optimizer ([optimization/optimizer.py]) *)

(** [Series.unique()]: the distinct cells, in order of first appearance. *)
Fixpoint unique {A : Type} (eqb : A -> A -> bool) (l : list A) : list A :=
  match l with
  | [] => []
  | x :: l' => x :: filter (fun y => negb (eqb x y)) (unique eqb l')
  end.

Fixpoint insert_sorted (t : Z) (l : list Z) : list Z :=
  match l with
  | [] => [t]
  | u :: l' => if (t <=? u)%Z then t :: l else u :: insert_sorted t l'
  end.

(** [sorted(...)] on instants. *)
Definition sorted (l : list Z) : list Z := fold_right insert_sorted [] l.

(** [dict.get(key)]. *)
Fixpoint dict_get (d : list (string * Q)) (key : string) : option Q :=
  match d with
  | [] => None
  | (k, v) :: d' => if String.eqb k key then Some v else dict_get d' key
  end.

(** Elementwise [a * b] of two aligned series. *)
Fixpoint series_mul (a b : list Q) : list Q :=
  match a, b with
  | x :: a', y :: b' => (x * y) :: series_mul a' b'
  | _, _ => []
  end.

Module optimizer.

Record OptimizationConfig : Type := {
  revenue_tolerance : Q;
  min_service_factor : Q
}.

(** The [LpVariable] objects of the model, all created with
    [lowBound=0]: [decision[(route, ts)]] and [peak_var].  A variable is
    identified by the key under which [decision] holds it. *)
Inductive LpVariable : Type :=
| decision (route : string) (ts : Timestamp)
| peak_var.

(** A linear expression: [constant + sum of coefficient * variable]. *)
Record LpAffineExpression : Type := {
  terms : list (LpVariable * Q);
  constant : Q
}.

Inductive Sense : Type := LpConstraintLE | LpConstraintGE.

(** [lhs <= rhs] or [lhs >= rhs]. *)
Record LpConstraint : Type := {
  lhs : LpAffineExpression;
  sense : Sense;
  rhs : LpAffineExpression
}.

(** An [LpProblem] with sense [LpMinimize]. *)
Record LpProblem : Type := {
  objective : LpAffineExpression;
  constraints : list LpConstraint;
  variables : list LpVariable
}.

Inductive LpStatus : Type :=
| LpStatusNotSolved
| LpStatusOptimal
| LpStatusInfeasible
| LpStatusUnbounded
| LpStatusUndefined.

(** The solving capability ([model.solve(PULP_CBC_CMD)]): it reports a
    status and leaves a value in every variable. *)
Definition Solver : Type := LpProblem -> LpStatus * (LpVariable -> Q).

Definition var (v : LpVariable) : LpAffineExpression :=
  {| terms := [(v, 1)]; constant := 0 |}.

Definition times (v : LpVariable) (c : Q) : LpAffineExpression :=
  {| terms := [(v, c)]; constant := 0 |}.

Definition const (c : Q) : LpAffineExpression :=
  {| terms := []; constant := c |}.

Definition lpSum (es : list LpAffineExpression) : LpAffineExpression :=
  {| terms := flat_map terms es; constant := np.sum (map constant es) |}.

Definition le (a b : LpAffineExpression) : LpConstraint :=
  {| lhs := a; sense := LpConstraintLE; rhs := b |}.

Definition ge (a b : LpAffineExpression) : LpConstraint :=
  {| lhs := a; sense := LpConstraintGE; rhs := b |}.

(** The value of an expression under an assignment of the variables. *)
Definition eval (value : LpVariable -> Q) (e : LpAffineExpression) : Q :=
  constant e + np.sum (map (fun t => snd t * value (fst t)) (terms e)).

Definition routes_of (demand : list DemandRecord) : list string :=
  unique String.eqb (map route_id demand).

Definition timestamps_of (demand : list DemandRecord) : list Timestamp :=
  sorted (unique Z.eqb (map timestamp demand)).

(** [fares.get(route, 0.0)]. *)
Definition fare_of (fares : list (string * Q)) (route : string) : Q :=
  match dict_get fares route with
  | Some f => f
  | None => 0
  end.

(** The capacity of a pair: the first matching row of the capacity
    table, [1e6] when there is none. *)
Definition cap_value (capacity : list CapacityRecord) (route : string) (ts : Timestamp) : Q :=
  match filter (fun c => String.eqb (cap_route_id c) route && Z.eqb (cap_timestamp c) ts)
          capacity with
  | c :: _ => cap_capacity c
  | [] => 1000000
  end.

Definition baseline_revenue (demand : list DemandRecord) (fares : list (string * Q)) : Q :=
  np.sum (series_mul (map validations demand)
            (map (fun r => fare_of fares (route_id r)) demand)).

Definition capacity_constraints (routes : list string) (timestamps : list Timestamp)
    (capacity : list CapacityRecord) : list LpConstraint :=
  flat_map
    (fun route =>
       map (fun ts => le (var (decision route ts)) (const (cap_value capacity route ts)))
         timestamps)
    routes.

Definition peak_constraints (routes : list string) (timestamps : list Timestamp)
    : list LpConstraint :=
  map (fun ts => le (lpSum (map (fun route => var (decision route ts)) routes)) (var peak_var))
    timestamps.

Definition revenue_constraint (routes : list string) (timestamps : list Timestamp)
    (fares : list (string * Q)) (floor : Q) : LpConstraint :=
  ge (lpSum (flat_map
               (fun route =>
                  map (fun ts => times (decision route ts) (fare_of fares route)) timestamps)
               routes))
     (const floor).

Definition service_constraints (demand : list DemandRecord) (config : OptimizationConfig)
    : list LpConstraint :=
  map (fun row =>
         ge (var (decision (route_id row) (timestamp row)))
            (const (validations row * min_service_factor config)))
    demand.

(** The variables, in the order the code creates them. *)
Definition model_variables (routes : list string) (timestamps : list Timestamp)
    : list LpVariable :=
  flat_map (fun ts => map (fun route => decision route ts) routes) timestamps ++ [peak_var].

(** The model [optimize_demand] hands to the solver. *)
Definition build_model (demand : list DemandRecord) (capacity : list CapacityRecord)
    (fares : list (string * Q)) (config : OptimizationConfig) : LpProblem :=
  let routes := routes_of demand in
  let timestamps := timestamps_of demand in
  {| objective := var peak_var;
     constraints :=
       capacity_constraints routes timestamps capacity
       ++ peak_constraints routes timestamps
       ++ [revenue_constraint routes timestamps fares
             (baseline_revenue demand fares * (1 - revenue_tolerance config))]
       ++ service_constraints demand config;
     variables := model_variables routes timestamps |}.

(** A row of the returned table: the demand row and the four added
    columns. *)
Record OptimizedRow : Type := {
  row : DemandRecord;
  optimized_validations : Q;
  capacity : Q;
  peak_load : Q;
  revenue_delta_pct : Q
}.

Definition optimize_demand (pulp : option Solver) (demand : list DemandRecord)
    (capacity : list CapacityRecord) (fares : list (string * Q))
    (config : OptimizationConfig) : Result (list OptimizedRow) :=
  match pulp with
  | None => Raise (ImportError "PuLP must be installed to run optimization")
  | Some solve =>
      let model := build_model demand capacity fares config in
      let value := snd (solve model) in
      let baseline_revenue := baseline_revenue demand fares in
      let optimized_col := map (fun r => value (decision (route_id r) (timestamp r))) demand in
      let revenue :=
        np.sum (series_mul optimized_col (map (fun r => fare_of fares (route_id r)) demand)) in
      let delta :=
        if negb (Qeq_bool baseline_revenue 0)
        then (revenue - baseline_revenue) / baseline_revenue * 100
        else 0 in
      Return
        (map (fun r =>
                {| row := r;
                   optimized_validations := value (decision (route_id r) (timestamp r));
                   capacity := cap_value capacity (route_id r) (timestamp r);
                   peak_load := value peak_var;
                   revenue_delta_pct := delta |})
           demand)
  end.

(** *** What a solution is *)

(** A constraint holds under [value], up to the tolerance [eps]. *)
Definition holds_within (eps : Q) (value : LpVariable -> Q) (c : LpConstraint) : Prop :=
  match sense c with
  | LpConstraintLE => eval value (lhs c) <= eval value (rhs c) + eps
  | LpConstraintGE => eval value (rhs c) <= eval value (lhs c) + eps
  end.

Definition holds_withinb (eps : Q) (value : LpVariable -> Q) (c : LpConstraint) : bool :=
  match sense c with
  | LpConstraintLE => Qle_bool (eval value (lhs c)) (eval value (rhs c) + eps)
  | LpConstraintGE => Qle_bool (eval value (rhs c)) (eval value (lhs c) + eps)
  end.

(** Every constraint and every lower bound holds up to [eps]. *)
Definition feasible_within (eps : Q) (P : LpProblem) (value : LpVariable -> Q) : Prop :=
  Forall (holds_within eps value) (constraints P)
  /\ Forall (fun v => - eps <= value v) (variables P).

Definition feasible_withinb (eps : Q) (P : LpProblem) (value : LpVariable -> Q) : bool :=
  forallb (holds_withinb eps value) (constraints P)
  && forallb (fun v => Qle_bool (- eps) (value v)) (variables P).

(** The solve succeeds: the status is [Optimal] and the values left in
    the variables satisfy the model up to the solver's tolerance. *)
Definition solve_succeeds (eps : Q) (solve : Solver) (P : LpProblem) : Prop :=
  fst (solve P) = LpStatusOptimal /\ feasible_within eps P (snd (solve P)).

(** The solve is optimal: the values are feasible up to [eps] and no
    exactly feasible assignment has an objective smaller by more than
    [eps].  With [eps = 0]: an exact optimum. *)
Definition optimal_within (eps : Q) (P : LpProblem) (value : LpVariable -> Q) : Prop :=
  feasible_within eps P value
  /\ forall value', feasible_within 0 P value' ->
                    eval value (objective P) <= eval value' (objective P) + eps.

(** The constraint set admits no solution. *)
Definition infeasible (P : LpProblem) : Prop :=
  forall value, ~ feasible_within 0 P value.

(** The revenue over all decision variables. *)
Definition achieved_revenue (value : LpVariable -> Q) (demand : list DemandRecord)
    (fares : list (string * Q)) : Q :=
  np.sum (map (fun route =>
                 np.sum (map (fun ts => value (decision route ts) * fare_of fares route)
                           (timestamps_of demand)))
            (routes_of demand)).

(** The sum of [optimized_validations] over the output rows that carry
    the timestamp [ts]. *)
Definition rows_load (ts : Timestamp) (out : list OptimizedRow) : Q :=
  np.sum (map optimized_validations
            (filter (fun o => Z.eqb (timestamp (row o)) ts) out)).

(** No two rows of the table share a [(route_id, timestamp)] key. *)
Definition distinct_keys (demand : list DemandRecord) : Prop :=
  NoDup (map (fun r => (route_id r, timestamp r)) demand).

End optimizer.

(** ** Inputs of the scenarios *)

Module scenario.

(** The instant [2023-01-02 h:00:00]. *)
Definition at_hour (h : Z) : Timestamp := (1672617600000000000 + h * 3600000000000)%Z.

Definition demand_row (route stop : string) (h : Z) (v : Q) : DemandRecord :=
  {| route_id := route; stop_id := stop; timestamp := at_hour h; validations := v |}.

Definition demand_columns : list string := ["route_id"; "stop_id"; "timestamp"; "validations"]%string.

(** Scenario A: three peak rows of 100 and six shoulder rows of 50. *)
Definition A_demand : DataFrame :=
  {| columns := demand_columns;
     records := [demand_row "R1" "S1" 7 100; demand_row "R1" "S1" 8 100;
                 demand_row "R1" "S1" 9 100; demand_row "R1" "S1" 10 50;
                 demand_row "R1" "S1" 11 50; demand_row "R1" "S1" 12 50;
                 demand_row "R1" "S1" 13 50; demand_row "R1" "S1" 14 50;
                 demand_row "R1" "S1" 15 50] |}.

Definition A_elasticity : incentives.ElasticityConfig :=
  incentives.default_config (1 # 20) (1 # 20).

(** Hour 9 lies in both ranges. *)
Definition overlap_elasticity : incentives.ElasticityConfig :=
  {| incentives.price_elasticity := 1 # 20; incentives.time_elasticity := 1 # 20;
     incentives.peak_hours := (7, 9)%Z; incentives.shoulder_hours := (9, 15)%Z |}.

Definition overlap_demand : DataFrame :=
  {| columns := demand_columns; records := [demand_row "R1" "S1" 9 100] |}.

(** A table without any peak row. *)
Definition midday_demand : DataFrame :=
  {| columns := demand_columns; records := [demand_row "R1" "S1" 12 40] |}.

(** An empty table that has every column. *)
Definition empty_demand : DataFrame :=
  {| columns := demand_columns; records := [] |}.

(** Tables that lack one of the two columns the simulator reads. *)
Definition no_timestamp_demand : DataFrame :=
  {| columns := ["route_id"; "stop_id"; "validations"]%string;
     records := [demand_row "R1" "S1" 8 100] |}.

Definition no_validations_demand : DataFrame :=
  {| columns := ["route_id"; "stop_id"; "timestamp"]%string;
     records := [demand_row "R1" "S1" 8 100] |}.

(** One peak row, one shoulder row. *)
Definition peak_shoulder_demand : DataFrame :=
  {| columns := demand_columns;
     records := [demand_row "R1" "S1" 8 100; demand_row "R1" "S1" 10 5] |}.

(** A surcharge on the shoulder: the total elasticity is [-1]. *)
Definition negative_elasticity : incentives.ElasticityConfig :=
  incentives.default_config (-1) 0.

Definition capacity_row (route : string) (h : Z) (c : Q) : CapacityRecord :=
  {| cap_route_id := route; cap_timestamp := at_hour h; cap_capacity := c |}.

Definition fare_2 : list (string * Q) := [("R1"%string, 2)].

(** Scenario C: one route, validations 10, 50, 10, capacity 100. *)
Definition C_demand : list DemandRecord :=
  [demand_row "R1" "S1" 7 10; demand_row "R1" "S1" 8 50; demand_row "R1" "S1" 9 10].

Definition C_capacity : list CapacityRecord :=
  [capacity_row "R1" 7 100; capacity_row "R1" 8 100; capacity_row "R1" 9 100].

Definition C_config : optimizer.OptimizationConfig :=
  {| optimizer.revenue_tolerance := 0; optimizer.min_service_factor := 4 # 5 |}.

(** An optimal vertex of Scenario C, and a solver that returns it. *)
Definition C_solution (v : optimizer.LpVariable) : Q :=
  match v with
  | optimizer.decision _ ts => if (ts =? at_hour 8)%Z then 40 else 15
  | optimizer.peak_var => 40
  end.

Definition C_solver : optimizer.Solver := fun _ => (optimizer.LpStatusOptimal, C_solution).

(** Another optimum of Scenario C: every variable at 40. *)
Definition C_flat_solver : optimizer.Solver :=
  fun _ => (optimizer.LpStatusOptimal, fun _ => 40).

(** Scenario D: capacity 0, [min_service_factor = 1], validations 10. *)
Definition D_demand : list DemandRecord := [demand_row "R1" "S1" 8 10].

Definition D_capacity : list CapacityRecord := [capacity_row "R1" 8 0].

Definition D_config : optimizer.OptimizationConfig :=
  {| optimizer.revenue_tolerance := 0; optimizer.min_service_factor := 1 |}.

(** Two stops of one route at one timestamp, as the synthetic ridership
    of [data/ingest.py] has them, and the optimum of their model. *)
Definition two_stops_demand : list DemandRecord :=
  [demand_row "R1" "S1" 8 10; demand_row "R1" "S2" 8 10].

Definition two_stops_solver : optimizer.Solver :=
  fun _ => (optimizer.LpStatusOptimal, fun _ => 20).

End scenario.

(** ** More inputs *)

Module scenario_extra.


(** A row at 20:00, outside both default ranges. *)
Definition evening_demand : DataFrame :=
  {| columns := scenario.demand_columns;
     records := [scenario.demand_row "R1" "S1" 20 30] |}.

Definition no_elasticity : incentives.ElasticityConfig := incentives.default_config 0 0.

End scenario_extra.

(** * Around the two components

    The code the pipeline runs next to the simulator and the optimizer:
    the forecaster registry and the abstract forecaster of
    [forecasting/base.py], [compute_capacity] of
    [features/engineering.py], whose table the optimizer reads,
    [train_model] of [forecasting/service.py], and [compute_metrics] of
    [utils/metrics.py].  The forecasting backends, the file system and the
    plots are outside: a forecaster is any implementation of the abstract
    class, a table is given as its rows. *)

(** ** The forecaster registry ([forecasting/base.py]) *)

Module builtins.

(** The exceptions the package raises or meets; [PulpError] stands for
    the exception classes of PuLP, [PulpSolverError] among them. *)
Inductive BaseException : Type :=
| KeyError (arg : string)
| AttributeError (type_name attribute : string)
| ValueError (msg : string)
| ImportError (msg : string)
| RuntimeError (msg : string)
| PulpError (msg : string).

Inductive Outcome (A : Type) : Type :=
| Returns (a : A)
| Raises (e : BaseException).
Arguments Returns {A} a.
Arguments Raises {A} e.

Definition bind {A B : Type} (x : Outcome A) (k : A -> Outcome B) : Outcome B :=
  match x with
  | Returns a => k a
  | Raises e => Raises e
  end.

End builtins.

(** ** The optimizer around a solve that can raise

    [optimizer.optimize_demand] takes the solve as a function that
    returns.  The call [model.solve(pulp.PULP_CBC_CMD(msg=False))] can
    also raise; here it is taken as it is. *)

Module solve_call.

Import builtins optimizer.

(** [model.solve(...)]: the call returns once the solver has reported a
    status and left a value in every variable, whatever the status is
    (PuLP reports an infeasible or unbounded model through the status,
    not through an exception); or it raises, when the solver cannot be
    run or fails, or when PuLP refuses the model (two variables that get
    the same name). *)
Definition SolveCall : Type := LpProblem -> Outcome (LpStatus * (LpVariable -> Q)).

(** The table built after the solve, from the values of the variables. *)
Definition optimized_table (value : LpVariable -> Q) (demand : list DemandRecord)
    (capacity : list CapacityRecord) (fares : list (string * Q)) : list OptimizedRow :=
  let baseline_revenue := baseline_revenue demand fares in
  let optimized_col := map (fun r => value (decision (route_id r) (timestamp r))) demand in
  let revenue :=
    np.sum (series_mul optimized_col (map (fun r => fare_of fares (route_id r)) demand)) in
  let delta :=
    if negb (Qeq_bool baseline_revenue 0)
    then (revenue - baseline_revenue) / baseline_revenue * 100
    else 0 in
  map (fun r =>
         {| row := r;
            optimized_validations := value (decision (route_id r) (timestamp r));
            capacity := cap_value capacity (route_id r) (timestamp r);
            peak_load := value peak_var;
            revenue_delta_pct := delta |})
    demand.

(** [optimize_demand]: nothing between the call of the solver and the
    [return] reads [model.status] or [pulp.LpStatus]. *)
Definition optimize_demand (pulp : option SolveCall) (demand : list DemandRecord)
    (capacity : list CapacityRecord) (fares : list (string * Q))
    (config : OptimizationConfig) : Outcome (list OptimizedRow) :=
  match pulp with
  | None => Raises (ImportError "PuLP must be installed to run optimization")
  | Some solve =>
      let model := build_model demand capacity fares config in
      bind (solve model) (fun solved =>
      Returns (optimized_table (snd solved) demand capacity fares))
  end.

End solve_call.

Module base.

Import builtins.

Section ForecasterFactory.

Variables (Kwargs Forecaster : Type).

(** A forecaster class, called with keyword arguments; the constructor
    may raise (a missing optional dependency, say). *)
Definition Estimator : Type := Kwargs -> Outcome Forecaster.

(** The class attribute [registry], a [dict]: the keys in insertion
    order. *)
Definition Registry : Type := list (string * Estimator).

(** [d[key] = v]: a present key keeps its place and takes the new value,
    a new key goes last. *)
Fixpoint dict_setitem (d : Registry) (key : string) (v : Estimator) : Registry :=
  match d with
  | [] => [(key, v)]
  | (k, v') :: d' =>
      if String.eqb k key then (k, v) :: d' else (k, v') :: dict_setitem d' key v
  end.

(** [d[key]], when the key is present. *)
Fixpoint dict_getitem (d : Registry) (key : string) : option Estimator :=
  match d with
  | [] => None
  | (k, v) :: d' => if String.eqb k key then Some v else dict_getitem d' key
  end.

(** [key in d]. *)
Definition dict_contains (d : Registry) (key : string) : bool :=
  existsb (fun kv => String.eqb (fst kv) key) d.

Definition register (registry : Registry) (name : string) (estimator : Estimator) : Registry :=
  dict_setitem registry name estimator.

Definition create (registry : Registry) (name : string) (kwargs : Kwargs)
    : Outcome Forecaster :=
  if negb (dict_contains registry name)
  then Raises (KeyError ("Unknown forecaster: " ++ name))
  else match dict_getitem registry name with
       | Some estimator => estimator kwargs
       | None => Raises (KeyError name)
       end.

Definition available (registry : Registry) : list string := map fst registry.

End ForecasterFactory.

End base.

(** ** The capacity table ([features/engineering.py]) *)

Module engineering.

(** A row of [stop_times.txt].  [arrival_time] holds the duration its
    cell denotes, in nanoseconds, and [None] for an empty cell. *)
Record StopTime : Type := {
  st_trip_id : string;
  arrival_time : option Z;
  st_stop_id : string;
  stop_sequence : Z
}.

(** A row of [trips.txt]. *)
Record Trip : Type := {
  trip_route_id : string;
  service_id : string;
  trip_id : string
}.

(** The [gtfs] dictionary, as far as [compute_capacity] reads it. *)
Record Gtfs : Type := {
  stop_times : option (list StopTime);
  trips : option (list Trip)
}.

Definition hour_ns : Z := 3600000000000.

(** [pd.Timestamp('2023-01-01')]. *)
Definition base_date : Timestamp := 1672531200000000000%Z.

(** [Series.dt.floor("H")]. *)
Definition floor_hour (ts : Timestamp) : Timestamp := (ts / hour_ns * hour_ns)%Z.

(** [stop_times.merge(trips, on="trip_id")]: an inner join, in the order
    of the left rows. *)
Definition merge (left : list StopTime) (right : list Trip) : list (StopTime * Trip) :=
  flat_map
    (fun s => map (pair s) (filter (fun t => String.eqb (trip_id t) (st_trip_id s)) right))
    left.

(** [pd.to_timedelta(arrival_time.fillna("00:00:00"))]. *)
Definition to_timedelta (s : StopTime) : Z :=
  match arrival_time s with
  | Some td => td
  | None => 0%Z
  end.

(** The group key of a merged row: its route and the hour of its arrival
    on the base date. *)
Definition group_key (m : StopTime * Trip) : string * Timestamp :=
  (trip_route_id (snd m), floor_hour (base_date + to_timedelta (fst m))%Z).

Definition key_eqb (a b : string * Timestamp) : bool :=
  String.eqb (fst a) (fst b) && Z.eqb (snd a) (snd b).

(** The order of the group keys: by route, then by timestamp. *)
Definition key_leb (a b : string * Timestamp) : bool :=
  match String.compare (fst a) (fst b) with
  | Lt => true
  | Eq => (snd a <=? snd b)%Z
  | Gt => false
  end.

Fixpoint insert_key (k : string * Timestamp) (l : list (string * Timestamp))
    : list (string * Timestamp) :=
  match l with
  | [] => [k]
  | k' :: l' => if key_leb k k' then k :: l else k' :: insert_key k l'
  end.

Definition sort_keys (l : list (string * Timestamp)) : list (string * Timestamp) :=
  fold_right insert_key [] l.

(** [Series.count()] of a group: the number of its rows. *)
Definition group_count (k : string * Timestamp) (keys : list (string * Timestamp)) : nat :=
  List.length (filter (key_eqb k) keys).

Definition compute_capacity (gtfs : Gtfs) (vehicle_capacity : Z)
    : Result (list CapacityRecord) :=
  match stop_times gtfs with
  | None => Raise (KeyError "stop_times")
  | Some stop_times =>
      match trips gtfs with
      | None => Raise (KeyError "trips")
      | Some trips =>
          let merged := merge stop_times trips in
          let keys := map group_key merged in
          Return
            (map (fun k =>
                    {| cap_route_id := fst k;
                       cap_timestamp := snd k;
                       cap_capacity :=
                         inject_Z (Z.of_nat (group_count k keys) * vehicle_capacity)%Z |})
               (sort_keys (unique key_eqb keys)))
      end
  end.

End engineering.

(** ** Metrics ([utils/metrics.py], [Forecaster.evaluate]) *)

Module metrics.

Record Metrics : Type := {
  rmse : np.npfloat;
  mape : np.npfloat
}.

(** [Series.mean()]: [nan] on an empty series. *)
Definition mean (l : list Q) : np.npfloat :=
  np.div (np.sum l) (inject_Z (Z.of_nat (List.length l))).

Section ComputeMetrics.

(** The square root of a float that is not negative, [x ** 0.5]. *)
Variable sqrt : Q -> Q.

Definition pow_half (x : np.npfloat) : np.npfloat :=
  match x with
  | np.Finite q => np.Finite (sqrt q)
  | np.NaN => np.NaN
  | np.PosInf | np.NegInf => np.PosInf
  end.

(** [compute_metrics(actual, predicted)] on two series with the default
    index: the operations align them, so the cells beyond the shorter
    series are [nan] and are skipped.  [actual.replace(0, pd.NA)] makes
    the ratio of a cell with a zero actual missing, and [dropna] drops
    it. *)
Definition compute_metrics (actual predicted : list Q) : Metrics :=
  let cells := combine actual predicted in
  let error := map (fun c => fst c - snd c) cells in
  let rmse := pow_half (mean (map (fun e => e * e) error)) in
  let ratios :=
    map (fun c => Qabs (fst c - snd c) / fst c)
      (filter (fun c => negb (Qeq_bool (fst c) 0)) cells) in
  {| rmse := rmse; mape := mean ratios |}.

End ComputeMetrics.

End metrics.

(** ** Training ([forecasting/base.py], [forecasting/service.py]) *)

Module forecaster.

Import builtins.

(** A row of the table [predict] returns. *)
Record Prediction : Type := {
  pred_timestamp : Timestamp;
  yhat : Q;
  yhat_lower : Q;
  yhat_upper : Q
}.

(** [a - b] on two one-dimensional [ndarray]s broadcasts when the lengths
    agree or one of them is 1. *)
Definition broadcasts (n m : nat) : bool := ((n =? m) || (n =? 1) || (m =? 1))%nat.

(** The static method [Forecaster.evaluate] of the base class, as
    [train_model] calls it, on the [.values] of two columns, two
    [ndarray]s: the subtraction broadcasts or raises, the root mean
    square is computed, and [error.abs()] fails, an [ndarray] has no such
    method. *)
Definition Forecaster_evaluate (y_true y_pred : list Q) : Outcome metrics.Metrics :=
  if negb (broadcasts (List.length y_true) (List.length y_pred))
  then Raises (ValueError "operands could not be broadcast together")
  else Raises (AttributeError "numpy.ndarray" "abs").

(** The class [Forecaster] and its subclasses, seen from [train_model]:
    [fit] and [predict] are the abstract methods ([fit] returns the
    fitted object), and [evaluate] is what [model.evaluate(...)] runs on
    an instance, the static method of the base class unless the class of
    the instance defines its own. *)
Class Forecaster (Row F : Type) : Type := {
  fit : F -> list Row -> string -> Outcome F;
  predict : F -> nat -> Outcome (list Prediction);
  evaluate : F -> list Q -> list Q -> Outcome metrics.Metrics
}.

(** The class does not override [evaluate]: true of [ARIMAForecaster],
    [ProphetForecaster] and [XGBoostForecaster], the three classes the
    package registers. *)
Definition inherits_evaluate {Row F : Type} `{Forecaster Row F} : Prop :=
  forall (model : F) (y_true y_pred : list Q),
    evaluate model y_true y_pred = Forecaster_evaluate y_true y_pred.

End forecaster.

Module service.

Import builtins forecaster.

(** A row of the forecasts table: a prediction with the [route_id] and
    [stop_id] of its group. *)
Record ForecastRow : Type := {
  prediction : Prediction;
  forecast_route_id : string;
  forecast_stop_id : string
}.

(** [min(24, max(len(group) // 5, 1))]. *)
Definition holdout_horizon (n : nat) : nat := Nat.min 24 (Nat.max (n / 5) 1).

(** [frame.iloc[:-h]]. *)
Definition iloc_but_last {A : Type} (h : nat) (l : list A) : list A :=
  if (h =? 0)%nat then [] else firstn (List.length l - h) l.

(** [frame.iloc[-h:]]. *)
Definition iloc_last {A : Type} (h : nat) (l : list A) : list A :=
  if (h =? 0)%nat then l else skipn (List.length l - h) l.

Definition history_of {A : Type} (group : list A) : list A :=
  let horizon := holdout_horizon (List.length group) in
  if (horizon <? List.length group)%nat then iloc_but_last horizon group else group.

Definition validation_of {A : Type} (group : list A) : list A :=
  iloc_last (holdout_horizon (List.length group)) group.

Definition group_eqb (a b : string * string) : bool :=
  String.eqb (fst a) (fst b) && String.eqb (snd a) (snd b).

(** The order of the group keys, pairs of strings. *)
Definition group_leb (a b : string * string) : bool :=
  match String.compare (fst a) (fst b) with
  | Lt => true
  | Eq => String.leb (snd a) (snd b)
  | Gt => false
  end.

Fixpoint insert_group (k : string * string) (l : list (string * string))
    : list (string * string) :=
  match l with
  | [] => [k]
  | k' :: l' => if group_leb k k' then k :: l else k' :: insert_group k l'
  end.

Definition sort_groups (l : list (string * string)) : list (string * string) :=
  fold_right insert_group [] l.

(** [DataFrame.mean()] on a column of metrics: the mean of the cells
    that are not [nan]. *)
Definition float_add (x y : np.npfloat) : np.npfloat :=
  match x, y with
  | np.NaN, _ | _, np.NaN => np.NaN
  | np.Finite a, np.Finite b => np.Finite (a + b)
  | np.PosInf, np.NegInf | np.NegInf, np.PosInf => np.NaN
  | np.PosInf, _ | _, np.PosInf => np.PosInf
  | np.NegInf, _ | _, np.NegInf => np.NegInf
  end.

Definition is_nan (x : np.npfloat) : bool :=
  match x with
  | np.NaN => true
  | _ => false
  end.

Definition nanmean (col : list np.npfloat) : np.npfloat :=
  match filter (fun x => negb (is_nan x)) col with
  | [] => np.NaN
  | x :: cells =>
      np.mul (fold_left float_add cells x)
        (np.Finite (1 / inject_Z (Z.of_nat (List.length (x :: cells)))))
  end.

Section TrainModel.

Context {Row Kwargs F : Type} `{Forecaster Row F}.

(** The columns [route_id] and [stop_id] of the training table. *)
Variables route_id_of stop_id_of : Row -> string.

(** [frame[label].values]: [None] when the table has no such column. *)
Variable column : string -> option (Row -> Q).

(** [group.sort_values("timestamp")]. *)
Variable sort_values : list Row -> list Row.

(** The empty keyword arguments [{}]. *)
Variable no_kwargs : Kwargs.

Definition group_key_of (r : Row) : string * string := (route_id_of r, stop_id_of r).

(** [train.groupby(["route_id", "stop_id"])]: the groups in the order of
    their keys, each with its rows in the order of the table. *)
Definition groupby (train : list Row) : list ((string * string) * list Row) :=
  map (fun k => (k, filter (fun r => group_eqb (group_key_of r) k) train))
    (sort_groups (unique group_eqb (map group_key_of train))).

(** [preds.assign(route_id=route_id, stop_id=stop_id)]. *)
Definition assign (key : string * string) (preds : list Prediction) : list ForecastRow :=
  map (fun p => {| prediction := p;
                   forecast_route_id := fst key;
                   forecast_stop_id := snd key |}) preds.

(** The loop of [train_model] over the groups. *)
Fixpoint train_groups (registry : base.Registry Kwargs F) (model_name target_col : string)
    (model_kwargs : Kwargs) (groups : list ((string * string) * list Row))
    (forecasts_list : list (list ForecastRow)) (metrics_accum : list metrics.Metrics)
    : Outcome (list (list ForecastRow) * list metrics.Metrics) :=
  match groups with
  | [] => Returns (forecasts_list, metrics_accum)
  | (key, group) :: rest =>
      let group := sort_values group in
      bind (base.create Kwargs F registry model_name model_kwargs) (fun model =>
      let horizon := holdout_horizon (List.length group) in
      let history := history_of group in
      let validation := validation_of group in
      bind (fit model history target_col) (fun model =>
      bind (predict model horizon) (fun preds =>
      bind (match column target_col with
            | Some target => Returns (map target validation)
            | None => Raises (KeyError target_col)
            end) (fun y_true =>
      bind (evaluate model y_true (map yhat preds)) (fun metrics =>
      train_groups registry model_name target_col model_kwargs rest
        (forecasts_list ++ [assign key preds]) (metrics_accum ++ [metrics]))))))
  end.

Definition train_model (registry : base.Registry Kwargs F) (train : list Row)
    (model_name target_col : string) (model_kwargs : option Kwargs)
    : Outcome (list ForecastRow * metrics.Metrics * string) :=
  let model_kwargs := match model_kwargs with
                      | Some kwargs => kwargs
                      | None => no_kwargs
                      end in
  bind (train_groups registry model_name target_col model_kwargs (groupby train) [] [])
    (fun lists =>
       match fst lists with
       | [] =>
           Returns ([], {| metrics.rmse := np.NaN; metrics.mape := np.NaN |}, model_name)
       | _ :: _ =>
           Returns (List.concat (fst lists),
                    {| metrics.rmse := nanmean (map metrics.rmse (snd lists));
                       metrics.mape := nanmean (map metrics.mape (snd lists)) |},
                    model_name)
       end).

End TrainModel.

End service.

(** ** Inputs for the capacity table and for training *)

Module fixture.

Import builtins.

(** The schedule of the test suite: two trips of one route. *)
Definition stop_time (trip : string) (h : Z) : engineering.StopTime :=
  {| engineering.st_trip_id := trip;
     engineering.arrival_time := Some (h * engineering.hour_ns)%Z;
     engineering.st_stop_id := "STOP1";
     engineering.stop_sequence := 1 |}.

Definition trip (id : string) : engineering.Trip :=
  {| engineering.trip_route_id := "ROUTE1";
     engineering.service_id := "WEEKDAY";
     engineering.trip_id := id |}.

Definition schedule_stop_times : list engineering.StopTime :=
  [stop_time "TRIP1" 8; stop_time "TRIP1" 9; stop_time "TRIP2" 17].

Definition schedule_trips : list engineering.Trip := [trip "TRIP1"; trip "TRIP2"].

Definition schedule : engineering.Gtfs :=
  {| engineering.stop_times := Some schedule_stop_times;
     engineering.trips := Some schedule_trips |}.

(** A forecaster that repeats a constant, and a registry that holds it. *)
Definition flat_prediction : forecaster.Prediction :=
  {| forecaster.pred_timestamp := 0%Z; forecaster.yhat := 10;
     forecaster.yhat_lower := 9; forecaster.yhat_upper := 11 |}.

Definition flat_forecaster : forecaster.Forecaster DemandRecord unit :=
  {| forecaster.fit := fun model _ _ => Returns model;
     forecaster.predict := fun _ horizon => Returns (repeat flat_prediction horizon);
     forecaster.evaluate := fun _ => forecaster.Forecaster_evaluate |}.

Definition flat_registry : base.Registry unit unit :=
  base.register unit unit [] "flat" (fun _ => Returns tt).

(** The numeric columns of a demand table. *)
Definition demand_column (label : string) : option (DemandRecord -> Q) :=
  if String.eqb label "validations" then Some validations else None.

(** [sort_values] on a table that is in timestamp order already. *)
Definition keep_order (rows : list DemandRecord) : list DemandRecord := rows.

End fixture.

(** * The simulator in binary64

    The elasticity simulator once more, with the arithmetic of the
    program: every [float64] operation rounds its exact result to the
    nearest binary64 number, ties to even. *)

(** ** binary64 arithmetic *)

Module f64.

Import np.

(** [2 ^ e]. *)
Definition pow2 (e : Z) : Q := 2 ^ e.

(** [floor (log2 |q|)] of a rational that is not 0. *)
Definition ilog2 (q : Q) : Z :=
  let k := (Z.log2 (Z.abs (Qnum q)) - Z.log2 (Zpos (Qden q)))%Z in
  if Qle_bool (pow2 k) (Qabs q) then k else (k - 1)%Z.

(** The integer nearest to [x], the even one of the two when [x] lies
    half way. *)
Definition rne (x : Q) : Z :=
  let f := Qfloor x in
  match Qcompare (x - inject_Z f) (1 # 2) with
  | Lt => f
  | Gt => (f + 1)%Z
  | Eq => if Z.even f then f else (f + 1)%Z
  end.

(** The exponent of the last of the 53 bits of a number of the size of
    [q]; the subnormal numbers share the exponent -1074. *)
Definition ulp_exponent (q : Q) : Z := Z.max (ilog2 q - 52) (-1074).

(** The multiple of [2 ^ ulp_exponent q] nearest to [q]. *)
Definition round_finite (q : Q) : Q :=
  if Qeq_bool q 0 then 0
  else Qred (inject_Z (rne (q / pow2 (ulp_exponent q))) * pow2 (ulp_exponent q)).

(** Rounding to binary64: to the nearest number, and to an infinity when
    that number is beyond the largest one, [(2 - 2^-52) * 2^1023]. *)
Definition round64 (q : Q) : npfloat :=
  let r := round_finite q in
  if Qle_bool (pow2 1024) (Qabs r) then (if Qle_bool 0 q then PosInf else NegInf)
  else Finite r.

(** [- x]. *)
Definition neg (x : npfloat) : npfloat :=
  match x with
  | Finite a => Finite (- a)
  | PosInf => NegInf
  | NegInf => PosInf
  | NaN => NaN
  end.

(** [x + y]. *)
Definition add (x y : npfloat) : npfloat :=
  match x, y with
  | NaN, _ | _, NaN => NaN
  | Finite a, Finite b => round64 (a + b)
  | PosInf, NegInf | NegInf, PosInf => NaN
  | PosInf, _ | _, PosInf => PosInf
  | NegInf, _ | _, NegInf => NegInf
  end.

(** [x - y]. *)
Definition sub (x y : npfloat) : npfloat := add x (neg y).

(** An infinity of the sign of [positive] times, or divided by, a finite
    [b]. *)
Definition signed_inf (positive : bool) : npfloat := if positive then PosInf else NegInf.

(** [x * y]. *)
Definition mul (x y : npfloat) : npfloat :=
  match x, y with
  | NaN, _ | _, NaN => NaN
  | Finite a, Finite b => round64 (a * b)
  | PosInf, Finite b | Finite b, PosInf =>
      if Qeq_bool b 0 then NaN else signed_inf (Qle_bool 0 b)
  | NegInf, Finite b | Finite b, NegInf =>
      if Qeq_bool b 0 then NaN else signed_inf (negb (Qle_bool 0 b))
  | PosInf, PosInf | NegInf, NegInf => PosInf
  | PosInf, NegInf | NegInf, PosInf => NegInf
  end.

(** [x / y] on numpy scalars: a division by zero raises nothing. *)
Definition div (x y : npfloat) : npfloat :=
  match x, y with
  | NaN, _ | _, NaN => NaN
  | Finite a, Finite b =>
      if Qeq_bool b 0 then
        if Qeq_bool a 0 then NaN else signed_inf (Qle_bool 0 a)
      else round64 (a / b)
  | Finite _, _ => Finite 0
  | PosInf, Finite b => signed_inf (Qle_bool 0 b)
  | NegInf, Finite b => signed_inf (negb (Qle_bool 0 b))
  | _, _ => NaN
  end.

(** The conversion of an [int64] count. *)
Definition of_nat (n : nat) : npfloat := round64 (inject_Z (Z.of_nat n)).

Definition is_nan (x : npfloat) : bool :=
  match x with
  | NaN => true
  | _ => false
  end.

(** [bool(x)]: every float is true except 0; [nan] is true. *)
Definition truth (x : npfloat) : bool :=
  match x with
  | Finite a => negb (Qeq_bool a 0)
  | _ => true
  end.

(** [Series.clip(lower=0)] on one cell: a [nan] stays. *)
Definition clip_lower_0 (x : npfloat) : npfloat :=
  match x with
  | Finite a => if Qle_bool 0 a then x else Finite 0
  | NegInf => Finite 0
  | PosInf => PosInf
  | NaN => NaN
  end.

(** *** [ndarray.sum()]: the pairwise summation of numpy *)

(** The plain loop [res += a[i]]. *)
Definition sum_loop (res : npfloat) (a : list npfloat) : npfloat := fold_left add a res.

(** Elementwise sum of the eight running sums and the next eight cells. *)
Fixpoint add_lanes (r a : list npfloat) : list npfloat :=
  match r, a with
  | x :: r', y :: a' => add x y :: add_lanes r' a'
  | _, _ => []
  end.

(** The unrolled loop over [blocks] blocks of eight cells; it returns
    the running sums and the cells it did not reach. *)
Fixpoint unrolled_loop (blocks : nat) (r a : list npfloat) : list npfloat * list npfloat :=
  match blocks with
  | O => (r, a)
  | S blocks' => unrolled_loop blocks' (add_lanes r (firstn 8 a)) (skipn 8 a)
  end.

(** A block of 8 to 128 cells. *)
Definition unrolled_sum (a : list npfloat) : npfloat :=
  let (r, rest) := unrolled_loop (List.length a / 8 - 1) (firstn 8 a) (skipn 8 a) in
  match r with
  | [r0; r1; r2; r3; r4; r5; r6; r7] =>
      sum_loop (add (add (add r0 r1) (add r2 r3)) (add (add r4 r5) (add r6 r7))) rest
  | _ => sum_loop (Finite 0) a
  end.

(** [pairwise_sum]: fewer than 8 cells are added in a loop, up to 128 in
    the unrolled loop, and more are split in two halves, the first a
    multiple of eight cells long.  [depth] bounds the number of splits. *)
Fixpoint pairwise_sum (depth : nat) (a : list npfloat) : npfloat :=
  let n := List.length a in
  if (n <? 8)%nat then sum_loop (Finite 0) a
  else if (n <=? 128)%nat then unrolled_sum a
  else
    match depth with
    | O => unrolled_sum a
    | S depth' =>
        let n2 := (n / 2 - (n / 2) mod 8)%nat in
        add (pairwise_sum depth' (firstn n2 a)) (pairwise_sum depth' (skipn n2 a))
    end.

(** [Series.sum()]: the missing cells count as 0. *)
Definition sum (col : list npfloat) : npfloat :=
  let values := map (fun x => if is_nan x then Finite 0 else x) col in
  pairwise_sum (List.length values) values.

End f64.

(** ** [simulate_incentives] in binary64 *)

Module incentives64.

Import np builtins.

Record DemandRecord : Type := {
  route_id : string;
  stop_id : string;
  timestamp : Timestamp;
  validations : npfloat
}.

(** The type of the cells of the [timestamp] column. *)
Inductive Dtype : Type :=
| datetime64
| object.

(** A demand [DataFrame]: the labels of its columns, the dtype of its
    [timestamp] column and its rows.  The [validations] column is a
    [float64] column. *)
Record DataFrame : Type := {
  columns : list string;
  timestamp_dtype : Dtype;
  records : list DemandRecord
}.

Definition has_column (df : DataFrame) (label : string) : bool :=
  existsb (String.eqb label) (columns df).

Record ElasticityConfig : Type := {
  price_elasticity : npfloat;
  time_elasticity : npfloat;
  peak_hours : Z * Z;
  shoulder_hours : Z * Z
}.

(** The dataclass defaults [peak_hours=(7, 9)], [shoulder_hours=(10, 15)]. *)
Definition default_config (price time : npfloat) : ElasticityConfig :=
  {| price_elasticity := price; time_elasticity := time;
     peak_hours := (7, 9)%Z; shoulder_hours := (10, 15)%Z |}.

Record HourRow : Type := {
  record : DemandRecord;
  hour : Z
}.

Record SimulationResult : Type := {
  baseline : list HourRow;
  simulated : list HourRow;
  peak_reduction_pct : npfloat;
  revenue_delta_pct : npfloat
}.

Definition with_validations (r : HourRow) (v : npfloat) : HourRow :=
  {| record := {| route_id := route_id (record r); stop_id := stop_id (record r);
                  timestamp := timestamp (record r); validations := v |};
     hour := hour r |}.

(** [frame["validations"] = col]. *)
Fixpoint set_validations (frame : list HourRow) (col : list npfloat) : list HourRow :=
  match frame, col with
  | r :: frame', v :: col' => with_validations r v :: set_validations frame' col'
  | _, _ => frame
  end.

Definition validations_col (frame : list HourRow) : list npfloat :=
  map (fun r => validations (record r)) frame.

Definition peak_mask_of (elasticity : ElasticityConfig) (frame : list HourRow) : list bool :=
  map (fun r => between (fst (peak_hours elasticity)) (snd (peak_hours elasticity)) (hour r)) frame.

Definition shoulder_mask_of (elasticity : ElasticityConfig) (frame : list HourRow) : list bool :=
  map (fun r => between (fst (shoulder_hours elasticity)) (snd (shoulder_hours elasticity)) (hour r)) frame.

(** Elementwise [a + b] of two aligned series. *)
Fixpoint series_add (a b : list npfloat) : list npfloat :=
  match a, b with
  | x :: a', y :: b' => f64.add x y :: series_add a' b'
  | _, _ => []
  end.

(** The body of [simulate_incentives] once the [hour] column is there. *)
Definition simulate_frame (rows : list DemandRecord) (elasticity : ElasticityConfig)
    (fare : npfloat) : SimulationResult :=
  let baseline := map (fun r => {| record := r; hour := dt_hour (timestamp r) |}) rows in
  let baseline_revenue := f64.mul (f64.sum (validations_col baseline)) fare in
  let simulated := baseline in
  let peak_mask := peak_mask_of elasticity simulated in
  let shoulder_mask := shoulder_mask_of elasticity simulated in
  let peak_demand := loc peak_mask (validations_col simulated) in
  let shoulder_demand := loc shoulder_mask (validations_col simulated) in
  let total_elasticity := f64.add (price_elasticity elasticity) (time_elasticity elasticity) in
  let shifted := map (fun v => f64.mul v (f64.neg total_elasticity)) peak_demand in
  let col1 := set_loc peak_mask (series_add peak_demand shifted) (validations_col simulated) in
  let shoulder_count := f64.of_nat (Nat.max (mask_sum shoulder_mask) 1) in
  let share := f64.div (f64.sum shifted) shoulder_count in
  let col2 := set_loc shoulder_mask (map (fun v => f64.sub v share) shoulder_demand) col1 in
  let col3 := map f64.clip_lower_0 col2 in
  let simulated := set_validations simulated col3 in
  let simulated_revenue := f64.mul (f64.sum (validations_col simulated)) fare in
  let peak_reduction :=
    f64.sub (Finite 1)
      (f64.div (f64.sum (loc peak_mask (validations_col simulated))) (f64.sum peak_demand)) in
  let revenue_delta :=
    if f64.truth baseline_revenue
    then f64.div (f64.sub simulated_revenue baseline_revenue) baseline_revenue
    else Finite 0 in
  {| baseline := baseline;
     simulated := simulated;
     peak_reduction_pct := f64.mul peak_reduction (Finite 100);
     revenue_delta_pct := f64.mul revenue_delta (Finite 100) |}.

(** [simulate_incentives].  Line 32 looks the [timestamp] column up and
    reads its [.dt] accessor, which only a datetime column has; line 33
    looks the [validations] column up. *)
Definition simulate_incentives (demand : DataFrame) (elasticity : ElasticityConfig)
    (fare : npfloat) : Outcome SimulationResult :=
  if negb (has_column demand "timestamp") then Raises (KeyError "timestamp")
  else
    match timestamp_dtype demand with
    | object => Raises (AttributeError "Series" "dt")
    | datetime64 =>
        if negb (has_column demand "validations") then Raises (KeyError "validations")
        else Returns (simulate_frame (records demand) elasticity fare)
    end.

(** *** Row-wise reading of the same computation *)

Definition total_elasticity (elasticity : ElasticityConfig) : npfloat :=
  f64.add (price_elasticity elasticity) (time_elasticity elasticity).

Definition in_peak (elasticity : ElasticityConfig) (r : DemandRecord) : bool :=
  between (fst (peak_hours elasticity)) (snd (peak_hours elasticity)) (dt_hour (timestamp r)).

Definition in_shoulder (elasticity : ElasticityConfig) (r : DemandRecord) : bool :=
  between (fst (shoulder_hours elasticity)) (snd (shoulder_hours elasticity))
    (dt_hour (timestamp r)).

Definition is_class (elasticity : ElasticityConfig) (r : DemandRecord)
    (c : incentives.HourClass) : bool :=
  match c with
  | incentives.Peak => in_peak elasticity r
  | incentives.Shoulder => in_shoulder elasticity r
  | incentives.Other => negb (in_peak elasticity r) && negb (in_shoulder elasticity r)
  end.

(** No hour of the day lies in both ranges. *)
Definition ranges_disjoint (elasticity : ElasticityConfig) : bool :=
  forallb
    (fun h => negb (between (fst (peak_hours elasticity)) (snd (peak_hours elasticity)) h
                    && between (fst (shoulder_hours elasticity))
                         (snd (shoulder_hours elasticity)) h))
    (map Z.of_nat (seq 0 24)).

(** The cell of [shifted] of a peak row with the validations [v]. *)
Definition shifted_cell (elasticity : ElasticityConfig) (v : npfloat) : npfloat :=
  f64.mul v (f64.neg (total_elasticity elasticity)).

Definition peak_validations (elasticity : ElasticityConfig) (rows : list DemandRecord)
    : list npfloat :=
  map validations (filter (in_peak elasticity) rows).

Definition shoulder_count (elasticity : ElasticityConfig) (rows : list DemandRecord) : nat :=
  List.length (filter (in_shoulder elasticity) rows).

(** [shifted.sum() / shoulder_count]. *)
Definition shoulder_share (elasticity : ElasticityConfig) (rows : list DemandRecord) : npfloat :=
  f64.div (f64.sum (map (shifted_cell elasticity) (peak_validations elasticity rows)))
    (f64.of_nat (Nat.max (shoulder_count elasticity rows) 1)).

(** The simulated validations of one row of the table [rows]. *)
Definition simulated_cell (elasticity : ElasticityConfig) (rows : list DemandRecord)
    (r : DemandRecord) : npfloat :=
  f64.clip_lower_0
    (if in_shoulder elasticity r then f64.sub (validations r) (shoulder_share elasticity rows)
     else if in_peak elasticity r
          then f64.add (validations r) (shifted_cell elasticity (validations r))
          else validations r).

End incentives64.

(** ** The accuracy of binary64 arithmetic *)

Module accuracy.

(** The unit roundoff [2^-53], half the smallest subnormal number
    [2^-1075], and a bound, [2^1023], below which a result cannot
    overflow. *)
Definition u : Q := 1 # 9007199254740992.
Definition eta : Q := f64.pow2 (-1075).
Definition omega : Q := f64.pow2 1023.

(** A bound on the size of the inputs, [2^500], far from overflow. *)
Definition large : Q := f64.pow2 500.

(** [x] is the finite float [r], and [r] is within [tol] of [a]. *)
Definition approx (x : np.npfloat) (a tol : Q) : Prop :=
  exists r, x = np.Finite r /\ Qabs (r - a) <= tol.

End accuracy.

(** ** Inputs of the scenarios, in binary64 *)

Module scenario64.

Import np incentives64.

Definition demand_row (route stop : string) (h : Z) (v : npfloat) : DemandRecord :=
  {| route_id := route; stop_id := stop; timestamp := scenario.at_hour h; validations := v |}.

Definition frame (rows : list DemandRecord) : DataFrame :=
  {| columns := scenario.demand_columns; timestamp_dtype := datetime64; records := rows |}.

(** The float a decimal literal denotes: the binary64 number nearest to
    it. *)
Definition literal (q : Q) : npfloat := f64.round64 q.

(** Scenario A: three peak rows of 100 and six shoulder rows of 50,
    both elasticities 0.05. *)
Definition A_demand : DataFrame :=
  frame [demand_row "R1" "S1" 7 (Finite 100); demand_row "R1" "S1" 8 (Finite 100);
         demand_row "R1" "S1" 9 (Finite 100); demand_row "R1" "S1" 10 (Finite 50);
         demand_row "R1" "S1" 11 (Finite 50); demand_row "R1" "S1" 12 (Finite 50);
         demand_row "R1" "S1" 13 (Finite 50); demand_row "R1" "S1" 14 (Finite 50);
         demand_row "R1" "S1" 15 (Finite 50)].

Definition A_elasticity : ElasticityConfig :=
  default_config (literal (1 # 20)) (literal (1 # 20)).

(** Hour 9 lies in both ranges. *)
Definition overlap_elasticity : ElasticityConfig :=
  {| price_elasticity := literal (1 # 20); time_elasticity := literal (1 # 20);
     peak_hours := (7, 9)%Z; shoulder_hours := (9, 15)%Z |}.

Definition overlap_demand : DataFrame := frame [demand_row "R1" "S1" 9 (Finite 100)].

(** One peak row of 100, elasticities 0.57 and 0.34. *)
Definition steep_elasticity : ElasticityConfig :=
  default_config (literal (57 # 100)) (literal (34 # 100)).

Definition one_peak_demand : DataFrame := frame [demand_row "R1" "S1" 8 (Finite 100)].

(** One peak row of 3 and three shoulder rows of 16. *)
Definition small_demand : DataFrame :=
  frame [demand_row "R1" "S1" 8 (Finite 3); demand_row "R1" "S1" 10 (Finite 16);
         demand_row "R1" "S1" 11 (Finite 16); demand_row "R1" "S1" 12 (Finite 16)].

(** An empty table that has every column, its timestamps typed as
    datetimes ([demand.iloc[0:0]] of a loaded table). *)
Definition empty_demand : DataFrame := frame [].

(** The empty table [pd.DataFrame(columns=[...])]: its columns have the
    dtype [object]. *)
Definition empty_object_demand : DataFrame :=
  {| columns := scenario.demand_columns; timestamp_dtype := object; records := [] |}.

(** Tables that lack one of the two columns the simulator reads. *)
Definition no_timestamp_demand : DataFrame :=
  {| columns := ["route_id"; "stop_id"; "validations"]%string;
     timestamp_dtype := datetime64;
     records := [demand_row "R1" "S1" 8 (Finite 100)] |}.

Definition no_validations_demand : DataFrame :=
  {| columns := ["route_id"; "stop_id"; "timestamp"]%string;
     timestamp_dtype := datetime64;
     records := [demand_row "R1" "S1" 8 (Finite 100)] |}.

End scenario64.


(** * Properties *)

(** ** Sums, clips and columns *)

Section Columns.

Lemma sum_app (a b : list Q) : np.sum (a ++ b) == np.sum a + np.sum b.
Proof.
  induction a as [|x a IH]; simpl.
  - ring.
  - rewrite IH. ring.
Qed.

Lemma sum_nonneg (l : list Q) : Forall (fun x => 0 <= x) l -> 0 <= np.sum l.
Proof.
  induction 1 as [|x l Hx _ IH]; simpl.
  - apply Qle_refl.
  - lra.
Qed.

(** A sum of non-negative cells is zero only when every cell is. *)
Lemma sum_zero_cells (l : list Q) :
  Forall (fun x => 0 <= x) l -> np.sum l == 0 -> Forall (fun x => x == 0) l.
Proof.
  induction 1 as [|x l Hx Hl IH]; simpl; intros Hs.
  - constructor.
  - pose proof (sum_nonneg l Hl) as Hn.
    constructor.
    + lra.
    + apply IH. lra.
Qed.

Lemma sum_map_zero {A : Type} (f : A -> Q) (l : list A) :
  Forall (fun x => f x == 0) l -> np.sum (map f l) == 0.
Proof.
  induction 1 as [|x l Hx _ IH]; simpl.
  - reflexivity.
  - rewrite Hx, IH. ring.
Qed.

Lemma sum_map_Qeq {A : Type} (f g : A -> Q) (l : list A) :
  Forall (fun x => f x == g x) l -> np.sum (map f l) == np.sum (map g l).
Proof.
  induction 1 as [|x l Hx _ IH]; simpl.
  - reflexivity.
  - rewrite Hx, IH. reflexivity.
Qed.

Lemma sum_map_scale {A : Type} (f : A -> Q) (c : Q) (l : list A) :
  np.sum (map (fun x => f x * c) l) == np.sum (map f l) * c.
Proof.
  induction l as [|x l IH]; simpl.
  - ring.
  - rewrite IH. ring.
Qed.

Lemma clip_lower_nonneg (x : Q) : 0 <= np.clip_lower 0 x.
Proof.
  unfold np.clip_lower. destruct (Qle_bool 0 x) eqn:E.
  - now apply Qle_bool_iff.
  - apply Qle_refl.
Qed.

Lemma clip_lower_id (x : Q) : 0 <= x -> np.clip_lower 0 x = x.
Proof.
  intros H. unfold np.clip_lower.
  apply Qle_bool_iff in H. now rewrite H.
Qed.

Lemma clip_lower_Qeq (x y : Q) : x == y -> np.clip_lower 0 x == np.clip_lower 0 y.
Proof.
  intros H. unfold np.clip_lower.
  destruct (Qle_bool 0 x) eqn:Ex, (Qle_bool 0 y) eqn:Ey; try assumption; try reflexivity.
  - apply Qle_bool_iff in Ex. rewrite H in Ex. apply Qle_bool_iff in Ex. congruence.
  - apply Qle_bool_iff in Ey. rewrite <- H in Ey. apply Qle_bool_iff in Ey. congruence.
Qed.

Lemma clip_lower_zero (x : Q) : x == 0 -> np.clip_lower 0 x == 0.
Proof.
  intros H. unfold np.clip_lower. destruct (Qle_bool 0 x); [assumption | reflexivity].
Qed.

Context {A : Type}.

Lemma loc_map (p : A -> bool) (f : A -> Q) (l : list A) :
  loc (map p l) (map f l) = map f (filter p l).
Proof.
  induction l as [|x l IH]; simpl.
  - reflexivity.
  - destruct (p x); simpl; now rewrite IH.
Qed.

(** Writing, at the selected rows, a series computed from those rows. *)
Lemma set_loc_map (p : A -> bool) (g h : A -> Q) (l : list A) :
  set_loc (map p l) (map g (filter p l)) (map h l)
  = map (fun x => if p x then g x else h x) l.
Proof.
  induction l as [|x l IH]; simpl.
  - reflexivity.
  - destruct (p x); simpl; now rewrite IH.
Qed.

Lemma series_add_map (f g : A -> Q) (l : list A) :
  series_add (map f l) (map g l) = map (fun x => f x + g x) l.
Proof.
  induction l as [|x l IH]; simpl.
  - reflexivity.
  - now rewrite IH.
Qed.

Lemma series_mul_map (f g : A -> Q) (l : list A) :
  series_mul (map f l) (map g l) = map (fun x => f x * g x) l.
Proof.
  induction l as [|x l IH]; simpl.
  - reflexivity.
  - now rewrite IH.
Qed.

Lemma mask_sum_map (p : A -> bool) (l : list A) :
  mask_sum (map p l) = List.length (filter p l).
Proof.
  unfold mask_sum. induction l as [|x l IH]; simpl.
  - reflexivity.
  - destruct (p x); simpl; now rewrite IH.
Qed.

End Columns.

(** ** The simulator, row by row *)

Section Simulator.

Import incentives.

Variable elasticity : ElasticityConfig.

Let stamp (r : DemandRecord) : HourRow := {| record := r; hour := dt_hour (timestamp r) |}.

Lemma validations_col_stamp (rows : list DemandRecord) :
  validations_col (map stamp rows) = map validations rows.
Proof. unfold validations_col. rewrite map_map. reflexivity. Qed.

Lemma peak_mask_stamp (rows : list DemandRecord) :
  peak_mask_of elasticity (map stamp rows) = map (in_peak elasticity) rows.
Proof. unfold peak_mask_of. rewrite map_map. reflexivity. Qed.

Lemma shoulder_mask_stamp (rows : list DemandRecord) :
  shoulder_mask_of elasticity (map stamp rows) = map (in_shoulder elasticity) rows.
Proof. unfold shoulder_mask_of. rewrite map_map. reflexivity. Qed.

Lemma validations_col_set (f : DemandRecord -> Q) (rows : list DemandRecord) :
  validations_col (set_validations (map stamp rows) (map f rows)) = map f rows.
Proof.
  induction rows as [|r rows IH]; simpl.
  - reflexivity.
  - f_equal. exact IH.
Qed.

Lemma set_validations_length (frame : list HourRow) (col : list Q) :
  List.length (set_validations frame col) = List.length frame.
Proof.
  revert col. induction frame as [|r frame IH]; intros [|v col]; simpl; auto.
Qed.

(** The rows of [simulated] are the rows of the table with only the
    validations replaced. *)
Lemma set_validations_nth (f : DemandRecord -> Q) (rows : list DemandRecord) (i : nat)
    (r : DemandRecord) :
  nth_error rows i = Some r ->
  nth_error (set_validations (map stamp rows) (map f rows)) i
  = Some (with_validations (stamp r) (f r)).
Proof.
  revert i. induction rows as [|r0 rows IH]; intros [|i]; simpl; try discriminate.
  - intros [= ->]. reflexivity.
  - apply IH.
Qed.

(** The column-wise code computes [simulated_cell] at every row. *)
Lemma simulated_col (rows : list DemandRecord) :
  let peak_demand := loc (map (in_peak elasticity) rows) (map validations rows) in
  let shifted := map (fun v => v * (- total_elasticity elasticity)) peak_demand in
  map (np.clip_lower 0)
    (set_loc (map (in_shoulder elasticity) rows)
       (map (fun v => v - np.sum shifted
                          / inject_Z (Z.of_nat
                              (Nat.max (mask_sum (map (in_shoulder elasticity) rows)) 1)))
          (loc (map (in_shoulder elasticity) rows) (map validations rows)))
       (set_loc (map (in_peak elasticity) rows) (series_add peak_demand shifted)
          (map validations rows)))
  = map (simulated_cell elasticity rows) rows.
Proof.
  cbv zeta.
  rewrite !loc_map, mask_sum_map.
  rewrite (map_map validations (fun v => v * - total_elasticity elasticity)).
  rewrite series_add_map, set_loc_map.
  rewrite (map_map validations).
  rewrite set_loc_map, map_map.
  apply map_ext. intros r.
  unfold simulated_cell, shoulder_share, shifted_sum, peak_validations, shoulder_count.
  rewrite map_map. reflexivity.
Qed.

Lemma simulate_frame_simulated (rows : list DemandRecord) (fare : Q) :
  simulated (simulate_frame rows elasticity fare)
  = set_validations (map stamp rows) (map (simulated_cell elasticity rows) rows).
Proof.
  unfold simulate_frame. cbv zeta. cbn [simulated].
  fold stamp.
  rewrite peak_mask_stamp, shoulder_mask_stamp, validations_col_stamp.
  rewrite <- simulated_col. reflexivity.
Qed.

Lemma simulate_frame_baseline (rows : list DemandRecord) (fare : Q) :
  baseline (simulate_frame rows elasticity fare) = map stamp rows.
Proof. reflexivity. Qed.

Lemma simulate_frame_peak_reduction (rows : list DemandRecord) (fare : Q) :
  peak_reduction_pct (simulate_frame rows elasticity fare)
  = np.mul
      (np.sub (np.Finite 1)
         (np.div
            (np.sum (map (simulated_cell elasticity rows) (filter (in_peak elasticity) rows)))
            (np.sum (peak_validations elasticity rows))))
      (np.Finite 100).
Proof.
  unfold simulate_frame. cbv zeta. cbn [peak_reduction_pct].
  fold stamp.
  rewrite peak_mask_stamp, shoulder_mask_stamp, validations_col_stamp.
  rewrite simulated_col, validations_col_set, !loc_map.
  reflexivity.
Qed.

Lemma simulate_frame_revenue_delta (rows : list DemandRecord) (fare : Q) :
  revenue_delta_pct (simulate_frame rows elasticity fare)
  = (if negb (Qeq_bool (np.sum (map validations rows) * fare) 0)
     then (np.sum (map (simulated_cell elasticity rows) rows) * fare
           - np.sum (map validations rows) * fare)
          / (np.sum (map validations rows) * fare)
     else 0) * 100.
Proof.
  unfold simulate_frame. cbv zeta. cbn [revenue_delta_pct].
  fold stamp.
  rewrite peak_mask_stamp, shoulder_mask_stamp, validations_col_stamp.
  rewrite simulated_col, validations_col_set.
  reflexivity.
Qed.

(** A frame with both columns is simulated; no other check is made. *)
Lemma simulate_incentives_returns (demand : DataFrame) (fare : Q) (res : SimulationResult) :
  simulate_incentives demand elasticity fare = Return res ->
  res = simulate_frame (records demand) elasticity fare.
Proof.
  unfold simulate_incentives.
  destruct (has_column demand "timestamp"); simpl; try discriminate.
  destruct (has_column demand "validations"); simpl; try discriminate.
  now intros [= <-].
Qed.

Lemma dt_hour_range (ts : Timestamp) : In (dt_hour ts) (map Z.of_nat (seq 0 24)).
Proof.
  unfold dt_hour.
  pose proof (Z.mod_pos_bound (ts / 3600000000000) 24 eq_refl) as Hb.
  apply in_map_iff. exists (Z.to_nat ((ts / 3600000000000) mod 24)). split.
  - apply Z2Nat.id. lia.
  - apply in_seq. lia.
Qed.


End Simulator.

(** ** Properties of the simulator *)

Section SimulatorProperties.

Import incentives.

Lemma sum_map_const {A : Type} (f : A -> Q) (c : Q) (l : list A) :
  Forall (fun x => f x == c) l ->
  np.sum (map f l) == inject_Z (Z.of_nat (List.length l)) * c.
Proof.
  induction 1 as [|x l Hx _ IH]; cbn [map np.sum fold_right List.length].
  - change (inject_Z (Z.of_nat 0)) with 0. ring.
  - unfold np.sum in IH. rewrite Hx, IH.
    rewrite Nat2Z.inj_succ, <- Z.add_1_r, inject_Z_plus. change (inject_Z 1) with 1. ring.
Qed.

Lemma div_finite (a b : Q) : ~ b == 0 -> np.div a b = np.Finite (a / b).
Proof.
  intros Hb. unfold np.div. destruct (Qeq_bool b 0) eqn:E; [|reflexivity].
  apply Qeq_bool_iff in E. contradiction.
Qed.

(** Without peak demand nothing is shifted. *)
Lemma no_peak_demand_no_shift (elasticity : ElasticityConfig) (rows : list DemandRecord) :
  Forall (fun v => v == 0) (peak_validations elasticity rows) ->
  shoulder_share elasticity rows == 0.
Proof.
  intros Hz. unfold shoulder_share, shifted_sum.
  rewrite sum_map_zero.
  - unfold Qdiv. ring.
  - eapply Forall_impl; [|exact Hz]. intros v Hv. simpl in Hv. rewrite Hv. ring.
Qed.

(** C8, what the code does.  When the baseline validations of the peak
    rows sum to 0 (also when there is no peak row), the division
    [simulated peak sum / baseline peak sum] is [0 / 0]: the result is
    [peak_reduction_pct = nan], not 0. *)
Theorem zero_peak_demand_gives_nan (demand : DataFrame) (elasticity : ElasticityConfig)
    (fare : Q) (res : SimulationResult) :
  Forall (fun r => 0 <= validations r) (records demand) ->
  np.sum (peak_validations elasticity (records demand)) == 0 ->
  simulate_incentives demand elasticity fare = Return res ->
  peak_reduction_pct res = np.NaN.
Proof.
  intros Hnn Hsum Hres.
  apply simulate_incentives_returns in Hres. subst res.
  rewrite simulate_frame_peak_reduction.
  set (rows := records demand) in *.
  assert (Hz : Forall (fun v => v == 0) (peak_validations elasticity rows)).
  { apply sum_zero_cells; [|exact Hsum].
    unfold peak_validations. apply Forall_map.
    apply Forall_forall. intros r Hr. apply filter_In in Hr.
    rewrite Forall_forall in Hnn. apply Hnn. tauto. }
  pose proof (no_peak_demand_no_shift elasticity rows Hz) as Hshare.
  assert (Hsim : np.sum (map (simulated_cell elasticity rows)
                           (filter (in_peak elasticity) rows)) == 0).
  { apply sum_map_zero.
    unfold peak_validations in Hz. rewrite Forall_map in Hz.
    rewrite Forall_forall in Hz |- *. intros r Hr.
    pose proof (Hz r Hr) as Hv. simpl in Hv.
    apply filter_In in Hr. destruct Hr as [_ Hp].
    unfold simulated_cell. rewrite Hp.
    apply clip_lower_zero.
    destruct (in_shoulder elasticity r).
    - rewrite Hv, Hshare. ring.
    - rewrite Hv. ring. }
  unfold np.div.
  apply Qeq_bool_iff in Hsum, Hsim. rewrite Hsum, Hsim.
  reflexivity.
Qed.

Lemma zero_peak_demand_gives_nan_witness :
  Forall (fun r => 0 <= validations r) (records scenario.midday_demand)
  /\ np.sum (peak_validations scenario.A_elasticity (records scenario.midday_demand)) == 0
  /\ simulate_incentives scenario.midday_demand scenario.A_elasticity 2
     = Return (simulate_frame (records scenario.midday_demand) scenario.A_elasticity 2)
  /\ peak_reduction_pct (simulate_frame (records scenario.midday_demand) scenario.A_elasticity 2)
     = np.NaN.
Proof.
  assert (Hnn : Forall (fun r => 0 <= validations r) (records scenario.midday_demand)).
  { repeat constructor. vm_compute. discriminate. }
  assert (Hsum : np.sum (peak_validations scenario.A_elasticity
                           (records scenario.midday_demand)) == 0).
  { vm_compute. reflexivity. }
  split; [exact Hnn|]. split; [exact Hsum|]. split; [reflexivity|].
  exact (zero_peak_demand_gives_nan scenario.midday_demand scenario.A_elasticity 2 _
           Hnn Hsum eq_refl).
Defined.






End SimulatorProperties.

(** ** The model handed to the solver *)

Section Model.

Import optimizer.

Lemma unique_In {A : Type} (eqb : A -> A -> bool) (l : list A) (x : A) :
  (forall a b, eqb a b = true <-> a = b) ->
  In x (unique eqb l) <-> In x l.
Proof.
  intros Heqb. induction l as [|a l IH]; simpl.
  - tauto.
  - rewrite filter_In, IH. split.
    + tauto.
    + intros [-> | Hx]; [now left|].
      destruct (eqb a x) eqn:E.
      * left. now apply Heqb.
      * right. split; [exact Hx | reflexivity].
Qed.

Lemma insert_sorted_perm (t : Z) (l : list Z) : Permutation (insert_sorted t l) (t :: l).
Proof.
  induction l as [|u l IH]; simpl.
  - reflexivity.
  - destruct (t <=? u)%Z.
    + reflexivity.
    + rewrite IH. apply perm_swap.
Qed.

Lemma sorted_perm (l : list Z) : Permutation (sorted l) l.
Proof.
  induction l as [|t l IH]; simpl.
  - reflexivity.
  - rewrite insert_sorted_perm. now constructor.
Qed.

Lemma routes_of_In (demand : list DemandRecord) (route : string) :
  In route (routes_of demand) <-> In route (map route_id demand).
Proof. apply unique_In. apply String.eqb_eq. Qed.

Lemma timestamps_of_In (demand : list DemandRecord) (ts : Timestamp) :
  In ts (timestamps_of demand) <-> In ts (map timestamp demand).
Proof.
  unfold timestamps_of. split; intros H.
  - apply (Permutation_in _ (sorted_perm _)) in H.
    now apply (unique_In Z.eqb _ _ Z.eqb_eq).
  - apply (Permutation_in _ (Permutation_sym (sorted_perm _))).
    now apply (unique_In Z.eqb _ _ Z.eqb_eq).
Qed.

Variable value : LpVariable -> Q.

Lemma eval_var (v : LpVariable) : eval value (var v) == value v.
Proof. unfold eval. simpl. ring. Qed.

Lemma eval_const (c : Q) : eval value (const c) == c.
Proof. unfold eval. simpl. ring. Qed.

Lemma eval_times (v : LpVariable) (c : Q) : eval value (times v c) == value v * c.
Proof. unfold eval. simpl. ring. Qed.

Lemma eval_lpSum (es : list LpAffineExpression) :
  eval value (lpSum es) == np.sum (map (eval value) es).
Proof.
  unfold eval, lpSum. cbn [terms constant].
  induction es as [|e es IH]; cbn [flat_map map np.sum fold_right].
  - ring.
  - rewrite map_app, sum_app.
    unfold np.sum in IH |- *. rewrite <- IH. ring.
Qed.

Lemma sum_flat_map {A B : Type} (g : B -> Q) (h : A -> list B) (l : list A) :
  np.sum (map g (flat_map h l)) == np.sum (map (fun x => np.sum (map g (h x))) l).
Proof.
  induction l as [|x l IH]; cbn [flat_map map np.sum fold_right].
  - reflexivity.
  - rewrite map_app, sum_app. unfold np.sum in IH |- *. rewrite IH. reflexivity.
Qed.

(** The left side of a peak constraint: the load of a timestamp. *)
Lemma eval_peak_lhs (routes : list string) (ts : Timestamp) :
  eval value (lpSum (map (fun route => var (decision route ts)) routes))
  == np.sum (map (fun route => value (decision route ts)) routes).
Proof.
  rewrite eval_lpSum, map_map.
  apply sum_map_Qeq. apply Forall_forall. intros route _. apply eval_var.
Qed.

(** The left side of the revenue constraint: the revenue of all the
    decision variables. *)
Lemma eval_revenue_lhs (demand : list DemandRecord) (fares : list (string * Q)) :
  eval value
    (lpSum (flat_map
              (fun route =>
                 map (fun ts => times (decision route ts) (fare_of fares route))
                   (timestamps_of demand))
              (routes_of demand)))
  == achieved_revenue value demand fares.
Proof.
  rewrite eval_lpSum, sum_flat_map. unfold achieved_revenue.
  apply sum_map_Qeq. apply Forall_forall. intros route _.
  rewrite map_map.
  apply sum_map_Qeq. apply Forall_forall. intros ts _. apply eval_times.
Qed.

Variables (demand : list DemandRecord) (capacity : list CapacityRecord)
  (fares : list (string * Q)) (config : OptimizationConfig) (eps : Q).

Hypothesis Hfeasible : feasible_within eps (build_model demand capacity fares config) value.

Lemma feasible_constraint (c : LpConstraint) :
  In c (constraints (build_model demand capacity fares config)) -> holds_within eps value c.
Proof.
  destruct Hfeasible as [Hc _]. rewrite Forall_forall in Hc. apply Hc.
Qed.

(** The service floor of a demand row. *)
Lemma feasible_service_floor (r : DemandRecord) :
  In r demand ->
  validations r * min_service_factor config - eps
  <= value (decision (route_id r) (timestamp r)).
Proof.
  intros Hr.
  assert (Hc := feasible_constraint
                  (ge (var (decision (route_id r) (timestamp r)))
                      (const (validations r * min_service_factor config)))).
  unfold holds_within in Hc. cbn [sense ge lhs rhs] in Hc.
  rewrite eval_var, eval_const in Hc.
  assert (Hle : validations r * min_service_factor config
                <= value (decision (route_id r) (timestamp r)) + eps).
  { apply Hc. cbn [constraints build_model].
    rewrite !in_app_iff. right. right. right.
    unfold service_constraints.
    apply (in_map (fun row =>
                     ge (var (decision (route_id row) (timestamp row)))
                        (const (validations row * min_service_factor config)))).
    exact Hr. }
  lra.
Qed.

(** The peak bound of a timestamp of the table. *)
Lemma feasible_peak_bound (ts : Timestamp) :
  In ts (map timestamp demand) ->
  np.sum (map (fun route => value (decision route ts)) (routes_of demand))
  <= value peak_var + eps.
Proof.
  intros Hts. apply timestamps_of_In in Hts.
  assert (Hc := feasible_constraint
                  (le (lpSum (map (fun route => var (decision route ts)) (routes_of demand)))
                      (var peak_var))).
  unfold holds_within in Hc. cbn [sense le lhs rhs] in Hc.
  rewrite eval_peak_lhs, eval_var in Hc.
  apply Hc. cbn [constraints build_model].
  rewrite !in_app_iff. right. left.
  unfold peak_constraints.
  apply (in_map (fun ts =>
                   le (lpSum (map (fun route => var (decision route ts)) (routes_of demand)))
                      (var peak_var))).
  exact Hts.
Qed.

(** The revenue floor. *)
Lemma feasible_revenue_floor :
  baseline_revenue demand fares * (1 - revenue_tolerance config) - eps
  <= achieved_revenue value demand fares.
Proof.
  assert (Hc := feasible_constraint
                  (revenue_constraint (routes_of demand) (timestamps_of demand) fares
                     (baseline_revenue demand fares * (1 - revenue_tolerance config)))).
  unfold holds_within in Hc. cbn [sense revenue_constraint ge lhs rhs] in Hc.
  rewrite eval_revenue_lhs, eval_const in Hc.
  assert (Hle : baseline_revenue demand fares * (1 - revenue_tolerance config)
                <= achieved_revenue value demand fares + eps).
  { apply Hc. cbn [constraints build_model].
    rewrite !in_app_iff. right. right. left. now left. }
  lra.
Qed.

(** The capacity bound of a pair of the grid. *)
Lemma feasible_capacity_bound (route : string) (ts : Timestamp) :
  In route (map route_id demand) -> In ts (map timestamp demand) ->
  value (decision route ts) <= cap_value capacity route ts + eps.
Proof.
  intros Hr Hts. apply routes_of_In in Hr. apply timestamps_of_In in Hts.
  assert (Hc := feasible_constraint
                  (le (var (decision route ts)) (const (cap_value capacity route ts)))).
  unfold holds_within in Hc. cbn [sense le lhs rhs] in Hc.
  rewrite eval_var, eval_const in Hc.
  apply Hc. cbn [constraints build_model].
  rewrite !in_app_iff. left.
  unfold capacity_constraints. apply in_flat_map. exists route. split; [exact Hr|].
  apply (in_map (fun ts => le (var (decision route ts)) (const (cap_value capacity route ts)))).
  exact Hts.
Qed.

(** The lower bound of a decision variable of the grid. *)
Lemma feasible_lower_bound (route : string) (ts : Timestamp) :
  In route (routes_of demand) -> In ts (map timestamp demand) ->
  - eps <= value (decision route ts).
Proof.
  intros Hr Hts. apply timestamps_of_In in Hts.
  destruct Hfeasible as [_ Hv]. rewrite Forall_forall in Hv.
  apply (Hv (decision route ts)).
  cbn [variables build_model]. unfold model_variables.
  rewrite in_app_iff. left.
  apply in_flat_map. exists ts. split; [exact Hts|].
  apply (in_map (fun route => decision route ts)). exact Hr.
Qed.

End Model.

(** ** Properties of the optimizer *)

Section OptimizerProperties.

Import optimizer.

(** With a solver installed the table comes back, whatever the solver
    reported: one output row per demand row. *)
Lemma optimize_demand_returns (solve : Solver) (demand : list DemandRecord)
    (capacity : list CapacityRecord) (fares : list (string * Q)) (config : OptimizationConfig)
    (out : list OptimizedRow) :
  optimize_demand (Some solve) demand capacity fares config = Return out ->
  let value := snd (solve (build_model demand capacity fares config)) in
  exists delta,
    out = map (fun r => {| row := r;
                           optimized_validations := value (decision (route_id r) (timestamp r));
                           capacity := cap_value capacity (route_id r) (timestamp r);
                           peak_load := value peak_var;
                           revenue_delta_pct := delta |})
            demand.
Proof.
  unfold optimize_demand. intros [= <-]. cbv zeta. eexists. reflexivity.
Qed.

(** C1. When the solve succeeds, every row of the demand table has, at
    the same position of the returned table, [optimized_validations] at
    least [validations * min_service_factor], up to the solver's
    tolerance. *)
Theorem service_floor_respected (solve : Solver) (demand : list DemandRecord)
    (capacity : list CapacityRecord) (fares : list (string * Q)) (config : OptimizationConfig)
    (eps : Q) (out : list OptimizedRow) :
  optimize_demand (Some solve) demand capacity fares config = Return out ->
  solve_succeeds eps solve (build_model demand capacity fares config) ->
  forall (i : nat) (r : DemandRecord),
    nth_error demand i = Some r ->
    exists o, nth_error out i = Some o
              /\ row o = r
              /\ validations r * min_service_factor config - eps <= optimized_validations o.
Proof.
  intros Hout [_ Hfeas] i r Hi.
  apply optimize_demand_returns in Hout. cbv zeta in Hout. destruct Hout as [delta ->].
  eexists. split.
  - rewrite nth_error_map, Hi. reflexivity.
  - split; [reflexivity|]. cbn [optimized_validations].
    eapply feasible_service_floor; [exact Hfeas|].
    eapply nth_error_In. exact Hi.
Qed.


Lemma holds_withinb_sound (eps : Q) (value : LpVariable -> Q) (c : LpConstraint) :
  holds_withinb eps value c = true -> holds_within eps value c.
Proof.
  unfold holds_withinb, holds_within.
  destruct (sense c); apply Qle_bool_imp_le.
Qed.

(** The boolean check of a candidate assignment is sound. *)
Lemma feasible_withinb_sound (eps : Q) (P : LpProblem) (value : LpVariable -> Q) :
  feasible_withinb eps P value = true -> feasible_within eps P value.
Proof.
  unfold feasible_withinb, feasible_within.
  rewrite andb_true_iff, !forallb_forall, !Forall_forall.
  intros [Hc Hv]. split.
  - intros c Hin. apply holds_withinb_sound. now apply Hc.
  - intros v Hin. apply Qle_bool_imp_le. now apply Hv.
Qed.

(** The solver of Scenario C succeeds on the model of Scenario C. *)
Lemma C_solver_succeeds :
  solve_succeeds 0 scenario.C_solver
    (build_model scenario.C_demand scenario.C_capacity scenario.fare_2 scenario.C_config).
Proof.
  split; [reflexivity|].
  apply feasible_withinb_sound. vm_compute. reflexivity.
Qed.

Lemma service_floor_respected_witness :
  exists out,
    optimize_demand (Some scenario.C_solver) scenario.C_demand scenario.C_capacity
      scenario.fare_2 scenario.C_config = Return out
    /\ solve_succeeds 0 scenario.C_solver
         (build_model scenario.C_demand scenario.C_capacity scenario.fare_2 scenario.C_config)
    /\ nth_error scenario.C_demand 1 = Some (scenario.demand_row "R1" "S1" 8 50)
    /\ exists o, nth_error out 1 = Some o
                 /\ row o = scenario.demand_row "R1" "S1" 8 50
                 /\ validations (scenario.demand_row "R1" "S1" 8 50)
                    * min_service_factor scenario.C_config - 0
                    <= optimized_validations o.
Proof.
  eexists. split; [reflexivity|]. split; [exact C_solver_succeeds|].
  split; [reflexivity|].
  exact (service_floor_respected scenario.C_solver scenario.C_demand scenario.C_capacity
           scenario.fare_2 scenario.C_config 0 _ eq_refl C_solver_succeeds
           1%nat (scenario.demand_row "R1" "S1" 8 50) eq_refl).
Defined.


Lemma filter_map_comm {A B : Type} (p : B -> bool) (f : A -> B) (l : list A) :
  filter p (map f l) = map f (filter (fun x => p (f x)) l).
Proof.
  induction l as [|x l IH]; simpl.
  - reflexivity.
  - destruct (p (f x)); simpl; now rewrite IH.
Qed.

(** A sum over distinct members of a list is at most the sum over the
    list, when no term is below [- eps]. *)
Lemma sum_over_members {A : Type} (f : A -> Q) (eps : Q) (l1 : list A) :
  0 <= eps -> NoDup l1 ->
  forall l2,
    incl l1 l2 -> (forall x, In x l2 -> - eps <= f x) ->
    np.sum (map f l1) <= np.sum (map f l2) + inject_Z (Z.of_nat (List.length l2)) * eps.
Proof.
  intros Heps Hnd. induction Hnd as [|x l1 Hx Hnd IH]; intros l2 Hincl Hlow.
  - clear Hincl. induction l2 as [|y l2 IH2]; cbn [map np.sum fold_right List.length].
    + change (inject_Z (Z.of_nat 0)) with 0. lra.
    + assert (H1 := Hlow y (or_introl eq_refl)).
      assert (H2 := IH2 (fun z Hz => Hlow z (or_intror Hz))).
      cbn [map np.sum fold_right] in H2. unfold np.sum in H2.
      rewrite Nat2Z.inj_succ, <- Z.add_1_r, inject_Z_plus. change (inject_Z 1) with 1. nra.
  - destruct (in_split x l2 (Hincl x (or_introl eq_refl))) as (a & b & ->).
    assert (Hincl' : incl l1 (a ++ b)).
    { intros y Hy. assert (Hy2 := Hincl y (or_intror Hy)).
      rewrite in_app_iff in Hy2 |- *. destruct Hy2 as [Hy2 | [-> | Hy2]]; tauto. }
    assert (Hlow' : forall y, In y (a ++ b) -> - eps <= f y).
    { intros y Hy. apply Hlow. rewrite in_app_iff in Hy |- *. simpl. tauto. }
    specialize (IH (a ++ b) Hincl' Hlow').
    rewrite !map_app, !sum_app in *. rewrite !length_app in *.
    cbn [map np.sum fold_right List.length] in *. unfold np.sum in *.
    rewrite Nat.add_succ_r, Nat2Z.inj_succ, <- Z.add_1_r, inject_Z_plus.
    change (inject_Z 1) with 1. nra.
Qed.

(** The load the output rows of a timestamp carry. *)
Lemma rows_load_map (value : LpVariable -> Q) (capacity : list CapacityRecord) (delta : Q)
    (demand : list DemandRecord) (ts : Timestamp) :
  rows_load ts
    (map (fun r => {| row := r;
                      optimized_validations := value (decision (route_id r) (timestamp r));
                      capacity := cap_value capacity (route_id r) (timestamp r);
                      peak_load := value peak_var;
                      revenue_delta_pct := delta |})
       demand)
  = np.sum (map (fun route => value (decision route ts))
              (map route_id (filter (fun r => Z.eqb (timestamp r) ts) demand))).
Proof.
  unfold rows_load. rewrite filter_map_comm. cbn [row]. rewrite !map_map.
  cbn [optimized_validations].
  f_equal. apply map_ext_in. intros r Hr.
  apply filter_In in Hr. destruct Hr as [_ Hr]. apply Z.eqb_eq in Hr. now rewrite Hr.
Qed.

(** The rows of one timestamp have distinct routes when the keys of the
    table are distinct. *)
Lemma distinct_keys_routes (demand : list DemandRecord) (ts : Timestamp) :
  distinct_keys demand ->
  NoDup (map route_id (filter (fun r => Z.eqb (timestamp r) ts) demand)).
Proof.
  unfold distinct_keys. induction demand as [|r demand IH]; simpl; intros Hnd.
  - constructor.
  - inversion Hnd as [|k ks Hk Hks]; subst.
    destruct (Z.eqb (timestamp r) ts) eqn:E; [|now apply IH].
    simpl. constructor; [|now apply IH].
    intros Hin. apply Hk.
    apply in_map_iff in Hin. destruct Hin as (r' & Hroute & Hr').
    apply filter_In in Hr'. destruct Hr' as [Hr' E'].
    apply Z.eqb_eq in E, E'.
    apply in_map_iff. exists r'. split; [|exact Hr'].
    now rewrite Hroute, E, E'.
Qed.

(** C2, as amended.  When the solve succeeds then, for every timestamp of
    the demand table, the solved variables of that timestamp, summed over
    the distinct routes, are at most [peak_load] up to the tolerance; and
    when no two demand rows share a [(route_id, timestamp)] key, so are
    the [optimized_validations] of the output rows of that timestamp (the
    tolerance then counts once per variable). *)
Theorem peak_load_bounds_timestamp (solve : Solver) (demand : list DemandRecord)
    (capacity : list CapacityRecord) (fares : list (string * Q)) (config : OptimizationConfig)
    (eps : Q) (out : list OptimizedRow) :
  0 <= eps ->
  optimize_demand (Some solve) demand capacity fares config = Return out ->
  solve_succeeds eps solve (build_model demand capacity fares config) ->
  forall (ts : Timestamp) (o : OptimizedRow),
    In ts (map timestamp demand) -> In o out ->
    np.sum (map (fun route =>
                   snd (solve (build_model demand capacity fares config)) (decision route ts))
              (routes_of demand))
    <= peak_load o + eps
    /\ (distinct_keys demand ->
        rows_load ts out
        <= peak_load o
           + (1 + inject_Z (Z.of_nat (List.length (routes_of demand)))) * eps).
Proof.
  intros Heps Hout [_ Hfeas] ts o Hts Ho.
  apply optimize_demand_returns in Hout. cbv zeta in Hout. destruct Hout as [delta ->].
  set (value := snd (solve (build_model demand capacity fares config))) in *.
  apply in_map_iff in Ho. destruct Ho as (r0 & <- & _). cbn [peak_load].
  pose proof (feasible_peak_bound value demand capacity fares config eps Hfeas ts Hts) as Hpeak.
  split; [exact Hpeak|].
  intros Hkeys. rewrite rows_load_map.
  pose proof (sum_over_members (fun route => value (decision route ts)) eps
                (map route_id (filter (fun r => Z.eqb (timestamp r) ts) demand))
                Heps (distinct_keys_routes demand ts Hkeys) (routes_of demand)) as Hsub.
  assert (Hincl : incl (map route_id (filter (fun r => Z.eqb (timestamp r) ts) demand))
                    (routes_of demand)).
  { intros route Hr. apply routes_of_In.
    apply in_map_iff in Hr. destruct Hr as (r & <- & Hr).
    apply filter_In in Hr. apply in_map. tauto. }
  specialize (Hsub Hincl).
  assert (Hlow : forall route, In route (routes_of demand) -> - eps <= value (decision route ts)).
  { intros route Hr.
    exact (feasible_lower_bound value demand capacity fares config eps Hfeas route ts Hr Hts). }
  specialize (Hsub Hlow).
  lra.
Qed.

Lemma C_distinct_keys : distinct_keys scenario.C_demand.
Proof.
  unfold distinct_keys. vm_compute.
  repeat constructor; simpl; intuition discriminate.
Qed.

Lemma peak_load_bounds_timestamp_witness :
  exists out o,
    0 <= 0
    /\ optimize_demand (Some scenario.C_solver) scenario.C_demand scenario.C_capacity
         scenario.fare_2 scenario.C_config = Return out
    /\ solve_succeeds 0 scenario.C_solver
         (build_model scenario.C_demand scenario.C_capacity scenario.fare_2 scenario.C_config)
    /\ In (scenario.at_hour 8) (map timestamp scenario.C_demand)
    /\ In o out
    /\ distinct_keys scenario.C_demand
    /\ np.sum (map (fun route =>
                      snd (scenario.C_solver
                             (build_model scenario.C_demand scenario.C_capacity
                                scenario.fare_2 scenario.C_config))
                        (decision route (scenario.at_hour 8)))
                 (routes_of scenario.C_demand))
       <= peak_load o + 0
    /\ rows_load (scenario.at_hour 8) out
       <= peak_load o
          + (1 + inject_Z (Z.of_nat (List.length (routes_of scenario.C_demand)))) * 0.
Proof.
  eexists. eexists.
  split; [apply Qle_refl|]. split; [reflexivity|]. split; [exact C_solver_succeeds|].
  split; [right; left; reflexivity|]. split; [left; reflexivity|].
  split; [exact C_distinct_keys|].
  pose proof (peak_load_bounds_timestamp scenario.C_solver scenario.C_demand
                scenario.C_capacity scenario.fare_2 scenario.C_config 0 _
                (Qle_refl 0) eq_refl C_solver_succeeds (scenario.at_hour 8) _
                (or_intror (or_introl eq_refl)) (or_introl eq_refl)) as [H1 H2].
  split; [exact H1 | exact (H2 C_distinct_keys)].
Defined.

(** The revenue floor of the two-stops table bounds its peak load. *)
Lemma two_stops_model_bound (value : LpVariable -> Q) :
  feasible_within 0
    (build_model scenario.two_stops_demand [] scenario.fare_2 scenario.C_config) value ->
  20 <= value peak_var.
Proof.
  intros Hfeas.
  pose proof (feasible_revenue_floor value _ _ _ _ _ Hfeas) as Hrev.
  pose proof (feasible_peak_bound value _ _ _ _ _ Hfeas (scenario.at_hour 8)
                (or_introl eq_refl)) as Hpeak.
  unfold achieved_revenue in Hrev.
  change (routes_of scenario.two_stops_demand) with ["R1"%string] in *.
  change (timestamps_of scenario.two_stops_demand) with [scenario.at_hour 8] in *.
  cbn [map np.sum fold_right] in *.
  change (fare_of scenario.fare_2 "R1") with 2 in *.
  assert (Hb : baseline_revenue scenario.two_stops_demand scenario.fare_2 == 40)
    by (vm_compute; reflexivity).
  rewrite Hb in Hrev.
  change (revenue_tolerance scenario.C_config) with 0 in Hrev.
  lra.
Qed.

Lemma eval_objective (value : LpVariable -> Q) (demand : list DemandRecord)
    (capacity : list CapacityRecord) (fares : list (string * Q)) (config : OptimizationConfig) :
  eval value (objective (build_model demand capacity fares config)) == value peak_var.
Proof. cbn [objective build_model]. apply eval_var. Qed.

(** C2 as stated fails when rows share a key: two stops of one route at
    one timestamp, 10 validations each, fare 2.  The optimum has the one
    decision variable at 20 and [peak_load = 20]; both output rows carry
    20, so the rows of the timestamp sum to 40. *)
Lemma shared_key_rows_exceed_peak_load :
  solve_succeeds 0 scenario.two_stops_solver
    (build_model scenario.two_stops_demand [] scenario.fare_2 scenario.C_config)
  /\ optimal_within 0
       (build_model scenario.two_stops_demand [] scenario.fare_2 scenario.C_config)
       (snd (scenario.two_stops_solver
               (build_model scenario.two_stops_demand [] scenario.fare_2 scenario.C_config)))
  /\ In (scenario.at_hour 8) (map timestamp scenario.two_stops_demand)
  /\ exists out,
      optimize_demand (Some scenario.two_stops_solver) scenario.two_stops_demand []
        scenario.fare_2 scenario.C_config = Return out
      /\ List.length out = 2%nat
      /\ rows_load (scenario.at_hour 8) out == 40
      /\ Forall (fun o => peak_load o == 20
                          /\ ~ rows_load (scenario.at_hour 8) out <= peak_load o + 1) out.
Proof.
  assert (Hfeas : feasible_within 0
                    (build_model scenario.two_stops_demand [] scenario.fare_2 scenario.C_config)
                    (fun _ => 20)).
  { apply feasible_withinb_sound. vm_compute. reflexivity. }
  split; [split; [reflexivity | exact Hfeas]|].
  split.
  { split; [exact Hfeas|]. intros value' H'.
    rewrite !eval_objective. cbn [snd scenario.two_stops_solver].
    pose proof (two_stops_model_bound value' H'). lra. }
  split; [left; reflexivity|].
  eexists. split; [reflexivity|]. split; [reflexivity|].
  split; [vm_compute; reflexivity|].
  repeat constructor; vm_compute; intros H; apply H; reflexivity.
Qed.

(** The model of Scenario D admits no solution: the capacity bound and
    the service floor of its row contradict each other. *)
Lemma D_model_infeasible :
  infeasible (build_model scenario.D_demand scenario.D_capacity scenario.fare_2 scenario.D_config).
Proof.
  intros value Hfeas.
  pose proof (feasible_service_floor value _ _ _ _ _ Hfeas
                (scenario.demand_row "R1" "S1" 8 10) (or_introl eq_refl)) as Hfloor.
  pose proof (feasible_capacity_bound value _ _ _ _ _ Hfeas "R1"%string (scenario.at_hour 8)
                (or_introl eq_refl) (or_introl eq_refl)) as Hcap.
  cbn [route_id timestamp validations scenario.demand_row] in Hfloor.
  change (min_service_factor scenario.D_config) with 1 in Hfloor.
  change (cap_value scenario.D_capacity "R1" (scenario.at_hour 8)) with 0 in Hcap.
  lra.
Qed.

Lemma Forall2_map_self {A B : Type} (P : A -> B -> Prop) (f : A -> B) (l : list A) :
  (forall x, P x (f x)) -> Forall2 P l (map f l).
Proof.
  intros H. induction l as [|x l IH]; simpl; constructor; auto.
Qed.

(** When the call of the solver returns, both readings of
    [optimize_demand] give the same table. *)
Lemma optimize_demand_of_returning_call (solve : Solver) (demand : list DemandRecord)
    (capacity : list CapacityRecord) (fares : list (string * Q)) (config : OptimizationConfig) :
  optimize_demand (Some solve) demand capacity fares config
  = Return (solve_call.optimized_table (snd (solve (build_model demand capacity fares config)))
              demand capacity fares)
  /\ solve_call.optimize_demand (Some (fun model => builtins.Returns (solve model)))
       demand capacity fares config
     = builtins.Returns
         (solve_call.optimized_table (snd (solve (build_model demand capacity fares config)))
            demand capacity fares).
Proof.
  split; reflexivity.
Qed.

(** C4, as amended.  On an input whose constraint set admits no
    solution, [optimize_demand] has no infeasibility error of its own.
    When the call of the solver raises, that exception passes through.
    When it returns, whatever the status it reports, [optimize_demand]
    returns the demand table, one output row per demand row, filled with
    the values the solver left in the variables, values that violate the
    model. *)
Theorem infeasible_model_returns_table (solve : solve_call.SolveCall)
    (demand : list DemandRecord) (capacity : list CapacityRecord) (fares : list (string * Q))
    (config : OptimizationConfig) :
  infeasible (build_model demand capacity fares config) ->
  solve_call.optimize_demand None demand capacity fares config
  = builtins.Raises (builtins.ImportError "PuLP must be installed to run optimization")
  /\
  match solve (build_model demand capacity fares config) with
  | builtins.Raises e =>
      solve_call.optimize_demand (Some solve) demand capacity fares config = builtins.Raises e
  | builtins.Returns (status, value) =>
      exists out,
        solve_call.optimize_demand (Some solve) demand capacity fares config
        = builtins.Returns out
        /\ Forall2 (fun r o =>
                      row o = r
                      /\ optimized_validations o = value (decision (route_id r) (timestamp r))
                      /\ peak_load o = value peak_var)
             demand out
        /\ ~ feasible_within 0 (build_model demand capacity fares config) value
  end.
Proof.
  intros Hinf. split; [reflexivity|]. unfold solve_call.optimize_demand. cbv zeta.
  destruct (solve (build_model demand capacity fares config)) as [[status value]|e];
    cbn [builtins.bind snd].
  - eexists. split; [reflexivity|]. split; [|apply Hinf].
    apply Forall2_map_self. intros r. repeat split.
  - reflexivity.
Qed.

Lemma infeasible_model_returns_table_witness :
  infeasible (build_model scenario.D_demand scenario.D_capacity scenario.fare_2
                scenario.D_config)
  /\ exists out,
       solve_call.optimize_demand
         (Some (fun _ => builtins.Returns (LpStatusInfeasible, fun _ => 10)))
         scenario.D_demand scenario.D_capacity scenario.fare_2 scenario.D_config
       = builtins.Returns out
       /\ Forall2 (fun r o =>
                     row o = r /\ optimized_validations o = 10 /\ peak_load o = 10)
            scenario.D_demand out
       /\ ~ feasible_within 0
             (build_model scenario.D_demand scenario.D_capacity scenario.fare_2
                scenario.D_config) (fun _ => 10).
Proof.
  split; [exact D_model_infeasible|].
  exact (proj2 (infeasible_model_returns_table
                  (fun _ => builtins.Returns (LpStatusInfeasible, fun _ => 10))
                  scenario.D_demand scenario.D_capacity scenario.fare_2 scenario.D_config
                  D_model_infeasible)).
Defined.

(** C4 as stated fails on Scenario D (capacity 0, [min_service_factor = 1],
    validations 10): the model is infeasible, and when the solver reports
    so, whatever values it leaves in the variables, [optimize_demand]
    returns a table of one row that carries them and raises nothing. *)
Lemma infeasible_scenario_D_returns_table :
  infeasible (build_model scenario.D_demand scenario.D_capacity scenario.fare_2
                scenario.D_config)
  /\ forall value : LpVariable -> Q,
       exists delta,
         solve_call.optimize_demand
           (Some (fun _ => builtins.Returns (LpStatusInfeasible, value)))
           scenario.D_demand scenario.D_capacity scenario.fare_2 scenario.D_config
         = builtins.Returns
             [{| row := scenario.demand_row "R1" "S1" 8 10;
                 optimized_validations := value (decision "R1" (scenario.at_hour 8));
                 capacity := 0;
                 peak_load := value peak_var;
                 revenue_delta_pct := delta |}].
Proof.
  split; [exact D_model_infeasible|].
  intros value. eexists. reflexivity.
Qed.

(** In Scenario C the service floor of the busiest row, 0.8 * 50,
    bounds the peak load from below. *)
Lemma C_model_lower_bound (eps : Q) (value : LpVariable -> Q) :
  feasible_within eps
    (build_model scenario.C_demand scenario.C_capacity scenario.fare_2 scenario.C_config) value ->
  40 - 2 * eps <= value peak_var.
Proof.
  intros Hfeas.
  pose proof (feasible_service_floor value _ _ _ _ _ Hfeas
                (scenario.demand_row "R1" "S1" 8 50) (or_intror (or_introl eq_refl))) as Hfloor.
  pose proof (feasible_peak_bound value _ _ _ _ _ Hfeas (scenario.at_hour 8)
                (or_intror (or_introl eq_refl))) as Hpeak.
  change (routes_of scenario.C_demand) with ["R1"%string] in Hpeak.
  cbn [map np.sum fold_right] in Hpeak.
  cbn [route_id timestamp validations scenario.demand_row] in Hfloor.
  change (min_service_factor scenario.C_config) with (4 # 5) in Hfloor.
  lra.
Qed.

(** In Scenario C the output rows are the whole grid: their revenue is
    the revenue the floor constrains. *)
Lemma C_model_revenue (eps : Q) (value : LpVariable -> Q) :
  feasible_within eps
    (build_model scenario.C_demand scenario.C_capacity scenario.fare_2 scenario.C_config) value ->
  140 - eps
  <= np.sum (series_mul
               (map (fun r => value (decision (route_id r) (timestamp r))) scenario.C_demand)
               (map (fun r => fare_of scenario.fare_2 (route_id r)) scenario.C_demand)).
Proof.
  intros Hfeas.
  pose proof (feasible_revenue_floor value _ _ _ _ _ Hfeas) as Hrev.
  unfold achieved_revenue in Hrev.
  change (routes_of scenario.C_demand) with ["R1"%string] in Hrev.
  change (timestamps_of scenario.C_demand)
    with [scenario.at_hour 7; scenario.at_hour 8; scenario.at_hour 9] in Hrev.
  assert (Hb : baseline_revenue scenario.C_demand scenario.fare_2 == 140)
    by (vm_compute; reflexivity).
  rewrite Hb in Hrev.
  change (revenue_tolerance scenario.C_config) with 0 in Hrev.
  rewrite series_mul_map.
  cbn [map np.sum fold_right scenario.C_demand route_id timestamp scenario.demand_row] in *.
  lra.
Qed.

(** An assignment that passes the check and has its peak at 40 is an
    exact optimum of Scenario C. *)
Lemma C_candidate_optimal (value : LpVariable -> Q) :
  feasible_withinb 0
    (build_model scenario.C_demand scenario.C_capacity scenario.fare_2 scenario.C_config) value
  = true ->
  value peak_var == 40 ->
  optimal_within 0
    (build_model scenario.C_demand scenario.C_capacity scenario.fare_2 scenario.C_config) value.
Proof.
  intros Hb Hp. split; [now apply feasible_withinb_sound|].
  intros value' H'. rewrite !eval_objective, Hp.
  pose proof (C_model_lower_bound 0 value' H'). lra.
Qed.

(** C5, as amended.  On Scenario C (validations 10, 50, 10, capacity 100,
    fare 2, [min_service_factor = 0.8], [revenue_tolerance = 0]) every
    optimal solve returns, up to the solver's tolerance, [peak_load = 40],
    the service floor of the busiest row, and a [revenue_delta_pct] that
    is at least 0; with an exact solver, [peak_load = 40] and
    [revenue_delta_pct >= 0]. *)
Theorem scenario_C_optimum (solve : Solver) (eps : Q) :
  0 <= eps ->
  optimal_within eps
    (build_model scenario.C_demand scenario.C_capacity scenario.fare_2 scenario.C_config)
    (snd (solve (build_model scenario.C_demand scenario.C_capacity scenario.fare_2
                   scenario.C_config))) ->
  exists out,
    optimize_demand (Some solve) scenario.C_demand scenario.C_capacity scenario.fare_2
      scenario.C_config = Return out
    /\ List.length out = 3%nat
    /\ Forall (fun o => 40 - 2 * eps <= peak_load o
                        /\ peak_load o <= 40 + eps
                        /\ - (5 # 7) * eps <= revenue_delta_pct o) out.
Proof.
  intros Heps [Hfeas Hmin].
  unfold optimize_demand.
  set (value := snd (solve _)) in *.
  eexists. split; [reflexivity|]. split; [reflexivity|].
  apply Forall_map, Forall_forall. intros r _. cbn [peak_load revenue_delta_pct].
  split; [|split].
  - exact (C_model_lower_bound eps value Hfeas).
  - assert (Hc := Hmin scenario.C_solution (proj2 C_solver_succeeds)).
    rewrite !eval_objective in Hc.
    change (scenario.C_solution peak_var) with 40 in Hc. exact Hc.
  - pose proof (C_model_revenue eps value Hfeas) as Hrev.
    set (revenue := np.sum _) in *.
    assert (Hb : baseline_revenue scenario.C_demand scenario.fare_2 == 140)
      by (vm_compute; reflexivity).
    change (Qeq_bool (baseline_revenue scenario.C_demand scenario.fare_2) 0) with false.
    cbn [negb]. rewrite Hb.
    clearbody revenue. unfold Qdiv.
    setoid_replace (/ 140) with (1 # 140) by reflexivity.
    lra.
Qed.

Lemma scenario_C_optimum_witness :
  0 <= 0
  /\ optimal_within 0
       (build_model scenario.C_demand scenario.C_capacity scenario.fare_2 scenario.C_config)
       (snd (scenario.C_solver
               (build_model scenario.C_demand scenario.C_capacity scenario.fare_2
                  scenario.C_config)))
  /\ exists out,
      optimize_demand (Some scenario.C_solver) scenario.C_demand scenario.C_capacity
        scenario.fare_2 scenario.C_config = Return out
      /\ List.length out = 3%nat
      /\ Forall (fun o => 40 - 2 * 0 <= peak_load o
                          /\ peak_load o <= 40 + 0
                          /\ - (5 # 7) * 0 <= revenue_delta_pct o) out.
Proof.
  assert (Hopt : optimal_within 0
                   (build_model scenario.C_demand scenario.C_capacity scenario.fare_2
                      scenario.C_config)
                   (snd (scenario.C_solver
                           (build_model scenario.C_demand scenario.C_capacity scenario.fare_2
                              scenario.C_config)))).
  { apply C_candidate_optimal; reflexivity. }
  split; [apply Qle_refl|]. split; [exact Hopt|].
  exact (scenario_C_optimum scenario.C_solver 0 (Qle_refl 0) Hopt).
Defined.

(** C5 as stated fails: an exactly optimal solve of Scenario C returns
    [peak_load = 40], not 50; another exactly optimal solve (every
    variable at 40) returns a [revenue_delta_pct] different from 0; and
    no assignment with [peak_load = 50] is optimal. *)
Lemma scenario_C_peak_load_is_40_not_50 :
  (exists out,
     optimal_within 0
       (build_model scenario.C_demand scenario.C_capacity scenario.fare_2 scenario.C_config)
       (snd (scenario.C_solver
               (build_model scenario.C_demand scenario.C_capacity scenario.fare_2
                  scenario.C_config)))
     /\ optimize_demand (Some scenario.C_solver) scenario.C_demand scenario.C_capacity
          scenario.fare_2 scenario.C_config = Return out
     /\ List.length out = 3%nat
     /\ Forall (fun o => peak_load o == 40 /\ ~ peak_load o == 50) out)
  /\ (exists out,
        optimal_within 0
          (build_model scenario.C_demand scenario.C_capacity scenario.fare_2 scenario.C_config)
          (snd (scenario.C_flat_solver
                  (build_model scenario.C_demand scenario.C_capacity scenario.fare_2
                     scenario.C_config)))
        /\ optimize_demand (Some scenario.C_flat_solver) scenario.C_demand scenario.C_capacity
             scenario.fare_2 scenario.C_config = Return out
        /\ List.length out = 3%nat
        /\ Forall (fun o => peak_load o == 40 /\ ~ revenue_delta_pct o == 0) out)
  /\ forall value,
      value peak_var == 50 ->
      ~ optimal_within 0
          (build_model scenario.C_demand scenario.C_capacity scenario.fare_2 scenario.C_config)
          value.
Proof.
  split; [|split].
  - eexists. split; [apply C_candidate_optimal; reflexivity|].
    split; [reflexivity|]. split; [reflexivity|].
    repeat constructor; vm_compute; discriminate.
  - eexists. split; [apply C_candidate_optimal; reflexivity|].
    split; [reflexivity|]. split; [reflexivity|].
    repeat constructor; vm_compute; discriminate.
  - intros value H50 [_ Hmin].
    specialize (Hmin scenario.C_solution (proj2 C_solver_succeeds)).
    rewrite !eval_objective, H50 in Hmin.
    change (scenario.C_solution peak_var) with 40 in Hmin. lra.
Qed.

End OptimizerProperties.

(** ** More properties of the simulator *)

Section SimulatorExtras.

Import incentives.

(** The simulated table, row by row. *)
Lemma simulated_rows (elasticity : ElasticityConfig) (rows : list DemandRecord) (fare : Q) :
  simulated (simulate_frame rows elasticity fare)
  = map (fun r =>
           with_validations {| record := r; hour := dt_hour (timestamp r) |}
             (simulated_cell elasticity rows r))
      rows.
Proof.
  rewrite simulate_frame_simulated.
  generalize (simulated_cell elasticity rows). intros f.
  induction rows as [|r rows IH]; simpl.
  - reflexivity.
  - f_equal. exact IH.
Qed.

(** X1.  Whatever the table, the configuration and the fare, no simulated
    validations are negative: the final clip holds on every row. *)
Theorem simulated_validations_nonneg (demand : DataFrame) (elasticity : ElasticityConfig)
    (fare : Q) (res : SimulationResult) :
  simulate_incentives demand elasticity fare = Return res ->
  Forall (fun s => 0 <= validations (record s)) (simulated res).
Proof.
  intros Hres. apply simulate_incentives_returns in Hres. subst res.
  rewrite simulated_rows. apply Forall_map, Forall_forall. intros r _.
  cbn [record with_validations validations].
  unfold simulated_cell. apply clip_lower_nonneg.
Qed.

Lemma simulated_validations_nonneg_witness :
  simulate_incentives scenario.peak_shoulder_demand scenario.negative_elasticity 2
  = Return (simulate_frame (records scenario.peak_shoulder_demand)
              scenario.negative_elasticity 2)
  /\ Forall (fun s => 0 <= validations (record s))
       (simulated (simulate_frame (records scenario.peak_shoulder_demand)
                     scenario.negative_elasticity 2)).
Proof.
  split; [reflexivity|].
  exact (simulated_validations_nonneg scenario.peak_shoulder_demand
           scenario.negative_elasticity 2 _ eq_refl).
Defined.

(** X2.  The simulator keeps the table's shape: [baseline] and
    [simulated] have one row per demand row, in the same order; the
    baseline row is the demand row with its hour of day, and the simulated
    row differs from it in the validations only. *)
Theorem simulate_preserves_rows (demand : DataFrame) (elasticity : ElasticityConfig)
    (fare : Q) (res : SimulationResult) :
  simulate_incentives demand elasticity fare = Return res ->
  List.length (baseline res) = List.length (records demand)
  /\ List.length (simulated res) = List.length (records demand)
  /\ forall (i : nat) (r : DemandRecord),
       nth_error (records demand) i = Some r ->
       exists b s,
         nth_error (baseline res) i = Some b
         /\ nth_error (simulated res) i = Some s
         /\ record b = r
         /\ hour b = dt_hour (timestamp r)
         /\ route_id (record s) = route_id r
         /\ stop_id (record s) = stop_id r
         /\ timestamp (record s) = timestamp r
         /\ hour s = dt_hour (timestamp r).
Proof.
  intros Hres. apply simulate_incentives_returns in Hres. subst res.
  rewrite simulated_rows, simulate_frame_baseline, !length_map.
  split; [reflexivity|]. split; [reflexivity|].
  intros i r Hi. eexists. eexists.
  rewrite !nth_error_map, Hi. cbn [option_map].
  split; [reflexivity|]. split; [reflexivity|]. repeat split.
Qed.

Lemma simulate_preserves_rows_witness :
  simulate_incentives scenario.A_demand scenario.A_elasticity 2
  = Return (simulate_frame (records scenario.A_demand) scenario.A_elasticity 2)
  /\ List.length (baseline (simulate_frame (records scenario.A_demand)
                              scenario.A_elasticity 2)) = 9%nat
  /\ List.length (simulated (simulate_frame (records scenario.A_demand)
                               scenario.A_elasticity 2)) = 9%nat.
Proof.
  split; [reflexivity|].
  destruct (simulate_preserves_rows scenario.A_demand scenario.A_elasticity 2 _ eq_refl)
    as (Hb & Hs & _).
  split; [exact Hb | exact Hs].
Defined.

(** X3.  A row whose hour lies in neither range and whose validations are
    not negative comes out of the simulation unchanged. *)
Theorem rows_outside_both_ranges_unchanged (demand : DataFrame)
    (elasticity : ElasticityConfig) (fare : Q) (res : SimulationResult) :
  simulate_incentives demand elasticity fare = Return res ->
  forall (i : nat) (r : DemandRecord),
    nth_error (records demand) i = Some r ->
    in_peak elasticity r = false ->
    in_shoulder elasticity r = false ->
    0 <= validations r ->
    exists s, nth_error (simulated res) i = Some s /\ record s = r.
Proof.
  intros Hres i r Hi Hp Hs Hv. apply simulate_incentives_returns in Hres. subst res.
  rewrite simulated_rows. eexists. rewrite nth_error_map, Hi. cbn [option_map].
  split; [reflexivity|].
  unfold with_validations. cbn [record hour].
  unfold simulated_cell. rewrite Hs, Hp, (clip_lower_id _ Hv).
  destruct r; reflexivity.
Qed.

Lemma rows_outside_both_ranges_unchanged_witness :
  simulate_incentives scenario_extra.evening_demand scenario.A_elasticity 2
  = Return (simulate_frame (records scenario_extra.evening_demand) scenario.A_elasticity 2)
  /\ nth_error (records scenario_extra.evening_demand) 0
     = Some (scenario.demand_row "R1" "S1" 20 30)
  /\ in_peak scenario.A_elasticity (scenario.demand_row "R1" "S1" 20 30) = false
  /\ in_shoulder scenario.A_elasticity (scenario.demand_row "R1" "S1" 20 30) = false
  /\ 0 <= validations (scenario.demand_row "R1" "S1" 20 30)
  /\ exists s,
      nth_error (simulated (simulate_frame (records scenario_extra.evening_demand)
                              scenario.A_elasticity 2)) 0 = Some s
      /\ record s = scenario.demand_row "R1" "S1" 20 30.
Proof.
  assert (Hv : 0 <= validations (scenario.demand_row "R1" "S1" 20 30))
    by (vm_compute; discriminate).
  split; [reflexivity|]. split; [reflexivity|]. split; [reflexivity|].
  split; [reflexivity|]. split; [exact Hv|].
  exact (rows_outside_both_ranges_unchanged scenario_extra.evening_demand
           scenario.A_elasticity 2 _ eq_refl 0%nat _ eq_refl eq_refl eq_refl Hv).
Defined.

(** [shifted.sum()] is minus the elasticity times the peak demand. *)
Lemma shifted_sum_value (elasticity : ElasticityConfig) (rows : list DemandRecord) :
  shifted_sum elasticity rows
  == - (total_elasticity elasticity * np.sum (peak_validations elasticity rows)).
Proof.
  unfold shifted_sum. rewrite sum_map_scale, map_id. ring.
Qed.







(** X7.  When the baseline revenue is 0 (a zero fare, or validations
    that sum to 0) [revenue_delta_pct] is 0: the division is guarded. *)
Theorem zero_baseline_revenue_zero_delta (demand : DataFrame)
    (elasticity : ElasticityConfig) (fare : Q) (res : SimulationResult) :
  np.sum (map validations (records demand)) * fare == 0 ->
  simulate_incentives demand elasticity fare = Return res ->
  revenue_delta_pct res == 0.
Proof.
  intros Hz Hres. apply simulate_incentives_returns in Hres. subst res.
  rewrite simulate_frame_revenue_delta.
  apply Qeq_bool_iff in Hz. rewrite Hz. cbn [negb]. ring.
Qed.

Lemma zero_baseline_revenue_zero_delta_witness :
  np.sum (map validations (records scenario.A_demand)) * 0 == 0
  /\ revenue_delta_pct (simulate_frame (records scenario.A_demand) scenario.A_elasticity 0)
     == 0.
Proof.
  assert (Hz : np.sum (map validations (records scenario.A_demand)) * 0 == 0)
    by (vm_compute; reflexivity).
  split; [exact Hz|].
  exact (zero_baseline_revenue_zero_delta scenario.A_demand scenario.A_elasticity 0 _
           Hz eq_refl).
Defined.

(** X8.  With a total elasticity of 0 the simulation changes no
    validations of a table without negative validations. *)
Theorem zero_elasticity_changes_nothing (demand : DataFrame)
    (elasticity : ElasticityConfig) (fare : Q) (res : SimulationResult) :
  Forall (fun r => 0 <= validations r) (records demand) ->
  total_elasticity elasticity == 0 ->
  simulate_incentives demand elasticity fare = Return res ->
  forall (i : nat) (r : DemandRecord),
    nth_error (records demand) i = Some r ->
    exists s, nth_error (simulated res) i = Some s
              /\ validations (record s) == validations r.
Proof.
  intros Hnn He Hres i r Hi.
  apply simulate_incentives_returns in Hres. subst res.
  rewrite simulated_rows. eexists. rewrite nth_error_map, Hi. cbn [option_map].
  split; [reflexivity|].
  cbn [record with_validations validations].
  rewrite Forall_forall in Hnn.
  pose proof (Hnn r (nth_error_In _ _ Hi)) as Hv.
  transitivity (np.clip_lower 0 (validations r));
    [|rewrite (clip_lower_id _ Hv); reflexivity].
  unfold simulated_cell. apply clip_lower_Qeq.
  destruct (in_shoulder elasticity r).
  - unfold shoulder_share. rewrite shifted_sum_value, He. unfold Qdiv. ring.
  - destruct (in_peak elasticity r); [rewrite He; ring | reflexivity].
Qed.

Lemma zero_elasticity_changes_nothing_witness :
  Forall (fun r => 0 <= validations r) (records scenario.A_demand)
  /\ total_elasticity scenario_extra.no_elasticity == 0
  /\ nth_error (records scenario.A_demand) 0 = Some (scenario.demand_row "R1" "S1" 7 100)
  /\ exists s,
      nth_error (simulated (simulate_frame (records scenario.A_demand)
                              scenario_extra.no_elasticity 2)) 0 = Some s
      /\ validations (record s) == validations (scenario.demand_row "R1" "S1" 7 100).
Proof.
  assert (Hnn : Forall (fun r => 0 <= validations r) (records scenario.A_demand)).
  { repeat constructor; vm_compute; discriminate. }
  assert (He : total_elasticity scenario_extra.no_elasticity == 0)
    by (vm_compute; reflexivity).
  split; [exact Hnn|]. split; [exact He|]. split; [reflexivity|].
  exact (zero_elasticity_changes_nothing scenario.A_demand scenario_extra.no_elasticity 2 _
           Hnn He eq_refl 0%nat _ eq_refl).
Defined.

End SimulatorExtras.

(** ** More properties of the optimizer *)

Section OptimizerExtras.

Import optimizer.

Lemma routes_of_row (demand : list DemandRecord) (r : DemandRecord) :
  In r demand -> In (route_id r) (routes_of demand).
Proof. intros H. apply routes_of_In. now apply in_map. Qed.

(** X9.  When the solve succeeds, every output row has
    [optimized_validations] between 0 and the row's own [capacity] column
    (the capacity found for its route and timestamp, or the sentinel
    1e6), up to the solver's tolerance. *)
Theorem optimized_validations_within_capacity (solve : Solver) (demand : list DemandRecord)
    (capacity : list CapacityRecord) (fares : list (string * Q)) (config : OptimizationConfig)
    (eps : Q) (out : list OptimizedRow) :
  optimize_demand (Some solve) demand capacity fares config = Return out ->
  solve_succeeds eps solve (build_model demand capacity fares config) ->
  Forall (fun o => - eps <= optimized_validations o
                   /\ optimized_validations o <= optimizer.capacity o + eps) out.
Proof.
  intros Hout [_ Hfeas].
  apply optimize_demand_returns in Hout. cbv zeta in Hout. destruct Hout as [delta ->].
  apply Forall_map, Forall_forall. intros r Hr.
  cbn [optimized_validations optimizer.capacity].
  split.
  - eapply feasible_lower_bound; [exact Hfeas | now apply routes_of_row | now apply in_map].
  - eapply feasible_capacity_bound; [exact Hfeas | now apply in_map | now apply in_map].
Qed.

Lemma optimized_validations_within_capacity_witness :
  exists out,
    optimize_demand (Some scenario.C_solver) scenario.C_demand scenario.C_capacity
      scenario.fare_2 scenario.C_config = Return out
    /\ solve_succeeds 0 scenario.C_solver
         (build_model scenario.C_demand scenario.C_capacity scenario.fare_2 scenario.C_config)
    /\ List.length out = 3%nat
    /\ Forall (fun o => - 0 <= optimized_validations o
                        /\ optimized_validations o <= optimizer.capacity o + 0) out.
Proof.
  eexists. split; [reflexivity|]. split; [exact C_solver_succeeds|].
  split; [reflexivity|].
  exact (optimized_validations_within_capacity scenario.C_solver scenario.C_demand
           scenario.C_capacity scenario.fare_2 scenario.C_config 0 _ eq_refl
           C_solver_succeeds).
Defined.

(** X10.  Whatever the solver left, the output rows are filled by key:
    all rows carry the same [peak_load] and the same [revenue_delta_pct],
    and two rows with the same route and timestamp (two stops of a route)
    carry the same [optimized_validations] and the same [capacity]. *)
Theorem output_rows_follow_their_key (solve : Solver) (demand : list DemandRecord)
    (capacity : list CapacityRecord) (fares : list (string * Q)) (config : OptimizationConfig)
    (out : list OptimizedRow) :
  optimize_demand (Some solve) demand capacity fares config = Return out ->
  forall o1 o2, In o1 out -> In o2 out ->
    peak_load o1 = peak_load o2
    /\ revenue_delta_pct o1 = revenue_delta_pct o2
    /\ (route_id (row o1) = route_id (row o2) ->
        timestamp (row o1) = timestamp (row o2) ->
        optimized_validations o1 = optimized_validations o2
        /\ optimizer.capacity o1 = optimizer.capacity o2).
Proof.
  intros Hout o1 o2 H1 H2.
  apply optimize_demand_returns in Hout. cbv zeta in Hout. destruct Hout as [delta ->].
  apply in_map_iff in H1, H2. destruct H1 as (r1 & <- & _), H2 as (r2 & <- & _).
  cbn [row peak_load revenue_delta_pct optimized_validations optimizer.capacity].
  split; [reflexivity|]. split; [reflexivity|].
  intros -> ->. split; reflexivity.
Qed.

Lemma output_rows_follow_their_key_witness :
  exists out,
    optimize_demand (Some scenario.two_stops_solver) scenario.two_stops_demand []
      scenario.fare_2 scenario.C_config = Return out
    /\ List.length out = 2%nat
    /\ forall o1 o2, In o1 out -> In o2 out ->
         peak_load o1 = peak_load o2
         /\ revenue_delta_pct o1 = revenue_delta_pct o2
         /\ (route_id (row o1) = route_id (row o2) ->
             timestamp (row o1) = timestamp (row o2) ->
             optimized_validations o1 = optimized_validations o2
             /\ optimizer.capacity o1 = optimizer.capacity o2).
Proof.
  eexists. split; [reflexivity|]. split; [reflexivity|].
  exact (output_rows_follow_their_key scenario.two_stops_solver scenario.two_stops_demand []
           scenario.fare_2 scenario.C_config _ eq_refl).
Defined.

(** X11.  A demand row whose service floor
    [validations * min_service_factor] exceeds the capacity of its route
    and timestamp makes the model infeasible, whatever the other rows,
    the fares and the revenue tolerance. *)
Theorem service_floor_above_capacity_is_infeasible (demand : list DemandRecord)
    (capacity : list CapacityRecord) (fares : list (string * Q)) (config : OptimizationConfig)
    (r : DemandRecord) :
  In r demand ->
  cap_value capacity (route_id r) (timestamp r) < validations r * min_service_factor config ->
  infeasible (build_model demand capacity fares config).
Proof.
  intros Hr Hlt value Hfeas.
  pose proof (feasible_service_floor value _ _ _ _ _ Hfeas r Hr) as Hfloor.
  pose proof (feasible_capacity_bound value _ _ _ _ _ Hfeas (route_id r) (timestamp r)
                (in_map route_id _ _ Hr) (in_map timestamp _ _ Hr)) as Hcap.
  lra.
Qed.

Lemma service_floor_above_capacity_is_infeasible_witness :
  In (scenario.demand_row "R1" "S1" 8 10) scenario.D_demand
  /\ cap_value scenario.D_capacity "R1" (scenario.at_hour 8)
     < validations (scenario.demand_row "R1" "S1" 8 10)
       * min_service_factor scenario.D_config
  /\ infeasible (build_model scenario.D_demand scenario.D_capacity scenario.fare_2
                   scenario.D_config).
Proof.
  assert (Hlt : cap_value scenario.D_capacity "R1" (scenario.at_hour 8)
                < validations (scenario.demand_row "R1" "S1" 8 10)
                  * min_service_factor scenario.D_config)
    by (vm_compute; reflexivity).
  split; [left; reflexivity|]. split; [exact Hlt|].
  exact (service_floor_above_capacity_is_infeasible scenario.D_demand scenario.D_capacity
           scenario.fare_2 scenario.D_config (scenario.demand_row "R1" "S1" 8 10)
           (or_introl eq_refl) Hlt).
Defined.

(** X12.  When the solve succeeds, the returned [peak_load] is at least
    the service floor [validations * min_service_factor] of every demand
    row, up to the solver's tolerance (counted once per variable of the
    row's timestamp). *)
Theorem peak_load_at_least_service_floor (solve : Solver) (demand : list DemandRecord)
    (capacity : list CapacityRecord) (fares : list (string * Q)) (config : OptimizationConfig)
    (eps : Q) (out : list OptimizedRow) :
  0 <= eps ->
  optimize_demand (Some solve) demand capacity fares config = Return out ->
  solve_succeeds eps solve (build_model demand capacity fares config) ->
  forall (r : DemandRecord) (o : OptimizedRow),
    In r demand -> In o out ->
    validations r * min_service_factor config
    - (2 + inject_Z (Z.of_nat (List.length (routes_of demand)))) * eps
    <= peak_load o.
Proof.
  intros Heps Hout [_ Hfeas] r o Hr Ho.
  apply optimize_demand_returns in Hout. cbv zeta in Hout. destruct Hout as [delta ->].
  set (value := snd (solve (build_model demand capacity fares config))) in *.
  apply in_map_iff in Ho. destruct Ho as (r0 & <- & _). cbn [peak_load].
  pose proof (feasible_service_floor value _ _ _ _ _ Hfeas r Hr) as Hfloor.
  pose proof (feasible_peak_bound value _ _ _ _ _ Hfeas (timestamp r)
                (in_map timestamp _ _ Hr)) as Hpeak.
  pose proof (sum_over_members (fun route => value (decision route (timestamp r))) eps
                [route_id r] Heps (NoDup_cons _ (@in_nil _ _) (NoDup_nil _))
                (routes_of demand)) as Hsub.
  cbn [map np.sum fold_right] in Hsub.
  assert (Hone : value (decision (route_id r) (timestamp r)) + 0
                 <= np.sum (map (fun route => value (decision route (timestamp r)))
                              (routes_of demand))
                    + inject_Z (Z.of_nat (List.length (routes_of demand))) * eps).
  { apply Hsub.
    - intros x [<- | []]. now apply routes_of_row.
    - intros route Hroute.
      eapply feasible_lower_bound; [exact Hfeas | exact Hroute | now apply in_map]. }
  lra.
Qed.

Lemma peak_load_at_least_service_floor_witness :
  exists out o,
    0 <= 0
    /\ optimize_demand (Some scenario.C_solver) scenario.C_demand scenario.C_capacity
         scenario.fare_2 scenario.C_config = Return out
    /\ solve_succeeds 0 scenario.C_solver
         (build_model scenario.C_demand scenario.C_capacity scenario.fare_2 scenario.C_config)
    /\ In (scenario.demand_row "R1" "S1" 8 50) scenario.C_demand
    /\ In o out
    /\ validations (scenario.demand_row "R1" "S1" 8 50) * min_service_factor scenario.C_config
       - (2 + inject_Z (Z.of_nat (List.length (routes_of scenario.C_demand)))) * 0
       <= peak_load o.
Proof.
  eexists. eexists.
  split; [apply Qle_refl|]. split; [reflexivity|]. split; [exact C_solver_succeeds|].
  split; [right; left; reflexivity|]. split; [left; reflexivity|].
  exact (peak_load_at_least_service_floor scenario.C_solver scenario.C_demand
           scenario.C_capacity scenario.fare_2 scenario.C_config 0 _ (Qle_refl 0) eq_refl
           C_solver_succeeds (scenario.demand_row "R1" "S1" 8 50) _
           (or_intror (or_introl eq_refl)) (or_introl eq_refl)).
Defined.

Lemma length_flat_map_const {A B : Type} (f : A -> list B) (n : nat) (l : list A) :
  (forall x, List.length (f x) = n) ->
  List.length (flat_map f l) = (List.length l * n)%nat.
Proof.
  intros H. induction l as [|x l IH]; simpl.
  - reflexivity.
  - rewrite length_app, H, IH. reflexivity.
Qed.

(** X13.  The model has one variable per pair of a distinct route and a
    distinct timestamp plus [peak_load], and one capacity constraint per
    pair, one peak constraint per timestamp, one revenue constraint and
    one service constraint per demand row. *)
Theorem model_size (demand : list DemandRecord) (capacity : list CapacityRecord)
    (fares : list (string * Q)) (config : OptimizationConfig) :
  let routes := List.length (routes_of demand) in
  let stamps := List.length (timestamps_of demand) in
  List.length (variables (build_model demand capacity fares config))
  = (routes * stamps + 1)%nat
  /\ List.length (constraints (build_model demand capacity fares config))
     = (routes * stamps + stamps + 1 + List.length demand)%nat.
Proof.
  cbv zeta. cbn [variables constraints build_model]. unfold model_variables.
  rewrite !length_app. cbn [List.length].
  unfold capacity_constraints, peak_constraints, service_constraints.
  rewrite (length_flat_map_const _ (List.length (routes_of demand)))
    by (intros; apply length_map).
  rewrite (length_flat_map_const _ (List.length (timestamps_of demand)))
    by (intros; apply length_map).
  rewrite !length_map. split; lia.
Qed.

Lemma baseline_revenue_rows (demand : list DemandRecord) (fares : list (string * Q)) :
  baseline_revenue demand fares
  = np.sum (map (fun r => validations r * fare_of fares (route_id r)) demand).
Proof. unfold baseline_revenue. now rewrite series_mul_map. Qed.

(** X14.  When every route of the table has fare 0 (for instance when
    the fare map lists none of them) the baseline revenue is 0 and every
    output row has [revenue_delta_pct = 0], whatever the solver left. *)
Theorem unpriced_routes_zero_revenue_delta (solve : Solver) (demand : list DemandRecord)
    (capacity : list CapacityRecord) (fares : list (string * Q)) (config : OptimizationConfig)
    (out : list OptimizedRow) :
  (forall r, In r demand -> fare_of fares (route_id r) == 0) ->
  optimize_demand (Some solve) demand capacity fares config = Return out ->
  Forall (fun o => revenue_delta_pct o = 0) out.
Proof.
  intros Hfare Hout. unfold optimize_demand in Hout. injection Hout as <-.
  assert (Hz : baseline_revenue demand fares == 0).
  { rewrite baseline_revenue_rows. apply sum_map_zero.
    apply Forall_forall. intros r Hr. rewrite (Hfare r Hr). ring. }
  apply Qeq_bool_iff in Hz. rewrite Hz. cbn [negb].
  apply Forall_map, Forall_forall. intros r _. reflexivity.
Qed.

Lemma unpriced_routes_zero_revenue_delta_witness :
  (forall r, In r scenario.C_demand -> fare_of [] (route_id r) == 0)
  /\ exists out,
      optimize_demand (Some scenario.C_solver) scenario.C_demand scenario.C_capacity []
        scenario.C_config = Return out
      /\ List.length out = 3%nat
      /\ Forall (fun o => revenue_delta_pct o = 0) out.
Proof.
  assert (Hfare : forall r, In r scenario.C_demand -> fare_of [] (route_id r) == 0).
  { intros r _. reflexivity. }
  split; [exact Hfare|].
  eexists. split; [reflexivity|]. split; [reflexivity|].
  exact (unpriced_routes_zero_revenue_delta scenario.C_solver scenario.C_demand
           scenario.C_capacity [] scenario.C_config _ Hfare eq_refl).
Defined.

Lemma unique_NoDup {A : Type} (eqb : A -> A -> bool) (l : list A) :
  (forall a b, eqb a b = true <-> a = b) -> NoDup (unique eqb l).
Proof.
  intros Heqb. induction l as [|a l IH]; simpl.
  - constructor.
  - constructor.
    + rewrite filter_In. intros [_ H].
      apply negb_true_iff in H.
      assert (eqb a a = true) by now apply Heqb. congruence.
    + now apply NoDup_filter.
Qed.

Lemma routes_of_NoDup (demand : list DemandRecord) : NoDup (routes_of demand).
Proof. apply unique_NoDup, String.eqb_eq. Qed.

Lemma timestamps_of_NoDup (demand : list DemandRecord) : NoDup (timestamps_of demand).
Proof.
  unfold timestamps_of.
  eapply Permutation_NoDup; [apply Permutation_sym, sorted_perm|].
  apply unique_NoDup, Z.eqb_eq.
Qed.

(** The pairs of the grid, in the order of the revenue constraint. *)
Lemma grid_NoDup {A B : Type} (l1 : list A) (l2 : list B) :
  NoDup l1 -> NoDup l2 -> NoDup (flat_map (fun a => map (pair a) l2) l1).
Proof.
  intros H1 H2. induction H1 as [|a l1 Ha _ IH]; simpl.
  - constructor.
  - apply NoDup_app.
    + apply Finite.Injective_map_NoDup; [|exact H2]. intros x y [= ->]. reflexivity.
    + exact IH.
    + intros [a' b] Hin Hin'.
      apply in_map_iff in Hin. destruct Hin as (b' & [= <- <-] & _).
      apply in_flat_map in Hin'. destruct Hin' as (a'' & Ha'' & Hb).
      apply in_map_iff in Hb. destruct Hb as (b'' & [= -> _] & _). contradiction.
Qed.

Lemma achieved_revenue_grid (value : LpVariable -> Q) (demand : list DemandRecord)
    (fares : list (string * Q)) :
  achieved_revenue value demand fares
  == np.sum (map (fun k => value (decision (fst k) (snd k)) * fare_of fares (fst k))
               (flat_map (fun route => map (pair route) (timestamps_of demand))
                  (routes_of demand))).
Proof.
  rewrite sum_flat_map. unfold achieved_revenue.
  apply sum_map_Qeq, Forall_forall. intros route _.
  rewrite map_map. reflexivity.
Qed.

(** X15.  When every pair of a route and a timestamp of the table has
    a demand row, the fares are not negative, the baseline revenue is
    positive and the solve succeeds exactly, the reported
    [revenue_delta_pct] is at least [- revenue_tolerance * 100]: the
    revenue of the output rows covers the revenue the floor constrains. *)
Theorem covered_grid_revenue_delta_bound (solve : Solver) (demand : list DemandRecord)
    (capacity : list CapacityRecord) (fares : list (string * Q)) (config : OptimizationConfig)
    (out : list OptimizedRow) :
  (forall r, In r demand -> 0 <= fare_of fares (route_id r)) ->
  (forall route ts, In route (map route_id demand) -> In ts (map timestamp demand) ->
                    exists r, In r demand /\ route_id r = route /\ timestamp r = ts) ->
  0 < np.sum (map (fun r => validations r * fare_of fares (route_id r)) demand) ->
  optimize_demand (Some solve) demand capacity fares config = Return out ->
  solve_succeeds 0 solve (build_model demand capacity fares config) ->
  Forall (fun o => - (revenue_tolerance config * 100) <= revenue_delta_pct o) out.
Proof.
  intros Hfare Hcover Hbase Hout [_ Hfeas].
  unfold optimize_demand in Hout. injection Hout as <-.
  set (value := snd (solve (build_model demand capacity fares config))) in *.
  rewrite <- baseline_revenue_rows in Hbase.
  pose proof (feasible_revenue_floor value _ _ _ _ _ Hfeas) as Hfloor.
  rewrite achieved_revenue_grid in Hfloor.
  set (g := fun k : string * Timestamp =>
              value (decision (fst k) (snd k)) * fare_of fares (fst k)) in *.
  assert (Hrows : np.sum (series_mul
                            (map (fun r => value (decision (route_id r) (timestamp r))) demand)
                            (map (fun r => fare_of fares (route_id r)) demand))
                  = np.sum (map g (map (fun r => (route_id r, timestamp r)) demand))).
  { rewrite series_mul_map, map_map. reflexivity. }
  rewrite Hrows.
  pose proof (sum_over_members g 0
                (flat_map (fun route => map (pair route) (timestamps_of demand))
                   (routes_of demand))
                (Qle_refl 0)
                (grid_NoDup _ _ (routes_of_NoDup demand) (timestamps_of_NoDup demand))
                (map (fun r => (route_id r, timestamp r)) demand)) as Hsub.
  assert (Hle : np.sum (map g (flat_map (fun route => map (pair route) (timestamps_of demand))
                                 (routes_of demand)))
                <= np.sum (map g (map (fun r => (route_id r, timestamp r)) demand))
                   + inject_Z (Z.of_nat (List.length
                                 (map (fun r => (route_id r, timestamp r)) demand))) * 0).
  { apply Hsub.
    - intros [route ts] Hk.
      apply in_flat_map in Hk. destruct Hk as (route' & Hroute & Hk).
      apply in_map_iff in Hk. destruct Hk as (ts' & [= -> ->] & Hts).
      apply routes_of_In in Hroute. apply timestamps_of_In in Hts.
      destruct (Hcover route ts Hroute Hts) as (r & Hr & <- & <-).
      apply (in_map (fun r => (route_id r, timestamp r))). exact Hr.
    - intros k Hk. apply in_map_iff in Hk. destruct Hk as (r & <- & Hr).
      unfold g. cbn [fst snd].
      assert (H0 : - 0 <= value (decision (route_id r) (timestamp r))).
      { eapply feasible_lower_bound;
          [exact Hfeas | now apply routes_of_row | now apply in_map]. }
      pose proof (Hfare r Hr). nra. }
  set (R := np.sum (map g (map _ demand))) in *.
  set (B := baseline_revenue demand fares) in *.
  set (G := np.sum (map g (flat_map _ _))) in *.
  clearbody R B G.
  destruct (Qeq_bool B 0) eqn:E.
  { apply Qeq_bool_iff in E. lra. }
  cbn [negb]. clear E.
  apply Forall_map, Forall_forall. intros r _. cbn [revenue_delta_pct].
  assert (Hq : (R - B) / B * B == R - B) by (field; lra).
  set (q := (R - B) / B) in *. clearbody q.
  set (tol := revenue_tolerance config) in *. clearbody tol.
  nra.
Qed.

Lemma covered_grid_revenue_delta_bound_witness :
  (forall r, In r scenario.C_demand -> 0 <= fare_of scenario.fare_2 (route_id r))
  /\ (forall route ts,
        In route (map route_id scenario.C_demand) ->
        In ts (map timestamp scenario.C_demand) ->
        exists r, In r scenario.C_demand /\ route_id r = route /\ timestamp r = ts)
  /\ 0 < np.sum (map (fun r => validations r * fare_of scenario.fare_2 (route_id r))
                   scenario.C_demand)
  /\ solve_succeeds 0 scenario.C_solver
       (build_model scenario.C_demand scenario.C_capacity scenario.fare_2 scenario.C_config)
  /\ exists out,
      optimize_demand (Some scenario.C_solver) scenario.C_demand scenario.C_capacity
        scenario.fare_2 scenario.C_config = Return out
      /\ List.length out = 3%nat
      /\ Forall (fun o => - (revenue_tolerance scenario.C_config * 100)
                          <= revenue_delta_pct o) out.
Proof.
  assert (Hfare : forall r, In r scenario.C_demand ->
                            0 <= fare_of scenario.fare_2 (route_id r)).
  { intros r [<- | [<- | [<- | []]]]; vm_compute; discriminate. }
  assert (Hcover : forall route ts,
             In route (map route_id scenario.C_demand) ->
             In ts (map timestamp scenario.C_demand) ->
             exists r, In r scenario.C_demand /\ route_id r = route /\ timestamp r = ts).
  { intros route ts Hr Hts.
    assert (Hroute : route = "R1"%string).
    { simpl in Hr. destruct Hr as [<- | [<- | [<- | []]]]; reflexivity. }
    subst route. apply in_map_iff in Hts. destruct Hts as (r & <- & Hin).
    exists r. split; [exact Hin|]. split; [|reflexivity].
    destruct Hin as [<- | [<- | [<- | []]]]; reflexivity. }
  assert (Hbase : 0 < np.sum (map (fun r => validations r
                                             * fare_of scenario.fare_2 (route_id r))
                                scenario.C_demand)).
  { vm_compute. reflexivity. }
  split; [exact Hfare|]. split; [exact Hcover|]. split; [exact Hbase|].
  split; [exact C_solver_succeeds|].
  eexists. split; [reflexivity|]. split; [reflexivity|].
  exact (covered_grid_revenue_delta_bound scenario.C_solver scenario.C_demand
           scenario.C_capacity scenario.fare_2 scenario.C_config _ Hfare Hcover Hbase
           eq_refl C_solver_succeeds).
Defined.

End OptimizerExtras.

(** ** The forecaster registry *)

Section FactoryProperties.

Import builtins base.

Context {Kwargs Forecaster : Type}.

Implicit Types (registry : Registry Kwargs Forecaster) (estimator : Estimator Kwargs Forecaster).

Ltac string_cases :=
  repeat match goal with
         | |- context [String.eqb ?a ?b] => destruct (String.eqb_spec a b); subst
         end;
  cbn [orb negb]; try congruence; try reflexivity.

Lemma dict_contains_setitem registry name estimator name' :
  dict_contains Kwargs Forecaster (dict_setitem Kwargs Forecaster registry name estimator) name'
  = String.eqb name' name || dict_contains Kwargs Forecaster registry name'.
Proof.
  unfold dict_contains.
  induction registry as [|[k v] d IH]; cbn [dict_setitem existsb fst].
  - string_cases.
  - destruct (String.eqb_spec k name); subst; cbn [existsb fst].
    + string_cases.
    + rewrite IH. string_cases.
Qed.

Lemma dict_getitem_setitem registry name estimator name' :
  dict_getitem Kwargs Forecaster (dict_setitem Kwargs Forecaster registry name estimator) name'
  = if String.eqb name' name then Some estimator
    else dict_getitem Kwargs Forecaster registry name'.
Proof.
  induction registry as [|[k v] d IH]; cbn [dict_setitem dict_getitem].
  - string_cases.
  - destruct (String.eqb_spec k name); subst; cbn [dict_getitem].
    + string_cases.
    + rewrite IH. string_cases.
Qed.

(** X16.  [register] then [create]: creating under the name just
    registered calls the estimator just registered (a second
    registration replaces the first), and creating under any other name
    behaves as before the registration. *)
Theorem register_then_create registry name estimator name' kwargs :
  create Kwargs Forecaster (register Kwargs Forecaster registry name estimator) name' kwargs
  = if String.eqb name' name then estimator kwargs
    else create Kwargs Forecaster registry name' kwargs.
Proof.
  unfold create, register.
  rewrite dict_contains_setitem, dict_getitem_setitem.
  destruct (String.eqb name' name); reflexivity.
Qed.

Lemma dict_contains_available registry name :
  dict_contains Kwargs Forecaster registry name = true
  <-> In name (available Kwargs Forecaster registry).
Proof.
  unfold dict_contains, available. rewrite existsb_exists, in_map_iff.
  split.
  - intros (kv & Hin & E). apply String.eqb_eq in E. exists kv. tauto.
  - intros (kv & E & Hin). exists kv. split; [exact Hin|]. now apply String.eqb_eq.
Qed.

(** X17.  [create] raises [KeyError("Unknown forecaster: <name>")]
    exactly for the names [available] does not list; for a listed name it
    calls an estimator the registry holds under that name. *)
Theorem create_unknown_raises_keyerror registry name kwargs :
  (~ In name (available Kwargs Forecaster registry) ->
   create Kwargs Forecaster registry name kwargs
   = Raises (KeyError ("Unknown forecaster: " ++ name)))
  /\ (In name (available Kwargs Forecaster registry) ->
      exists estimator,
        In (name, estimator) registry
        /\ create Kwargs Forecaster registry name kwargs = estimator kwargs).
Proof.
  unfold create. split.
  - intros Hn. destruct (dict_contains Kwargs Forecaster registry name) eqn:E.
    + apply dict_contains_available in E. contradiction.
    + reflexivity.
  - intros Hin. pose proof Hin as Hc. apply dict_contains_available in Hc.
    rewrite Hc. cbn [negb]. clear Hc.
    unfold available in Hin.
    induction registry as [|[k v] d IH]; cbn [dict_getitem map fst In] in *.
    + contradiction.
    + destruct (String.eqb_spec k name).
      * subst k. exists v. split; [now left | reflexivity].
      * destruct Hin as [Hk | Hin]; [contradiction|].
        destruct (IH Hin) as (estimator & He & Hcreate).
        exists estimator. split; [now right | exact Hcreate].
Qed.

Lemma available_setitem registry name estimator :
  available Kwargs Forecaster (register Kwargs Forecaster registry name estimator)
  = if existsb (String.eqb name) (available Kwargs Forecaster registry)
    then available Kwargs Forecaster registry
    else available Kwargs Forecaster registry ++ [name].
Proof.
  unfold available, register.
  induction registry as [|[k v] d IH]; cbn [dict_setitem map fst existsb app].
  - reflexivity.
  - destruct (String.eqb_spec k name).
    + subst k. rewrite String.eqb_refl. reflexivity.
    + cbn [map fst]. rewrite IH.
      destruct (String.eqb_spec name k); [congruence|]. cbn [orb].
      destruct (existsb (String.eqb name) (map fst d)); reflexivity.
Qed.

(** X18.  [register] adds a new name at the end of [available] and
    leaves the names as they are when the name is registered already; so
    the names stay distinct. *)
Theorem register_keeps_names_distinct registry name estimator :
  available Kwargs Forecaster (register Kwargs Forecaster registry name estimator)
  = (if existsb (String.eqb name) (available Kwargs Forecaster registry)
     then available Kwargs Forecaster registry
     else available Kwargs Forecaster registry ++ [name])
  /\ (NoDup (available Kwargs Forecaster registry) ->
      NoDup (available Kwargs Forecaster (register Kwargs Forecaster registry name estimator))).
Proof.
  split; [apply available_setitem|].
  intros Hnd. rewrite available_setitem.
  destruct (existsb (String.eqb name) (available Kwargs Forecaster registry)) eqn:E.
  - exact Hnd.
  - apply NoDup_app; [exact Hnd | repeat constructor; intros [] |].
    intros x Hx [Heq | []]. subst x.
    assert (Hex : existsb (String.eqb name) (available Kwargs Forecaster registry) = true).
    { apply existsb_exists. exists name. split; [exact Hx | apply String.eqb_refl]. }
    congruence.
Qed.

End FactoryProperties.

Lemma create_unknown_raises_keyerror_witness :
  ~ In "lstm"%string (base.available unit unit fixture.flat_registry)
  /\ base.create unit unit fixture.flat_registry "lstm" tt
     = builtins.Raises (builtins.KeyError "Unknown forecaster: lstm").
Proof.
  assert (Hn : ~ In "lstm"%string (base.available unit unit fixture.flat_registry)).
  { intros [H | []]. discriminate H. }
  split; [exact Hn|].
  exact (proj1 (create_unknown_raises_keyerror fixture.flat_registry "lstm" tt) Hn).
Defined.

Lemma register_keeps_names_distinct_witness :
  NoDup (base.available unit unit fixture.flat_registry)
  /\ NoDup (base.available unit unit
              (base.register unit unit fixture.flat_registry "flat"
                 (fun _ => builtins.Raises (builtins.ImportError "missing")))).
Proof.
  assert (Hnd : NoDup (base.available unit unit fixture.flat_registry)).
  { repeat constructor. intros []. }
  split; [exact Hnd|].
  exact (proj2 (register_keeps_names_distinct fixture.flat_registry "flat"
                  (fun _ => builtins.Raises (builtins.ImportError "missing"))) Hnd).
Defined.

(** ** The capacity table *)

Section CapacityTable.

Import engineering.

Lemma key_eqb_eq (a b : string * Timestamp) : key_eqb a b = true <-> a = b.
Proof.
  destruct a as [r t], b as [r' t']. unfold key_eqb. cbn [fst snd].
  rewrite andb_true_iff, String.eqb_eq, Z.eqb_eq. split.
  - intros [-> ->]. reflexivity.
  - intros [= -> ->]. split; reflexivity.
Qed.

Lemma insert_key_perm (k : string * Timestamp) (l : list (string * Timestamp)) :
  Permutation (insert_key k l) (k :: l).
Proof.
  induction l as [|k' l IH]; simpl.
  - reflexivity.
  - destruct (key_leb k k').
    + reflexivity.
    + rewrite IH. apply perm_swap.
Qed.

Lemma sort_keys_perm (l : list (string * Timestamp)) : Permutation (sort_keys l) l.
Proof.
  induction l as [|k l IH]; simpl.
  - reflexivity.
  - rewrite insert_key_perm. now constructor.
Qed.

(** The groups: every key of the merged rows, once. *)
Lemma groups_NoDup (keys : list (string * Timestamp)) :
  NoDup (sort_keys (unique key_eqb keys)).
Proof.
  eapply Permutation_NoDup; [apply Permutation_sym, sort_keys_perm|].
  apply unique_NoDup, key_eqb_eq.
Qed.

Lemma groups_In (keys : list (string * Timestamp)) (k : string * Timestamp) :
  In k (sort_keys (unique key_eqb keys)) <-> In k keys.
Proof.
  rewrite <- (unique_In key_eqb keys k key_eqb_eq). split; intros H.
  - exact (Permutation_in _ (sort_keys_perm _) H).
  - exact (Permutation_in _ (Permutation_sym (sort_keys_perm _)) H).
Qed.

Lemma group_count_pos (k : string * Timestamp) (keys : list (string * Timestamp)) :
  In k keys <-> (1 <= group_count k keys)%nat.
Proof.
  unfold group_count. split.
  - intros H.
    assert (Hin : In k (filter (key_eqb k) keys)).
    { apply filter_In. split; [exact H | now apply key_eqb_eq]. }
    destruct (filter (key_eqb k) keys); [contradiction | simpl; lia].
  - intros H. destruct (filter (key_eqb k) keys) as [|k' l] eqn:E; [simpl in H; lia|].
    assert (Hin : In k' (filter (key_eqb k) keys)) by (rewrite E; now left).
    apply filter_In in Hin. destruct Hin as [Hin Heq].
    apply key_eqb_eq in Heq. now subst k'.
Qed.

(** In a list without duplicates a key selects itself, or nothing. *)
Lemma filter_key_NoDup (k : string * Timestamp) (l : list (string * Timestamp)) :
  NoDup l ->
  filter (fun k' => key_eqb k' k) l = if existsb (key_eqb k) l then [k] else [].
Proof.
  induction 1 as [|k' l Hk' Hnd IH]; cbn [filter existsb].
  - reflexivity.
  - destruct (key_eqb k' k) eqn:E.
    + apply key_eqb_eq in E. subst k'.
      assert (Hkk : key_eqb k k = true) by now apply key_eqb_eq.
      rewrite Hkk. cbn [orb]. rewrite IH.
      destruct (existsb (key_eqb k) l) eqn:Ex; [|reflexivity].
      apply existsb_exists in Ex. destruct Ex as (x & Hx & Hkx).
      apply key_eqb_eq in Hkx. subst x. contradiction.
    + assert (Hkk' : key_eqb k k' = false).
      { destruct (key_eqb k k') eqn:E'; [|reflexivity].
        apply key_eqb_eq in E'. subst k'.
        assert (key_eqb k k = true) by now apply key_eqb_eq. congruence. }
      rewrite Hkk'. cbn [orb]. exact IH.
Qed.

Lemma compute_capacity_returns (gtfs : Gtfs) (vehicle_capacity : Z)
    (out : list CapacityRecord) :
  compute_capacity gtfs vehicle_capacity = Return out ->
  exists stop_times' trips',
    stop_times gtfs = Some stop_times' /\ trips gtfs = Some trips'
    /\ out = map (fun k =>
                    {| cap_route_id := fst k;
                       cap_timestamp := snd k;
                       cap_capacity :=
                         inject_Z (Z.of_nat
                                     (group_count k (map group_key (merge stop_times' trips')))
                                   * vehicle_capacity)%Z |})
               (sort_keys (unique key_eqb (map group_key (merge stop_times' trips')))).
Proof.
  unfold compute_capacity.
  destruct (stop_times gtfs) as [st|]; [|discriminate].
  destruct (trips gtfs) as [tr|]; [|discriminate].
  intros [= <-]. exists st, tr. repeat split.
Qed.

(** X19.  The capacity table has exactly one row per group of merged
    stop times, a group being a route and an hour of arrival: the
    [(route_id, timestamp)] keys of the table are distinct, every merged
    stop time finds the row of its group, and the capacity of a row is
    [n * vehicle_capacity], where [n >= 1] is the number of merged stop
    times of its group. *)
Theorem capacity_rows_distinct_and_positive (gtfs : Gtfs) (vehicle_capacity : Z)
    (stop_times' : list StopTime) (trips' : list Trip) :
  stop_times gtfs = Some stop_times' ->
  trips gtfs = Some trips' ->
  let merged := merge stop_times' trips' in
  exists out,
    compute_capacity gtfs vehicle_capacity = Return out
    /\ NoDup (map (fun c => (cap_route_id c, cap_timestamp c)) out)
    /\ (forall m, In m merged ->
                  exists c, In c out /\ (cap_route_id c, cap_timestamp c) = group_key m)
    /\ Forall (fun c =>
                 let n := List.length
                            (filter (fun m => key_eqb (cap_route_id c, cap_timestamp c)
                                                (group_key m)) merged) in
                 (1 <= n)%nat
                 /\ cap_capacity c = inject_Z (Z.of_nat n * vehicle_capacity)%Z) out.
Proof.
  intros Hst Htr merged. unfold compute_capacity. rewrite Hst, Htr.
  fold merged. set (keys := map group_key merged).
  eexists. split; [reflexivity|].
  assert (Hcount : forall k, List.length (filter (fun m => key_eqb k (group_key m)) merged)
                             = group_count k keys).
  { intros k. unfold group_count, keys. rewrite filter_map_comm, length_map. reflexivity. }
  split; [|split].
  - rewrite map_map. cbn [cap_route_id cap_timestamp].
    rewrite (map_ext _ (fun k => k)) by (intros [r t]; reflexivity).
    rewrite map_id. apply groups_NoDup.
  - intros m Hm.
    assert (Hk : In (group_key m) (sort_keys (unique key_eqb keys))).
    { apply groups_In. unfold keys. now apply in_map. }
    eexists. split.
    + apply in_map_iff. exists (group_key m). split; [reflexivity | exact Hk].
    + cbn [cap_route_id cap_timestamp]. now destruct (group_key m).
  - apply Forall_map, Forall_forall. intros k Hk.
    cbn [cap_route_id cap_timestamp cap_capacity].
    replace (fst k, snd k) with k by now destruct k.
    rewrite Hcount. split; [|reflexivity].
    apply group_count_pos. now apply groups_In.
Qed.

(** The lookup of the optimizer in the computed table. *)
Lemma cap_value_groups (keys : list (string * Timestamp)) (vehicle_capacity : Z)
    (route : string) (ts : Timestamp) :
  optimizer.cap_value
    (map (fun k =>
            {| cap_route_id := fst k;
               cap_timestamp := snd k;
               cap_capacity := inject_Z (Z.of_nat (group_count k keys) * vehicle_capacity)%Z |})
       (sort_keys (unique key_eqb keys)))
    route ts
  = if existsb (key_eqb (route, ts)) keys
    then inject_Z (Z.of_nat (group_count (route, ts) keys) * vehicle_capacity)%Z
    else 1000000.
Proof.
  unfold optimizer.cap_value.
  rewrite filter_map_comm. cbn [cap_route_id cap_timestamp].
  change (fun x : string * Timestamp => String.eqb (fst x) route && Z.eqb (snd x) ts)
    with (fun x : string * Timestamp => key_eqb x (route, ts)).
  rewrite (filter_key_NoDup _ _ (groups_NoDup keys)).
  assert (Hex : existsb (key_eqb (route, ts)) (sort_keys (unique key_eqb keys))
                = existsb (key_eqb (route, ts)) keys).
  { apply eq_true_iff_eq. rewrite !existsb_exists. split.
    - intros (k & Hk & E). exists k. split; [now apply groups_In | exact E].
    - intros (k & Hk & E). exists k. split; [now apply groups_In | exact E]. }
  rewrite Hex. destruct (existsb (key_eqb (route, ts)) keys); reflexivity.
Qed.

(** X20.  What the optimizer reads from the computed capacity table:
    for a route and a timestamp with [n >= 1] scheduled stop times in
    that hour of the base date, [n * vehicle_capacity]; for every other
    pair, the sentinel 1e6. *)
Theorem optimizer_reads_trip_count (gtfs : Gtfs) (vehicle_capacity : Z)
    (stop_times' : list StopTime) (trips' : list Trip) (out : list CapacityRecord)
    (route : string) (ts : Timestamp) :
  stop_times gtfs = Some stop_times' ->
  trips gtfs = Some trips' ->
  compute_capacity gtfs vehicle_capacity = Return out ->
  optimizer.cap_value out route ts
  = (if (group_count (route, ts) (map group_key (merge stop_times' trips')) =? 0)%nat
     then 1000000
     else inject_Z (Z.of_nat (group_count (route, ts)
                                (map group_key (merge stop_times' trips')))
                    * vehicle_capacity)%Z).
Proof.
  intros Hst Htr Hout. apply compute_capacity_returns in Hout.
  destruct Hout as (st & tr & Hst' & Htr' & ->).
  rewrite Hst in Hst'. rewrite Htr in Htr'.
  injection Hst' as <-. injection Htr' as <-.
  rewrite cap_value_groups.
  set (keys := map group_key (merge stop_times' trips')).
  destruct (existsb (key_eqb (route, ts)) keys) eqn:Ex.
  - apply existsb_exists in Ex. destruct Ex as (k & Hk & E).
    apply key_eqb_eq in E. subst k. apply group_count_pos in Hk.
    destruct (Nat.eqb_spec (group_count (route, ts) keys) 0); [lia | reflexivity].
  - destruct (Nat.eqb_spec (group_count (route, ts) keys) 0) as [|Hn]; [reflexivity|].
    assert (Hin : In (route, ts) keys) by (apply group_count_pos; lia).
    assert (Hex : existsb (key_eqb (route, ts)) keys = true).
    { apply existsb_exists. exists (route, ts). split; [exact Hin | now apply key_eqb_eq]. }
    congruence.
Qed.

(** A stop time that arrives within 24 hours is counted on the base
    date, at a full hour. *)
Lemma group_key_on_base_date (m : StopTime * Trip) :
  (0 <= to_timedelta (fst m) < 24 * hour_ns)%Z ->
  (base_date <= snd (group_key m) < base_date + 24 * hour_ns)%Z
  /\ (snd (group_key m) mod hour_ns = 0)%Z.
Proof.
  unfold group_key, floor_hour, base_date, hour_ns. cbn [snd].
  intros H. split.
  - Z.div_mod_to_equations. lia.
  - apply Z.mod_mul. discriminate.
Qed.

(** X21.  Every capacity row lies on the base date 2023-01-01, at a
    full hour: when all arrival times are within 24 hours, the optimizer
    reads the sentinel 1e6 for every timestamp before or after that day
    and for every timestamp that is not a full hour. *)
Theorem capacity_only_on_base_date (gtfs : Gtfs) (vehicle_capacity : Z)
    (stop_times' : list StopTime) (out : list CapacityRecord)
    (route : string) (ts : Timestamp) :
  stop_times gtfs = Some stop_times' ->
  Forall (fun s => match arrival_time s with
                   | Some td => (0 <= td < 24 * hour_ns)%Z
                   | None => True
                   end) stop_times' ->
  compute_capacity gtfs vehicle_capacity = Return out ->
  (ts < base_date)%Z \/ (base_date + 24 * hour_ns <= ts)%Z \/ (ts mod hour_ns <> 0)%Z ->
  optimizer.cap_value out route ts = 1000000.
Proof.
  intros Hst Harr Hout Hts. apply compute_capacity_returns in Hout.
  destruct Hout as (st & tr & Hst' & _ & ->).
  rewrite Hst in Hst'. injection Hst' as <-.
  rewrite cap_value_groups.
  destruct (existsb (key_eqb (route, ts)) (map group_key (merge stop_times' tr))) eqn:Ex;
    [|reflexivity].
  exfalso.
  apply existsb_exists in Ex. destruct Ex as (k & Hk & E).
  apply key_eqb_eq in E. subst k.
  apply in_map_iff in Hk. destruct Hk as (m & Hkey & Hm).
  unfold merge in Hm. apply in_flat_map in Hm. destruct Hm as (s & Hs & Hm).
  apply in_map_iff in Hm. destruct Hm as (t & <- & _).
  rewrite Forall_forall in Harr. specialize (Harr s Hs).
  assert (Htd : (0 <= to_timedelta (fst (s, t)) < 24 * hour_ns)%Z).
  { cbn [fst]. unfold to_timedelta. destruct (arrival_time s); [exact Harr|].
    unfold hour_ns. lia. }
  destruct (group_key_on_base_date (s, t) Htd) as [Hrange Hmod].
  rewrite Hkey in Hrange, Hmod. cbn [snd] in Hrange, Hmod.
  lia.
Qed.

End CapacityTable.

Lemma capacity_rows_distinct_and_positive_witness :
  engineering.stop_times fixture.schedule = Some fixture.schedule_stop_times
  /\ engineering.trips fixture.schedule = Some fixture.schedule_trips
  /\ exists out,
       engineering.compute_capacity fixture.schedule 80 = Return out
       /\ NoDup (map (fun c => (cap_route_id c, cap_timestamp c)) out)
       /\ (forall m,
             In m (engineering.merge fixture.schedule_stop_times fixture.schedule_trips) ->
             exists c, In c out
                       /\ (cap_route_id c, cap_timestamp c) = engineering.group_key m)
       /\ Forall (fun c =>
                    let n := List.length
                               (filter (fun m => engineering.key_eqb
                                                   (cap_route_id c, cap_timestamp c)
                                                   (engineering.group_key m))
                                  (engineering.merge fixture.schedule_stop_times
                                     fixture.schedule_trips)) in
                    (1 <= n)%nat
                    /\ cap_capacity c = inject_Z (Z.of_nat n * 80)%Z) out.
Proof.
  split; [reflexivity|]. split; [reflexivity|].
  exact (capacity_rows_distinct_and_positive fixture.schedule 80 fixture.schedule_stop_times
           fixture.schedule_trips eq_refl eq_refl).
Defined.

Lemma optimizer_reads_trip_count_witness :
  exists out,
    engineering.stop_times fixture.schedule = Some fixture.schedule_stop_times
    /\ engineering.trips fixture.schedule = Some fixture.schedule_trips
    /\ engineering.compute_capacity fixture.schedule 80 = Return out
    /\ optimizer.cap_value out "ROUTE1"
         (engineering.base_date + 8 * engineering.hour_ns)%Z
       = (if (engineering.group_count
                ("ROUTE1"%string, (engineering.base_date + 8 * engineering.hour_ns)%Z)
                (map engineering.group_key
                   (engineering.merge fixture.schedule_stop_times fixture.schedule_trips))
              =? 0)%nat
          then 1000000
          else inject_Z
                 (Z.of_nat
                    (engineering.group_count
                       ("ROUTE1"%string, (engineering.base_date + 8 * engineering.hour_ns)%Z)
                       (map engineering.group_key
                          (engineering.merge fixture.schedule_stop_times
                             fixture.schedule_trips)))
                  * 80)%Z).
Proof.
  eexists. split; [reflexivity|]. split; [reflexivity|]. split; [reflexivity|].
  exact (optimizer_reads_trip_count fixture.schedule 80 fixture.schedule_stop_times
           fixture.schedule_trips _ "ROUTE1"
           (engineering.base_date + 8 * engineering.hour_ns)%Z eq_refl eq_refl eq_refl).
Defined.

Lemma capacity_only_on_base_date_witness :
  exists out,
    engineering.stop_times fixture.schedule = Some fixture.schedule_stop_times
    /\ Forall (fun s => match engineering.arrival_time s with
                        | Some td => (0 <= td < 24 * engineering.hour_ns)%Z
                        | None => True
                        end) fixture.schedule_stop_times
    /\ engineering.compute_capacity fixture.schedule 80 = Return out
    /\ (engineering.base_date + 24 * engineering.hour_ns <= scenario.at_hour 8)%Z
    /\ optimizer.cap_value out "ROUTE1" (scenario.at_hour 8) = 1000000.
Proof.
  assert (Harr : Forall (fun s => match engineering.arrival_time s with
                                  | Some td => (0 <= td < 24 * engineering.hour_ns)%Z
                                  | None => True
                                  end) fixture.schedule_stop_times).
  { apply Forall_forall. intros s [<- | [<- | [<- | []]]]; vm_compute;
      (split; [discriminate | reflexivity]). }
  assert (Hts : (engineering.base_date + 24 * engineering.hour_ns <= scenario.at_hour 8)%Z).
  { vm_compute. discriminate. }
  eexists. split; [reflexivity|]. split; [exact Harr|]. split; [reflexivity|].
  split; [exact Hts|].
  exact (capacity_only_on_base_date fixture.schedule 80 fixture.schedule_stop_times _
           "ROUTE1" (scenario.at_hour 8) eq_refl Harr eq_refl (or_intror (or_introl Hts))).
Defined.

(** ** Training *)

Section TrainingProperties.

Import builtins forecaster service.

Lemma holdout_horizon_bounds (n : nat) :
  (1 <= holdout_horizon n <= 24)%nat
  /\ ((1 <= n)%nat -> (holdout_horizon n <= n)%nat)
  /\ ((2 <= n)%nat -> (holdout_horizon n < n)%nat).
Proof.
  unfold holdout_horizon.
  assert (Hdiv : (1 <= n -> n / 5 < n)%nat) by (intros; apply Nat.div_lt; lia).
  repeat split; intros; lia.
Qed.

(** The validation rows of a group with a row: as many as the horizon. *)
Lemma validation_length {A : Type} (group : list A) :
  group <> [] ->
  List.length (validation_of group) = holdout_horizon (List.length group).
Proof.
  intros Hne.
  assert (Hlen : (1 <= List.length group)%nat).
  { destruct group; [contradiction | simpl; lia]. }
  destruct (holdout_horizon_bounds (List.length group)) as (Hb & Hle & _).
  specialize (Hle Hlen).
  unfold validation_of, iloc_last.
  destruct (Nat.eqb_spec (holdout_horizon (List.length group)) 0) as [H0|_]; [lia|].
  rewrite length_skipn. lia.
Qed.

(** X24.  The hold-out split of a group: the horizon is between 1 and
    24 and the validation rows are the last [horizon] rows.  With two
    rows or more the history and the validation rows partition the
    group; with a single row both are that row, the model is validated on
    the row it was fitted on. *)
Theorem holdout_split {A : Type} (group : list A) :
  group <> [] ->
  (1 <= holdout_horizon (List.length group) <= 24)%nat
  /\ List.length (validation_of group) = holdout_horizon (List.length group)
  /\ ((2 <= List.length group)%nat ->
      history_of group ++ validation_of group = group /\ history_of group <> [])
  /\ (List.length group = 1%nat -> history_of group = group /\ validation_of group = group).
Proof.
  intros Hne.
  assert (Hlen : (1 <= List.length group)%nat).
  { destruct group; [contradiction | simpl; lia]. }
  destruct (holdout_horizon_bounds (List.length group)) as (Hb & Hle & Hlt).
  specialize (Hle Hlen).
  unfold history_of, validation_of, iloc_but_last, iloc_last. cbv zeta.
  set (h := holdout_horizon (List.length group)) in *.
  destruct (Nat.eqb_spec h 0) as [H0|_]; [lia|].
  split; [exact Hb|]. split; [rewrite length_skipn; lia|]. split.
  - intros H2. specialize (Hlt H2).
    destruct (Nat.ltb_spec h (List.length group)) as [_|Hge]; [|lia].
    split; [apply firstn_skipn|].
    intros Hnil. apply (f_equal (@List.length A)) in Hnil.
    rewrite length_firstn in Hnil. simpl in Hnil. lia.
  - intros H1.
    destruct (Nat.ltb_spec h (List.length group)) as [Hlt'|_]; [lia|].
    split; [reflexivity|].
    replace (List.length group - h)%nat with 0%nat by lia. reflexivity.
Qed.

Context {Row Kwargs F : Type} `{Forecaster Row F}.

Variables (route_id_of stop_id_of : Row -> string) (column : string -> option (Row -> Q))
  (sort_values : list Row -> list Row) (no_kwargs : Kwargs).

Lemma group_eqb_eq (a b : string * string) : group_eqb a b = true <-> a = b.
Proof.
  destruct a as [r s], b as [r' s']. unfold group_eqb. cbn [fst snd].
  rewrite andb_true_iff, !String.eqb_eq. split.
  - intros [-> ->]. reflexivity.
  - intros [= -> ->]. split; reflexivity.
Qed.

Lemma insert_group_perm (k : string * string) (l : list (string * string)) :
  Permutation (insert_group k l) (k :: l).
Proof.
  induction l as [|k' l IH]; simpl.
  - reflexivity.
  - destruct (group_leb k k').
    + reflexivity.
    + rewrite IH. apply perm_swap.
Qed.

Lemma sort_groups_perm (l : list (string * string)) : Permutation (sort_groups l) l.
Proof.
  induction l as [|k l IH]; simpl.
  - reflexivity.
  - rewrite insert_group_perm. now constructor.
Qed.

(** A table with a row has a first group, and the group has a row. *)
Lemma groupby_first (train : list Row) :
  train <> [] ->
  exists key group rest,
    groupby route_id_of stop_id_of train = (key, group) :: rest /\ group <> [].
Proof.
  intros Hne. unfold groupby.
  set (keys := sort_groups (unique group_eqb (map (group_key_of route_id_of stop_id_of) train))).
  assert (Hkeys : forall k, In k keys -> In k (map (group_key_of route_id_of stop_id_of) train)).
  { intros k Hk. apply (Permutation_in _ (sort_groups_perm _)) in Hk.
    exact (proj1 (unique_In group_eqb _ k group_eqb_eq) Hk). }
  destruct keys as [|k keys'] eqn:E.
  - exfalso. destruct train as [|r train]; [contradiction|].
    assert (Hin : In (group_key_of route_id_of stop_id_of r) keys).
    { unfold keys. apply (Permutation_in _ (Permutation_sym (sort_groups_perm _))).
      apply (proj2 (unique_In group_eqb _ _ group_eqb_eq)). now left. }
    rewrite E in Hin. contradiction.
  - cbn [map]. eexists. eexists. eexists. split; [reflexivity|].
    specialize (Hkeys k (or_introl eq_refl)).
    apply in_map_iff in Hkeys. destruct Hkeys as (r & Hr & Hin).
    intros Hnil.
    assert (Hf : In r (filter (fun r => group_eqb (group_key_of route_id_of stop_id_of r) k)
                         train)).
    { apply filter_In. split; [exact Hin | now apply group_eqb_eq]. }
    rewrite Hnil in Hf. contradiction.
Qed.

Lemma evaluate_raises (y_true y_pred : list Q) :
  exists e, Forecaster_evaluate y_true y_pred = Raises e.
Proof.
  unfold Forecaster_evaluate. destruct (negb _); eexists; reflexivity.
Qed.

(** With the inherited [evaluate] the loop never gets past its first
    group. *)
Lemma train_groups_raises (registry : base.Registry Kwargs F)
    (model_name target_col : string) (model_kwargs : Kwargs) (key : string * string)
    (group : list Row) (rest : list ((string * string) * list Row))
    (forecasts_list : list (list ForecastRow)) (metrics_accum : list metrics.Metrics) :
  inherits_evaluate ->
  exists e,
    train_groups column sort_values registry model_name target_col
      model_kwargs ((key, group) :: rest) forecasts_list metrics_accum
    = Raises e.
Proof.
  intros Hinherits. cbn [train_groups].
  destruct (base.create Kwargs F registry model_name model_kwargs) as [model|e];
    cbn [bind]; [|now exists e].
  destruct (fit model _ target_col) as [model'|e]; cbn [bind]; [|now exists e].
  destruct (predict model' _) as [preds|e]; cbn [bind]; [|now exists e].
  destruct (column target_col) as [target|]; cbn [bind]; [|eexists; reflexivity].
  rewrite Hinherits.
  destruct (evaluate_raises (map target (validation_of (sort_values group))) (map yhat preds))
    as [e He].
  rewrite He. cbn [bind]. now exists e.
Qed.

(** X22.  For forecasters that inherit [Forecaster.evaluate], as the
    three registered classes do, [train_model] returns only on an empty
    table, and then an empty forecast table with [rmse = mape = nan],
    whatever the model name (a name nobody registered included).  On a
    table with a row it raises: the first group ends in the inherited
    [evaluate], which cannot return on [ndarray] arguments. *)
Theorem train_model_returns_only_on_empty_table (registry : base.Registry Kwargs F)
    (train : list Row) (model_name target_col : string) (model_kwargs : option Kwargs)
    (res : list ForecastRow * metrics.Metrics * string) :
  inherits_evaluate ->
  train_model route_id_of stop_id_of column sort_values no_kwargs registry train model_name
    target_col model_kwargs = Returns res
  <-> train = []
      /\ res = ([], {| metrics.rmse := np.NaN; metrics.mape := np.NaN |}, model_name).
Proof.
  intros Hinherits. split.
  - intros Hres. destruct train as [|r train].
    + split; [reflexivity|]. cbn in Hres. now injection Hres as <-.
    + exfalso.
      destruct (groupby_first (r :: train)) as (key & group & rest & Hg & _); [discriminate|].
      unfold train_model in Hres. rewrite Hg in Hres.
      destruct (train_groups_raises registry model_name target_col
                  (match model_kwargs with Some kwargs => kwargs | None => no_kwargs end)
                  key group rest [] [] Hinherits) as [e He].
      rewrite He in Hres. discriminate.
  - intros [-> ->]. reflexivity.
Qed.

(** X23.  When the model is registered and inherits
    [Forecaster.evaluate], [fit] and [predict] succeed, [predict] returns
    one row per step of the horizon and the target column exists,
    [train_model] on a table with a row raises the [AttributeError] of
    [error.abs()]. *)
Theorem train_model_raises_attribute_error (registry : base.Registry Kwargs F)
    (train : list Row) (model_name target_col : string) (model_kwargs : option Kwargs)
    (model : F) (target : Row -> Q) :
  inherits_evaluate ->
  train <> [] ->
  base.create Kwargs F registry model_name
    (match model_kwargs with Some kwargs => kwargs | None => no_kwargs end) = Returns model ->
  (forall m rows, exists m', fit m rows target_col = Returns m') ->
  (forall m h, exists preds, predict m h = Returns preds /\ List.length preds = h) ->
  column target_col = Some target ->
  (forall rows, List.length (sort_values rows) = List.length rows) ->
  train_model route_id_of stop_id_of column sort_values no_kwargs registry train model_name
    target_col model_kwargs = Raises (AttributeError "numpy.ndarray" "abs").
Proof.
  intros Hinherits Hne Hcreate Hfit Hpredict Hcol Hsort.
  destruct (groupby_first train Hne) as (key & group & rest & Hg & Hgroup).
  unfold train_model. rewrite Hg. cbn [train_groups].
  rewrite Hcreate. cbn [bind].
  destruct (Hfit model (history_of (sort_values group))) as [model' ->]. cbn [bind].
  destruct (Hpredict model' (holdout_horizon (List.length (sort_values group))))
    as (preds & -> & Hlen).
  cbn [bind]. rewrite Hcol. cbn [bind].
  assert (Hsorted : sort_values group <> []).
  { intros Hnil. apply (f_equal (@List.length Row)) in Hnil. rewrite Hsort in Hnil.
    destruct group; [contradiction | discriminate]. }
  rewrite Hinherits. unfold Forecaster_evaluate.
  rewrite !length_map, (validation_length _ Hsorted), Hlen.
  unfold broadcasts. rewrite Nat.eqb_refl. reflexivity.
Qed.

End TrainingProperties.

Lemma holdout_split_witness :
  [1; 2; 3]%nat <> []
  /\ (1 <= service.holdout_horizon (List.length [1; 2; 3]%nat) <= 24)%nat
  /\ List.length (service.validation_of [1; 2; 3]%nat)
     = service.holdout_horizon (List.length [1; 2; 3]%nat)
  /\ ((2 <= List.length [1; 2; 3]%nat)%nat ->
      service.history_of [1; 2; 3]%nat ++ service.validation_of [1; 2; 3]%nat = [1; 2; 3]%nat
      /\ service.history_of [1; 2; 3]%nat <> [])
  /\ (List.length [1; 2; 3]%nat = 1%nat ->
      service.history_of [1; 2; 3]%nat = [1; 2; 3]%nat
      /\ service.validation_of [1; 2; 3]%nat = [1; 2; 3]%nat).
Proof.
  assert (Hne : [1; 2; 3]%nat <> []) by discriminate.
  split; [exact Hne|].
  exact (holdout_split [1; 2; 3]%nat Hne).
Defined.

Lemma flat_forecaster_inherits_evaluate :
  forecaster.inherits_evaluate (H := fixture.flat_forecaster).
Proof.
  intros model y_true y_pred. reflexivity.
Defined.

Lemma train_model_returns_only_on_empty_table_witness :
  forecaster.inherits_evaluate (H := fixture.flat_forecaster)
  /\ service.train_model (H := fixture.flat_forecaster) route_id stop_id fixture.demand_column
       fixture.keep_order tt fixture.flat_registry [] "lstm" "validations" None
     = builtins.Returns
         ([], {| metrics.rmse := np.NaN; metrics.mape := np.NaN |}, "lstm"%string)
  /\ forall res,
       service.train_model (H := fixture.flat_forecaster) route_id stop_id fixture.demand_column
         fixture.keep_order tt fixture.flat_registry scenario.C_demand "flat" "validations" None
       <> builtins.Returns res.
Proof.
  split; [exact flat_forecaster_inherits_evaluate|]. split.
  - exact (proj2 (train_model_returns_only_on_empty_table (H := fixture.flat_forecaster)
                    route_id stop_id fixture.demand_column fixture.keep_order tt
                    fixture.flat_registry [] "lstm" "validations" None _
                    flat_forecaster_inherits_evaluate)
             (conj eq_refl eq_refl)).
  - intros res Hres.
    destruct (proj1 (train_model_returns_only_on_empty_table (H := fixture.flat_forecaster)
                       route_id stop_id fixture.demand_column fixture.keep_order tt
                       fixture.flat_registry scenario.C_demand "flat" "validations" None res
                       flat_forecaster_inherits_evaluate) Hres) as [Hempty _].
    discriminate Hempty.
Defined.

Lemma train_model_raises_attribute_error_witness :
  forecaster.inherits_evaluate (H := fixture.flat_forecaster)
  /\ scenario.C_demand <> []
  /\ base.create unit unit fixture.flat_registry "flat" tt = builtins.Returns tt
  /\ (forall (m : unit) (rows : list DemandRecord),
        exists m', forecaster.fit (Forecaster := fixture.flat_forecaster) m rows "validations" = builtins.Returns m')
  /\ (forall (m : unit) (h : nat),
        exists preds, forecaster.predict (Forecaster := fixture.flat_forecaster) m h = builtins.Returns preds
                      /\ List.length preds = h)
  /\ fixture.demand_column "validations" = Some validations
  /\ (forall rows, List.length (fixture.keep_order rows) = List.length rows)
  /\ service.train_model (H := fixture.flat_forecaster) route_id stop_id fixture.demand_column fixture.keep_order tt
       fixture.flat_registry scenario.C_demand "flat" "validations" None
     = builtins.Raises (builtins.AttributeError "numpy.ndarray" "abs").
Proof.
  assert (Hne : scenario.C_demand <> []) by discriminate.
  assert (Hfit : forall (m : unit) (rows : list DemandRecord),
             exists m', forecaster.fit (Forecaster := fixture.flat_forecaster) m rows "validations" = builtins.Returns m').
  { intros m rows. exists m. reflexivity. }
  assert (Hpredict : forall (m : unit) (h : nat),
             exists preds, forecaster.predict (Forecaster := fixture.flat_forecaster) m h = builtins.Returns preds
                           /\ List.length preds = h).
  { intros m h. eexists. split; [reflexivity | apply repeat_length]. }
  assert (Hsort : forall rows, List.length (fixture.keep_order rows) = List.length rows).
  { intros rows. reflexivity. }
  split; [exact flat_forecaster_inherits_evaluate|].
  split; [exact Hne|]. split; [reflexivity|]. split; [exact Hfit|].
  split; [exact Hpredict|]. split; [reflexivity|]. split; [exact Hsort|].
  exact (train_model_raises_attribute_error (H := fixture.flat_forecaster) route_id stop_id
           fixture.demand_column fixture.keep_order tt fixture.flat_registry scenario.C_demand
           "flat" "validations" None tt validations flat_forecaster_inherits_evaluate
           Hne eq_refl Hfit Hpredict eq_refl Hsort).
Defined.

(** ** Metrics *)

Section MetricsProperties.

Import metrics.

Variable sqrt : Q -> Q.

Lemma mean_finite (l : list Q) :
  l <> [] ->
  mean l = np.Finite (np.sum l / inject_Z (Z.of_nat (List.length l))).
Proof.
  intros Hne. unfold mean. apply div_finite.
  assert (0 < inject_Z (Z.of_nat (List.length l))); [|lra].
  change 0 with (inject_Z 0). rewrite <- Zlt_Qlt.
  destruct l; [contradiction | simpl; lia].
Qed.

Lemma filter_none {A : Type} (f : A -> bool) (l : list A) :
  (forall x, In x l -> f x = false) -> filter f l = [].
Proof.
  induction l as [|x l IH]; intros H; simpl.
  - reflexivity.
  - rewrite (H x (or_introl eq_refl)). apply IH. intros y Hy. apply H. now right.
Qed.

(** X25.  When no actual value differs from 0 (an empty series
    included), [compute_metrics] returns [mape = nan]: the cells with a
    zero actual are dropped and the mean of nothing is [nan]. *)
Theorem mape_is_nan_without_nonzero_actual (actual predicted : list Q) :
  Forall (fun a => a == 0) actual ->
  mape (compute_metrics sqrt actual predicted) = np.NaN.
Proof.
  intros Hz. unfold compute_metrics. cbn [mape].
  rewrite filter_none; [reflexivity|].
  intros [a p] Hin. cbn [fst].
  apply in_combine_l in Hin. rewrite Forall_forall in Hz.
  apply negb_false_iff, Qeq_bool_iff. now apply Hz.
Qed.

Lemma combine_diag {A : Type} (l : list A) : combine l l = map (fun x => (x, x)) l.
Proof.
  induction l as [|x l IH]; simpl; [reflexivity | now rewrite IH].
Qed.

(** X26.  A forecast equal to the actual series, with at least one
    non-zero actual, has [mape = 0] and [rmse] the square root of a mean
    square error of 0. *)
Theorem perfect_forecast_metrics (actual : list Q) (a : Q) :
  In a actual -> ~ a == 0 ->
  np.eq (mape (compute_metrics sqrt actual actual)) (np.Finite 0)
  /\ exists q, rmse (compute_metrics sqrt actual actual) = np.Finite (sqrt q) /\ q == 0.
Proof.
  intros Hin Ha. unfold compute_metrics. cbn [mape rmse].
  rewrite combine_diag, filter_map_comm, !map_map. cbn [fst snd].
  split.
  - set (nonzero := filter (fun x => negb (Qeq_bool x 0)) actual).
    assert (Hne : map (fun x => Qabs (x - x) / x) nonzero <> []).
    { assert (Hn : In a nonzero).
      { apply filter_In. split; [exact Hin|].
        apply negb_true_iff. destruct (Qeq_bool a 0) eqn:E; [|reflexivity].
        apply Qeq_bool_iff in E. contradiction. }
      destruct nonzero; [contradiction | discriminate]. }
    rewrite (mean_finite _ Hne). cbn [np.eq].
    rewrite sum_map_zero; [unfold Qdiv; ring|].
    apply Forall_forall. intros x _.
    assert (Hx : x - x == 0) by ring.
    rewrite Hx. change (Qabs 0) with 0. unfold Qdiv. ring.
  - assert (Hne : map (fun x => (x - x) * (x - x)) actual <> []).
    { destruct actual; [contradiction | discriminate]. }
    rewrite (mean_finite _ Hne). cbn [pow_half].
    eexists. split; [reflexivity|].
    rewrite sum_map_zero; [unfold Qdiv; ring|].
    apply Forall_forall. intros x _. ring.
Qed.

End MetricsProperties.

Lemma mape_is_nan_without_nonzero_actual_witness :
  Forall (fun a => a == 0) [0; 0]
  /\ metrics.mape (metrics.compute_metrics (fun q => q) [0; 0] [3; 4]) = np.NaN.
Proof.
  assert (Hz : Forall (fun a => a == 0) [0; 0]) by (repeat constructor).
  split; [exact Hz|].
  exact (mape_is_nan_without_nonzero_actual (fun q => q) [0; 0] [3; 4] Hz).
Defined.

Lemma perfect_forecast_metrics_witness :
  In 2 [2; 0; 3] /\ ~ 2 == 0
  /\ np.eq (metrics.mape (metrics.compute_metrics (fun q => q) [2; 0; 3] [2; 0; 3]))
       (np.Finite 0)
  /\ exists q,
      metrics.rmse (metrics.compute_metrics (fun q => q) [2; 0; 3] [2; 0; 3])
      = np.Finite ((fun q => q) q)
      /\ q == 0.
Proof.
  assert (Hin : In 2 [2; 0; 3]) by (left; reflexivity).
  assert (Hnz : ~ 2 == 0) by discriminate.
  split; [exact Hin|]. split; [exact Hnz|].
  exact (perfect_forecast_metrics (fun q => q) [2; 0; 3] 2 Hin Hnz).
Defined.

(** * The simulator in binary64: properties *)

(** ** Rounding *)

Section Rounding.

Import np f64 accuracy.

Lemma pow2_pos (e : Z) : 0 < pow2 e.
Proof. apply Qpower_0_lt. reflexivity. Qed.

Lemma pow2_plus (a b : Z) : pow2 (a + b) == pow2 a * pow2 b.
Proof. apply Qpower_plus. discriminate. Qed.

Lemma pow2_inject (n : Z) : (0 <= n)%Z -> pow2 n == inject_Z (2 ^ n).
Proof. intros H. unfold pow2. rewrite Zpower_Qpower by exact H. reflexivity. Qed.

Lemma rne_error (x : Q) : Qabs (inject_Z (rne x) - x) <= 1 # 2.
Proof.
  unfold rne.
  pose proof (Qfloor_le x) as Hlo. pose proof (Qlt_floor x) as Hhi.
  rewrite inject_Z_plus in Hhi. change (inject_Z 1) with 1 in Hhi.
  apply Qabs_Qle_condition.
  destruct (Qcompare_spec (x - inject_Z (Qfloor x)) (1 # 2)) as [H|H|H].
  - destruct (Z.even (Qfloor x)); rewrite ?inject_Z_plus; change (inject_Z 1) with 1; lra.
  - lra.
  - rewrite inject_Z_plus. change (inject_Z 1) with 1. lra.
Qed.

Lemma rne_inject (z : Z) : rne (inject_Z z) = z.
Proof.
  unfold rne. rewrite Qfloor_Z.
  destruct (Qcompare_spec (inject_Z z - inject_Z z) (1 # 2)) as [H|H|H]; try reflexivity; lra.
Qed.

Lemma Qabs_make (n : Z) (d : positive) : Qabs (n # d) == inject_Z (Z.abs n) / inject_Z (Zpos d).
Proof.
  unfold Qabs. rewrite (Qmake_Qdiv (Z.abs n) d). reflexivity.
Qed.

(** [ilog2 q] is not above the binary logarithm of [|q|]. *)
Lemma ilog2_lower (q : Q) : ~ q == 0 -> pow2 (ilog2 q) <= Qabs q.
Proof.
  intros Hq. unfold ilog2. cbv zeta.
  destruct (Qle_bool _ (Qabs q)) eqn:E; [now apply Qle_bool_iff|].
  destruct q as [n d].
  assert (Hn : (0 < Z.abs n)%Z).
  { assert (n <> 0)%Z; [|lia]. intros ->. apply Hq. reflexivity. }
  cbn [Qnum Qden].
  set (ln := Z.log2 (Z.abs n)). set (ld := Z.log2 (Zpos d)).
  pose proof (Z.log2_nonneg (Z.abs n)) as Hln0. fold ln in Hln0.
  pose proof (Z.log2_nonneg (Zpos d)) as Hld0. fold ld in Hld0.
  destruct (Z.log2_spec (Z.abs n) Hn) as [Hn1 _]. fold ln in Hn1.
  destruct (Z.log2_spec (Zpos d) eq_refl) as [_ Hd2]. fold ld in Hd2.
  replace (ln - ld - 1)%Z with (ln + - (Z.succ ld))%Z by lia.
  rewrite pow2_plus. unfold pow2 at 2. rewrite Qpower_opp. fold (pow2 (Z.succ ld)).
  rewrite !pow2_inject by lia. rewrite Qabs_make.
  assert (HA : inject_Z (2 ^ ln) <= inject_Z (Z.abs n)) by now rewrite <- Zle_Qle.
  assert (HB : inject_Z (Zpos d) <= inject_Z (2 ^ Z.succ ld)).
  { rewrite <- Zle_Qle. lia. }
  assert (HA0 : 0 < inject_Z (2 ^ ln)).
  { change 0 with (inject_Z 0). rewrite <- Zlt_Qlt. apply Z.pow_pos_nonneg; lia. }
  assert (HD0 : 0 < inject_Z (Zpos d)) by reflexivity.
  set (A := inject_Z (2 ^ ln)) in *. set (N := inject_Z (Z.abs n)) in *.
  set (D := inject_Z (Zpos d)) in *. set (B := inject_Z (2 ^ Z.succ ld)) in *.
  apply Qle_shift_div_l; [exact HD0|].
  assert (HB0 : 0 < B) by lra.
  assert (H : A * / B * D <= A).
  { setoid_replace (A * / B * D) with (A * (D / B)) by (field; lra).
    assert (D / B <= 1) by (apply Qle_shift_div_r; lra).
    nra. }
  lra.
Qed.

Lemma round_finite_error (q : Q) : Qabs (round_finite q - q) <= u * Qabs q + eta.
Proof.
  pose proof (Qabs_nonneg q) as Hq0.
  assert (Heta : 0 < eta) by apply pow2_pos.
  unfold round_finite. destruct (Qeq_bool q 0) eqn:E.
  - apply Qeq_bool_iff in E. rewrite E. change (Qabs (0 - 0)) with 0.
    change (Qabs 0) with 0. unfold u. lra.
  - apply Qeq_bool_neq in E.
    rewrite Qred_correct.
    set (e := ulp_exponent q).
    pose proof (pow2_pos e) as He.
    pose proof (rne_error (q / pow2 e)) as Hm.
    set (m := inject_Z (rne (q / pow2 e))) in *.
    assert (Herr : Qabs (m * pow2 e - q) <= pow2 e * (1 # 2)).
    { setoid_replace (m * pow2 e - q) with ((m - q / pow2 e) * pow2 e) by (field; lra).
      rewrite Qabs_Qmult, (Qabs_pos (pow2 e)) by lra.
      rewrite (Qmult_comm (pow2 e)). apply Qmult_le_compat_r; lra. }
    assert (Hulp : pow2 e * (1 # 2) <= u * Qabs q + eta).
    { unfold e, ulp_exponent.
      destruct (Z.max_spec (ilog2 q - 52) (-1074)) as [[_ ->]|[_ ->]].
      - change (pow2 (-1074) * (1 # 2)) with eta. unfold u. nra.
      - replace (ilog2 q - 52)%Z with (ilog2 q + -52)%Z by lia.
        rewrite pow2_plus.
        pose proof (ilog2_lower q E) as Hl.
        change (pow2 (-52)) with (1 # 4503599627370496). unfold u. nra. }
    lra.
Qed.

Lemma eta_pos : 0 < eta.
Proof. apply pow2_pos. Qed.

Lemma eta_small : eta <= 1 # 4.
Proof. vm_compute. discriminate. Qed.

Lemma omega_large : 1 <= omega.
Proof. vm_compute. discriminate. Qed.

Lemma pow2_1024 : pow2 1024 == 2 * omega.
Proof. change 1024%Z with (1 + 1023)%Z. rewrite pow2_plus. reflexivity. Qed.

(** Below [omega] a result is rounded to a finite float, with a relative
    error of at most [u], or an absolute one of at most [eta]. *)
Lemma round64_approx (q : Q) :
  Qabs q <= omega -> approx (round64 q) q (u * Qabs q + eta).
Proof.
  intros Hq. exists (round_finite q). split; [|apply round_finite_error].
  unfold round64. cbv zeta.
  destruct (Qle_bool (pow2 1024) (Qabs (round_finite q))) eqn:E; [|reflexivity].
  exfalso. apply Qle_bool_iff in E. rewrite pow2_1024 in E.
  pose proof (round_finite_error q) as Herr.
  pose proof (Qabs_triangle_reverse (round_finite q) q) as Ht.
  pose proof eta_small. pose proof omega_large. pose proof (Qabs_nonneg q).
  unfold u in Herr. lra.
Qed.

Lemma approx_weaken (x : npfloat) (a tol tol' : Q) :
  approx x a tol -> tol <= tol' -> approx x a tol'.
Proof.
  intros (r & Hx & Hr) Hle. exists r. split; [exact Hx | lra].
Qed.

Lemma approx_exact (r : Q) : approx (Finite r) r 0.
Proof.
  exists r. split; [reflexivity|].
  setoid_replace (r - r) with 0 by ring. apply Qle_refl.
Qed.

Lemma approx_Qeq (x : npfloat) (a a' tol : Q) :
  approx x a tol -> a == a' -> approx x a' tol.
Proof.
  intros (r & Hx & Hr) Heq. exists r. split; [exact Hx|]. now rewrite <- Heq.
Qed.

(** The absolute value of an approximated float. *)
Lemma approx_bound (x : npfloat) (a tol : Q) :
  approx x a tol -> exists r, x = Finite r /\ Qabs (r - a) <= tol /\ Qabs r <= Qabs a + tol.
Proof.
  intros (r & Hx & Hr). exists r. split; [exact Hx|]. split; [exact Hr|].
  pose proof (Qabs_triangle_reverse r a). lra.
Qed.

Lemma add_approx (x y : npfloat) (a b ta tb : Q) :
  approx x a ta -> approx y b tb ->
  Qabs a + Qabs b + ta + tb <= omega ->
  approx (add x y) (a + b) (ta + tb + u * (Qabs a + Qabs b + ta + tb) + eta).
Proof.
  intros Hx Hy Hom.
  apply approx_bound in Hx. destruct Hx as (r & -> & Hr & Hra).
  apply approx_bound in Hy. destruct Hy as (s & -> & Hs & Hsb).
  cbn [add].
  pose proof (Qabs_triangle r s) as Hrs.
  destruct (round64_approx (r + s)) as (t & Ht & Herr); [lra|].
  exists t. split; [exact Ht|].
  setoid_replace (t - (a + b)) with ((t - (r + s)) + ((r - a) + (s - b))) by ring.
  pose proof (Qabs_triangle (t - (r + s)) ((r - a) + (s - b))) as H1.
  pose proof (Qabs_triangle (r - a) (s - b)) as H2.
  unfold u in *. lra.
Qed.

Lemma neg_approx (x : npfloat) (a ta : Q) :
  approx x a ta -> approx (neg x) (- a) ta.
Proof.
  intros (r & -> & Hr). exists (- r). split; [reflexivity|].
  setoid_replace (- r - - a) with (- (r - a)) by ring. now rewrite Qabs_opp.
Qed.

Lemma sub_approx (x y : npfloat) (a b ta tb : Q) :
  approx x a ta -> approx y b tb ->
  Qabs a + Qabs b + ta + tb <= omega ->
  approx (sub x y) (a - b) (ta + tb + u * (Qabs a + Qabs b + ta + tb) + eta).
Proof.
  intros Hx Hy Hom. unfold sub.
  apply neg_approx in Hy.
  pose proof (Qabs_opp b) as Hb.
  eapply approx_weaken.
  - apply (add_approx x (neg y) a (- b) ta tb Hx Hy). lra.
  - unfold u. lra.
Qed.

Lemma Qmult_le_compat_both (a b c d : Q) :
  0 <= a -> a <= c -> 0 <= b -> b <= d -> a * b <= c * d.
Proof.
  intros Ha Hac Hb Hbd.
  apply Qle_trans with (c * b).
  - apply Qmult_le_compat_r; assumption.
  - rewrite !(Qmult_comm c). apply Qmult_le_compat_r; [assumption | lra].
Qed.

Lemma mul_approx (x y : npfloat) (a b ta tb : Q) :
  approx x a ta -> approx y b tb ->
  (Qabs a + ta) * (Qabs b + tb) <= omega ->
  approx (mul x y) (a * b)
    (Qabs a * tb + Qabs b * ta + ta * tb + u * ((Qabs a + ta) * (Qabs b + tb)) + eta).
Proof.
  intros Hx Hy Hom.
  apply approx_bound in Hx. destruct Hx as (r & -> & Hr & Hra).
  apply approx_bound in Hy. destruct Hy as (s & -> & Hs & Hsb).
  cbn [mul].
  pose proof (Qabs_nonneg r) as Hr0. pose proof (Qabs_nonneg s) as Hs0.
  pose proof (Qabs_nonneg a) as Ha0. pose proof (Qabs_nonneg b) as Hb0.
  pose proof (Qabs_nonneg (r - a)) as Hra0. pose proof (Qabs_nonneg (s - b)) as Hsb0.
  assert (Hrs : Qabs (r * s) <= (Qabs a + ta) * (Qabs b + tb)).
  { rewrite Qabs_Qmult. apply Qmult_le_compat_both; assumption. }
  destruct (round64_approx (r * s)) as (t & Ht & Herr); [lra|].
  exists t. split; [exact Ht|].
  setoid_replace (t - a * b)
    with ((t - r * s) + (a * (s - b) + b * (r - a) + (r - a) * (s - b))) by ring.
  pose proof (Qabs_triangle (t - r * s) (a * (s - b) + b * (r - a) + (r - a) * (s - b))) as H1.
  pose proof (Qabs_triangle (a * (s - b) + b * (r - a)) ((r - a) * (s - b))) as H2.
  pose proof (Qabs_triangle (a * (s - b)) (b * (r - a))) as H3.
  rewrite Qabs_Qmult in H2. rewrite !Qabs_Qmult in H3.
  assert (P1 : Qabs a * Qabs (s - b) <= Qabs a * tb).
  { apply Qmult_le_compat_both; lra. }
  assert (P2 : Qabs b * Qabs (r - a) <= Qabs b * ta).
  { apply Qmult_le_compat_both; lra. }
  assert (P3 : Qabs (r - a) * Qabs (s - b) <= ta * tb).
  { apply Qmult_le_compat_both; lra. }
  assert (P4 : u * Qabs (r * s) <= u * ((Qabs a + ta) * (Qabs b + tb))).
  { apply Qmult_le_compat_both; [discriminate | apply Qle_refl | apply Qabs_nonneg | exact Hrs]. }
  lra.
Qed.

Lemma clip_approx (x : npfloat) (a tol : Q) :
  approx x a tol -> approx (clip_lower_0 x) (np.clip_lower 0 a) tol.
Proof.
  intros (r & -> & Hr). cbn [clip_lower_0]. unfold np.clip_lower.
  apply Qabs_Qle_condition in Hr.
  destruct (Qle_bool 0 r) eqn:Er, (Qle_bool 0 a) eqn:Ea.
  - exists r. split; [reflexivity|]. apply Qabs_Qle_condition. exact Hr.
  - exists r. split; [reflexivity|]. apply Qabs_Qle_condition.
    apply Qle_bool_iff in Er.
    assert (Ha : ~ 0 <= a) by (intros H; apply Qle_bool_iff in H; congruence).
    apply Qnot_le_lt in Ha. lra.
  - exists 0. split; [reflexivity|]. apply Qabs_Qle_condition.
    apply Qle_bool_iff in Ea.
    assert (Hr' : ~ 0 <= r) by (intros H; apply Qle_bool_iff in H; congruence).
    apply Qnot_le_lt in Hr'. lra.
  - exists 0. split; [reflexivity|]. apply Qabs_Qle_condition. lra.
Qed.

Lemma large_pos : 0 < large.
Proof. apply pow2_pos. Qed.

Lemma large_square : 8 * (large * large) <= omega.
Proof. vm_compute. discriminate. Qed.

Lemma large_ge_1 : 1 <= large.
Proof. vm_compute. discriminate. Qed.

End Rounding.

(** ** Columns of any type *)

Section Columns64.

Import np incentives64.

Context {A B : Type}.

Lemma loc_filter (p : A -> bool) (f : A -> B) (l : list A) :
  loc (map p l) (map f l) = map f (filter p l).
Proof.
  induction l as [|x l IH]; simpl.
  - reflexivity.
  - destruct (p x); simpl; now rewrite IH.
Qed.

Lemma set_loc_filter (p : A -> bool) (g h : A -> B) (l : list A) :
  set_loc (map p l) (map g (filter p l)) (map h l)
  = map (fun x => if p x then g x else h x) l.
Proof.
  induction l as [|x l IH]; simpl.
  - reflexivity.
  - destruct (p x); simpl; now rewrite IH.
Qed.

Lemma series_add64_map (f g : A -> npfloat) (l : list A) :
  series_add (map f l) (map g l) = map (fun x => f64.add (f x) (g x)) l.
Proof.
  induction l as [|x l IH]; simpl.
  - reflexivity.
  - now rewrite IH.
Qed.

End Columns64.

(** ** The binary64 simulator, row by row *)

Section Simulator64.

Import np builtins incentives64.

Variable elasticity : ElasticityConfig.

Let stamp (r : DemandRecord) : HourRow := {| record := r; hour := dt_hour (timestamp r) |}.

Lemma validations_col64_stamp (rows : list DemandRecord) :
  validations_col (map stamp rows) = map validations rows.
Proof. unfold validations_col. rewrite map_map. reflexivity. Qed.

Lemma peak_mask64_stamp (rows : list DemandRecord) :
  peak_mask_of elasticity (map stamp rows) = map (in_peak elasticity) rows.
Proof. unfold peak_mask_of. rewrite map_map. reflexivity. Qed.

Lemma shoulder_mask64_stamp (rows : list DemandRecord) :
  shoulder_mask_of elasticity (map stamp rows) = map (in_shoulder elasticity) rows.
Proof. unfold shoulder_mask_of. rewrite map_map. reflexivity. Qed.

Lemma validations_col64_set (f : DemandRecord -> npfloat) (rows : list DemandRecord) :
  validations_col (set_validations (map stamp rows) (map f rows)) = map f rows.
Proof.
  induction rows as [|r rows IH]; simpl.
  - reflexivity.
  - f_equal. exact IH.
Qed.

Lemma set_validations64_length (frame : list HourRow) (col : list npfloat) :
  List.length (set_validations frame col) = List.length frame.
Proof.
  revert col. induction frame as [|r frame IH]; intros [|v col]; simpl; auto.
Qed.

Lemma set_validations64_nth (f : DemandRecord -> npfloat) (rows : list DemandRecord) (i : nat)
    (r : DemandRecord) :
  nth_error rows i = Some r ->
  nth_error (set_validations (map stamp rows) (map f rows)) i
  = Some (with_validations (stamp r) (f r)).
Proof.
  revert i. induction rows as [|r0 rows IH]; intros [|i]; simpl; try discriminate.
  - intros [= ->]. reflexivity.
  - apply IH.
Qed.

(** The column-wise code computes [simulated_cell] at every row. *)
Lemma simulated_col64 (rows : list DemandRecord) :
  let peak_demand := loc (map (in_peak elasticity) rows) (map validations rows) in
  let shifted := map (fun v => f64.mul v (f64.neg (total_elasticity elasticity))) peak_demand in
  map f64.clip_lower_0
    (set_loc (map (in_shoulder elasticity) rows)
       (map (fun v => f64.sub v
                        (f64.div (f64.sum shifted)
                           (f64.of_nat
                              (Nat.max (mask_sum (map (in_shoulder elasticity) rows)) 1))))
          (loc (map (in_shoulder elasticity) rows) (map validations rows)))
       (set_loc (map (in_peak elasticity) rows) (series_add peak_demand shifted)
          (map validations rows)))
  = map (simulated_cell elasticity rows) rows.
Proof.
  cbv zeta.
  rewrite !loc_filter, mask_sum_map.
  rewrite (map_map validations (fun v => f64.mul v (f64.neg (total_elasticity elasticity)))).
  rewrite series_add64_map, set_loc_filter.
  rewrite (map_map validations).
  rewrite set_loc_filter, map_map.
  apply map_ext. intros r.
  unfold simulated_cell, shoulder_share, shifted_cell, peak_validations, shoulder_count.
  rewrite map_map. reflexivity.
Qed.

Lemma simulate_frame64_simulated (rows : list DemandRecord) (fare : npfloat) :
  simulated (simulate_frame rows elasticity fare)
  = set_validations (map stamp rows) (map (simulated_cell elasticity rows) rows).
Proof.
  unfold simulate_frame. cbv zeta. cbn [simulated].
  fold stamp.
  rewrite peak_mask64_stamp, shoulder_mask64_stamp, validations_col64_stamp.
  unfold total_elasticity.
  rewrite <- simulated_col64. reflexivity.
Qed.

Lemma simulate_frame64_baseline (rows : list DemandRecord) (fare : npfloat) :
  baseline (simulate_frame rows elasticity fare) = map stamp rows.
Proof. reflexivity. Qed.

Lemma simulate_frame64_peak_reduction (rows : list DemandRecord) (fare : npfloat) :
  peak_reduction_pct (simulate_frame rows elasticity fare)
  = f64.mul
      (f64.sub (Finite 1)
         (f64.div
            (f64.sum (map (simulated_cell elasticity rows) (filter (in_peak elasticity) rows)))
            (f64.sum (peak_validations elasticity rows))))
      (Finite 100).
Proof.
  unfold simulate_frame. cbv zeta. cbn [peak_reduction_pct].
  fold stamp.
  rewrite peak_mask64_stamp, shoulder_mask64_stamp, validations_col64_stamp.
  rewrite simulated_col64, validations_col64_set, !loc_filter.
  reflexivity.
Qed.

Lemma simulate_frame64_revenue_delta (rows : list DemandRecord) (fare : npfloat) :
  revenue_delta_pct (simulate_frame rows elasticity fare)
  = f64.mul
      (if f64.truth (f64.mul (f64.sum (map validations rows)) fare)
       then f64.div
              (f64.sub (f64.mul (f64.sum (map (simulated_cell elasticity rows) rows)) fare)
                 (f64.mul (f64.sum (map validations rows)) fare))
              (f64.mul (f64.sum (map validations rows)) fare)
       else Finite 0)
      (Finite 100).
Proof.
  unfold simulate_frame. cbv zeta. cbn [revenue_delta_pct].
  fold stamp.
  rewrite peak_mask64_stamp, shoulder_mask64_stamp, validations_col64_stamp.
  rewrite simulated_col64, validations_col64_set.
  reflexivity.
Qed.

(** What [simulate_incentives] returns is the simulation of its rows. *)
Lemma simulate_incentives64_returns (demand : DataFrame) (fare : npfloat)
    (res : SimulationResult) :
  simulate_incentives demand elasticity fare = Returns res ->
  res = simulate_frame (records demand) elasticity fare.
Proof.
  unfold simulate_incentives.
  destruct (has_column demand "timestamp"); simpl; try discriminate.
  destruct (timestamp_dtype demand); try discriminate.
  destruct (has_column demand "validations"); simpl; try discriminate.
  now intros [= <-].
Qed.

Lemma disjoint_rows64 (r : DemandRecord) :
  ranges_disjoint elasticity = true ->
  in_peak elasticity r && in_shoulder elasticity r = false.
Proof.
  unfold ranges_disjoint. intros H.
  rewrite forallb_forall in H.
  specialize (H _ (dt_hour_range (timestamp r))).
  apply negb_true_iff in H. exact H.
Qed.

End Simulator64.

(** ** The accuracy of the simulated cells *)

Section CellAccuracy.

Import np f64 accuracy.

(** A peak cell: [v + v * (-(p + t))], each operation rounded, is within
    a few units in the last place of [v * (1 - (p + t))]. *)
Lemma peak_cell_approx (v p t : Q) :
  0 <= v -> v <= large -> 0 <= p -> 0 <= t -> p + t <= large ->
  approx
    (clip_lower_0
       (add (Finite v) (mul (Finite v) (neg (add (Finite p) (Finite t))))))
    (np.clip_lower 0 (v * (1 - (p + t))))
    (4 * u * (v * (1 + (p + t))) + 4 * eta * (1 + v)).
Proof.
  intros Hv Hvl Hp Ht Hel.
  pose proof eta_pos as Heta. pose proof eta_small as Heta'.
  pose proof large_square as Hsq. pose proof large_ge_1 as Hl1.
  set (E := p + t) in *.
  assert (HEdef : E == p + t) by reflexivity.
  assert (HE : 0 <= E) by lra.
  assert (Hll : large <= large * large).
  { setoid_replace large with (1 * large) at 1 by ring.
    apply Qmult_le_compat_r; lra. }
  assert (HvE : 0 <= v * E) by (apply Qmult_le_0_compat; assumption).
  assert (HvE' : v * E <= large * large) by (apply Qmult_le_compat_both; assumption).
  assert (Hveta : 0 <= v * eta) by (apply Qmult_le_0_compat; lra).
  assert (Hveta' : v * eta <= v).
  { setoid_replace v with (v * 1) at 2 by ring.
    rewrite !(Qmult_comm v). apply Qmult_le_compat_r; lra. }
  pose proof (Qabs_pos v Hv) as Av. pose proof (Qabs_pos p Hp) as Ap.
  pose proof (Qabs_pos t Ht) as At.
  assert (AE : Qabs (- E) == E) by (rewrite Qabs_opp; now apply Qabs_pos).
  (* the total elasticity *)
  set (te := u * E + eta).
  assert (He : approx (add (Finite p) (Finite t)) E te).
  { eapply approx_weaken.
    - apply (add_approx _ _ p t 0 0 (approx_exact p) (approx_exact t)). lra.
    - unfold te, u. lra. }
  apply neg_approx in He.
  assert (Hte : 0 <= te) by (unfold te, u; lra).
  assert (Hte' : te <= E + 1) by (unfold te, u; lra).
  (* the shifted cell *)
  set (ts := 2 * u * (v * E) + u * u * (v * E) + 2 * (v * eta) + eta).
  assert (Hs : approx (mul (Finite v) (neg (add (Finite p) (Finite t)))) (v * - E) ts).
  { eapply approx_weaken.
    - apply (mul_approx _ _ v (- E) 0 te (approx_exact v) He).
      rewrite Av, AE.
      apply Qle_trans with (large * (3 * large)).
      + apply Qmult_le_compat_both; lra.
      + lra.
    - rewrite Av, AE. unfold ts, te, u. lra. }
  assert (Hts : 0 <= ts) by (unfold ts, u; lra).
  assert (Hts' : ts <= v * E + 2 * v + 1) by (unfold ts, u; lra).
  (* the simulated cell *)
  assert (AvE : Qabs (v * - E) == v * E) by (rewrite Qabs_Qmult, Av, AE; reflexivity).
  apply clip_approx.
  eapply approx_Qeq; [|instantiate (1 := v + v * - E); ring].
  eapply approx_weaken.
  - apply (add_approx _ _ v (v * - E) 0 ts (approx_exact v) Hs).
    rewrite Av, AvE. lra.
  - rewrite Av, AvE. unfold ts, u. fold E. lra.
Qed.

End CellAccuracy.

(** ** Properties of the binary64 simulator *)

Section Simulator64Properties.

Import np builtins incentives64.

(** A list of [n] cells that all hold the same value. *)
Lemma map_constant {A B : Type} (f : A -> B) (c : B) (l : list A) :
  Forall (fun x => f x = c) l -> map f l = repeat c (List.length l).
Proof.
  induction 1 as [|x l Hx _ IH]; simpl.
  - reflexivity.
  - now rewrite Hx, IH.
Qed.

(** C6, as amended.  Scenario A in binary64: with [peak_hours = (7,9)],
    [shoulder_hours = (10,15)] and both elasticities 0.05, on a table
    whose peak rows are three rows of 100 validations and whose shoulder
    rows are six rows of 50, every peak row is simulated at 90 and every
    shoulder row at 55, for every fare; [peak_reduction_pct] is the float
    below 10, [10 - 2^-49], printed 9.999999999999998: the quotient
    270 / 300 is rounded to the float 0.9, which is above 9/10. *)
Theorem scenario_A_simulation (demand : DataFrame) (elasticity : ElasticityConfig)
    (fare : npfloat) (res : SimulationResult) :
  peak_hours elasticity = (7, 9)%Z ->
  shoulder_hours elasticity = (10, 15)%Z ->
  price_elasticity elasticity = scenario64.literal (1 # 20) ->
  time_elasticity elasticity = scenario64.literal (1 # 20) ->
  List.length (filter (in_peak elasticity) (records demand)) = 3%nat ->
  Forall (fun r => validations r = Finite 100) (filter (in_peak elasticity) (records demand)) ->
  List.length (filter (in_shoulder elasticity) (records demand)) = 6%nat ->
  Forall (fun r => validations r = Finite 50)
    (filter (in_shoulder elasticity) (records demand)) ->
  simulate_incentives demand elasticity fare = Returns res ->
  (forall (i : nat) (r : DemandRecord),
     nth_error (records demand) i = Some r -> in_peak elasticity r = true ->
     exists s, nth_error (simulated res) i = Some s /\ validations (record s) = Finite 90)
  /\ (forall (i : nat) (r : DemandRecord),
        nth_error (records demand) i = Some r -> in_shoulder elasticity r = true ->
        exists s, nth_error (simulated res) i = Some s /\ validations (record s) = Finite 55)
  /\ peak_reduction_pct res = Finite (10 - (1 # 562949953421312)).
Proof.
  intros Hph Hsh Hpe Hte Hn3 Hv100 Hn6 Hv50 Hres.
  apply simulate_incentives64_returns in Hres. subst res.
  set (rows := records demand) in *.
  assert (Hd : ranges_disjoint elasticity = true).
  { unfold ranges_disjoint. rewrite Hph, Hsh. reflexivity. }
  assert (He : total_elasticity elasticity = scenario64.literal (1 # 10)).
  { unfold total_elasticity. rewrite Hpe, Hte. vm_compute. reflexivity. }
  assert (Hpv : peak_validations elasticity rows = repeat (Finite 100) 3).
  { unfold peak_validations. rewrite (map_constant _ _ _ Hv100), Hn3. reflexivity. }
  assert (Hshare : shoulder_share elasticity rows = Finite (- (5))).
  { unfold shoulder_share, shoulder_count. rewrite Hpv, Hn6.
    unfold shifted_cell. rewrite He. vm_compute. reflexivity. }
  assert (Hpeak : forall r, In r rows -> in_peak elasticity r = true ->
                            simulated_cell elasticity rows r = Finite 90).
  { intros r Hr Hp.
    pose proof (disjoint_rows64 elasticity r Hd) as Hdr. rewrite Hp in Hdr. simpl in Hdr.
    unfold simulated_cell. rewrite Hdr, Hp.
    rewrite Forall_forall in Hv100.
    rewrite (Hv100 r) by (apply filter_In; tauto).
    unfold shifted_cell. rewrite He. vm_compute. reflexivity. }
  assert (Hshoulder : forall r, In r rows -> in_shoulder elasticity r = true ->
                                simulated_cell elasticity rows r = Finite 55).
  { intros r Hr Hs.
    unfold simulated_cell. rewrite Hs, Hshare.
    rewrite Forall_forall in Hv50.
    rewrite (Hv50 r) by (apply filter_In; tauto).
    vm_compute. reflexivity. }
  split; [|split].
  - intros i r Hi Hp. rewrite simulate_frame64_simulated.
    eexists. split; [apply set_validations64_nth; exact Hi|].
    cbn [record with_validations validations].
    apply Hpeak; [eapply nth_error_In; exact Hi | exact Hp].
  - intros i r Hi Hs. rewrite simulate_frame64_simulated.
    eexists. split; [apply set_validations64_nth; exact Hi|].
    cbn [record with_validations validations].
    apply Hshoulder; [eapply nth_error_In; exact Hi | exact Hs].
  - rewrite simulate_frame64_peak_reduction. fold rows. rewrite Hpv.
    rewrite (map_constant (simulated_cell elasticity rows) (Finite 90)).
    + rewrite Hn3. vm_compute. reflexivity.
    + apply Forall_forall. intros r Hr. apply filter_In in Hr.
      destruct Hr as [Hr Hp]. apply Hpeak; assumption.
Qed.

Lemma scenario_A_simulation_witness :
  peak_hours scenario64.A_elasticity = (7, 9)%Z
  /\ shoulder_hours scenario64.A_elasticity = (10, 15)%Z
  /\ price_elasticity scenario64.A_elasticity = scenario64.literal (1 # 20)
  /\ time_elasticity scenario64.A_elasticity = scenario64.literal (1 # 20)
  /\ List.length (filter (in_peak scenario64.A_elasticity) (records scenario64.A_demand))
     = 3%nat
  /\ Forall (fun r => validations r = Finite 100)
       (filter (in_peak scenario64.A_elasticity) (records scenario64.A_demand))
  /\ List.length (filter (in_shoulder scenario64.A_elasticity) (records scenario64.A_demand))
     = 6%nat
  /\ Forall (fun r => validations r = Finite 50)
       (filter (in_shoulder scenario64.A_elasticity) (records scenario64.A_demand))
  /\ exists res,
      simulate_incentives scenario64.A_demand scenario64.A_elasticity (Finite 2) = Returns res
      /\ List.length (records scenario64.A_demand) = 9%nat
      /\ (forall (i : nat) (r : DemandRecord),
            nth_error (records scenario64.A_demand) i = Some r ->
            in_peak scenario64.A_elasticity r = true ->
            exists s, nth_error (simulated res) i = Some s
                      /\ validations (record s) = Finite 90)
      /\ (forall (i : nat) (r : DemandRecord),
            nth_error (records scenario64.A_demand) i = Some r ->
            in_shoulder scenario64.A_elasticity r = true ->
            exists s, nth_error (simulated res) i = Some s
                      /\ validations (record s) = Finite 55)
      /\ peak_reduction_pct res = Finite (10 - (1 # 562949953421312)).
Proof.
  assert (H100 : Forall (fun r => validations r = Finite 100)
                   (filter (in_peak scenario64.A_elasticity) (records scenario64.A_demand))).
  { repeat constructor. }
  assert (H50 : Forall (fun r => validations r = Finite 50)
                  (filter (in_shoulder scenario64.A_elasticity)
                     (records scenario64.A_demand))).
  { repeat constructor. }
  split; [reflexivity|]. split; [reflexivity|].
  split; [reflexivity|]. split; [reflexivity|].
  split; [reflexivity|]. split; [exact H100|].
  split; [reflexivity|]. split; [exact H50|].
  eexists. split; [reflexivity|]. split; [reflexivity|].
  exact (scenario_A_simulation scenario64.A_demand scenario64.A_elasticity (Finite 2) _
           eq_refl eq_refl eq_refl eq_refl eq_refl H100 eq_refl H50 eq_refl).
Defined.

(** C6 as stated fails on its last figure: on Scenario A the program
    returns [peak_reduction_pct = 9.999999999999998], the float below
    10, and not 10. *)
Lemma scenario_A_peak_reduction_is_not_10 :
  exists res,
    simulate_incentives scenario64.A_demand scenario64.A_elasticity (Finite 2) = Returns res
    /\ map (fun s => validations (record s)) (simulated res)
       = [Finite 90; Finite 90; Finite 90; Finite 55; Finite 55; Finite 55; Finite 55;
          Finite 55; Finite 55]
    /\ peak_reduction_pct res = Finite (5629499534213119 # 562949953421312)
    /\ ~ np.eq (peak_reduction_pct res) (Finite 10).
Proof.
  eexists. split; [reflexivity|]. split; [vm_compute; reflexivity|].
  split; [vm_compute; reflexivity|]. vm_compute. discriminate.
Qed.

(** Each row falls in a class; with disjoint ranges, in exactly one. *)
Lemma class_unique64 (elasticity : ElasticityConfig) (r : DemandRecord) :
  in_peak elasticity r && in_shoulder elasticity r = false ->
  exists c, is_class elasticity r c = true
            /\ forall c', is_class elasticity r c' = true -> c' = c.
Proof.
  intros H.
  destruct (in_peak elasticity r) eqn:Ep, (in_shoulder elasticity r) eqn:Es;
    try discriminate.
  - exists incentives.Peak. split; [exact Ep|].
    intros [] Hc; simpl in Hc; rewrite ?Ep, ?Es in Hc; try discriminate; reflexivity.
  - exists incentives.Shoulder. split; [exact Es|].
    intros [] Hc; simpl in Hc; rewrite ?Ep, ?Es in Hc; try discriminate; reflexivity.
  - exists incentives.Other. split; [simpl; now rewrite Ep, Es|].
    intros [] Hc; simpl in Hc; rewrite ?Ep, ?Es in Hc; try discriminate; reflexivity.
Qed.

(** C7, as amended.  When no hour lies in both ranges, every row of the
    table is in exactly one of the classes peak, shoulder and other, and a
    row whose hour lies in [peak_hours] keeps its route, stop and
    timestamp and has the simulated validations
    [v + v * (-(price_elasticity + time_elasticity))], each of the three
    operations rounded to binary64, clipped below at 0.  For finite
    validations and elasticities that are not negative and at most
    [2^500], that float is within [2^-51 * v * (1 + total_elasticity)],
    up to an absolute [2^-1073 * (1 + v)], of [v * (1 - total_elasticity)]
    clipped below at 0. *)
Theorem peak_rows_scaled (demand : DataFrame) (elasticity : ElasticityConfig)
    (fare : npfloat) (res : SimulationResult) :
  ranges_disjoint elasticity = true ->
  simulate_incentives demand elasticity fare = Returns res ->
  forall (i : nat) (r : DemandRecord),
    nth_error (records demand) i = Some r ->
    (exists c, is_class elasticity r c = true
               /\ forall c', is_class elasticity r c' = true -> c' = c)
    /\ (in_peak elasticity r = true ->
        exists s,
          nth_error (simulated res) i = Some s
          /\ route_id (record s) = route_id r
          /\ stop_id (record s) = stop_id r
          /\ timestamp (record s) = timestamp r
          /\ validations (record s)
             = f64.clip_lower_0
                 (f64.add (validations r)
                    (f64.mul (validations r)
                       (f64.neg (f64.add (price_elasticity elasticity)
                                   (time_elasticity elasticity)))))
          /\ forall v p t : Q,
               validations r = Finite v ->
               price_elasticity elasticity = Finite p ->
               time_elasticity elasticity = Finite t ->
               0 <= v -> v <= accuracy.large -> 0 <= p -> 0 <= t ->
               p + t <= accuracy.large ->
               accuracy.approx (validations (record s))
                 (np.clip_lower 0 (v * (1 - (p + t))))
                 (4 * accuracy.u * (v * (1 + (p + t))) + 4 * accuracy.eta * (1 + v))).
Proof.
  intros Hd Hres i r Hi.
  apply simulate_incentives64_returns in Hres. subst res.
  pose proof (disjoint_rows64 elasticity r Hd) as Hr.
  split.
  - apply class_unique64. exact Hr.
  - intros Hp.
    rewrite simulate_frame64_simulated.
    eexists. split; [apply set_validations64_nth; exact Hi|].
    cbn [record with_validations route_id stop_id timestamp validations].
    split; [reflexivity|]. split; [reflexivity|]. split; [reflexivity|].
    assert (Hcell : simulated_cell elasticity (records demand) r
                    = f64.clip_lower_0
                        (f64.add (validations r)
                           (f64.mul (validations r)
                              (f64.neg (f64.add (price_elasticity elasticity)
                                          (time_elasticity elasticity)))))).
    { unfold simulated_cell. rewrite Hp in Hr. simpl in Hr. rewrite Hr, Hp. reflexivity. }
    split; [exact Hcell|].
    intros v p t Hv Hpe Hte Hv0 Hvl Hp0 Ht0 Hel.
    rewrite Hcell, Hv, Hpe, Hte.
    apply peak_cell_approx; assumption.
Qed.

Lemma peak_rows_scaled_witness :
  ranges_disjoint scenario64.steep_elasticity = true
  /\ simulate_incentives scenario64.one_peak_demand scenario64.steep_elasticity (Finite 2)
     = Returns (simulate_frame (records scenario64.one_peak_demand)
                  scenario64.steep_elasticity (Finite 2))
  /\ nth_error (records scenario64.one_peak_demand) 0
     = Some (scenario64.demand_row "R1" "S1" 8 (Finite 100))
  /\ in_peak scenario64.steep_elasticity (scenario64.demand_row "R1" "S1" 8 (Finite 100))
     = true
  /\ exists s,
      nth_error (simulated (simulate_frame (records scenario64.one_peak_demand)
                              scenario64.steep_elasticity (Finite 2))) 0 = Some s
      /\ validations (record s) = Finite (633318697598977 # 70368744177664)
      /\ accuracy.approx (validations (record s))
           (np.clip_lower 0
              (100 * (1 - ((5134103575202365 # 9007199254740992)
                           + (6124895493223875 # 18014398509481984)))))
           (4 * accuracy.u
            * (100 * (1 + ((5134103575202365 # 9007199254740992)
                           + (6124895493223875 # 18014398509481984))))
            + 4 * accuracy.eta * (1 + 100)).
Proof.
  split; [reflexivity|]. split; [reflexivity|]. split; [reflexivity|].
  split; [reflexivity|].
  destruct (peak_rows_scaled scenario64.one_peak_demand scenario64.steep_elasticity
              (Finite 2) _ eq_refl eq_refl 0%nat
              (scenario64.demand_row "R1" "S1" 8 (Finite 100)) eq_refl)
    as [_ Hpeak].
  destruct (Hpeak eq_refl) as (s & Hs & _ & _ & _ & Hcell & Hacc).
  exists s. split; [exact Hs|]. split.
  - rewrite Hcell. vm_compute. reflexivity.
  - apply (Hacc 100 (5134103575202365 # 9007199254740992)
             (6124895493223875 # 18014398509481984)).
    + reflexivity.
    + vm_compute. reflexivity.
    + vm_compute. reflexivity.
    + vm_compute. discriminate.
    + vm_compute. discriminate.
    + vm_compute. discriminate.
    + vm_compute. discriminate.
    + vm_compute. discriminate.
Defined.

(** C7 as stated fails in two ways.  When the ranges overlap, with
    [peak_hours = (7,9)] and [shoulder_hours = (9,15)], a row at hour 9
    is in two classes and the shoulder assignment overwrites the peak
    one: 100 becomes 110, not 90.  And with disjoint ranges the equality
    holds up to rounding only: one peak row of 100 with the elasticities
    0.57 and 0.34 is simulated at 9.000000000000014, which is neither
    [100 * (1 - (0.57 + 0.34))] on the exact values of the two floats nor
    what binary64 gives for that expression, 9.000000000000007. *)
Lemma overlap_and_rounding_break_peak_scaling :
  (exists res r s,
     simulate_incentives scenario64.overlap_demand scenario64.overlap_elasticity (Finite 2)
     = Returns res
     /\ nth_error (records scenario64.overlap_demand) 0 = Some r
     /\ is_class scenario64.overlap_elasticity r incentives.Peak = true
     /\ is_class scenario64.overlap_elasticity r incentives.Shoulder = true
     /\ nth_error (simulated res) 0 = Some s
     /\ validations r = Finite 100
     /\ total_elasticity scenario64.overlap_elasticity = scenario64.literal (1 # 10)
     /\ validations (record s) = Finite 110)
  /\ (exists res s p t,
        simulate_incentives scenario64.one_peak_demand scenario64.steep_elasticity (Finite 2)
        = Returns res
        /\ ranges_disjoint scenario64.steep_elasticity = true
        /\ price_elasticity scenario64.steep_elasticity = Finite p
        /\ time_elasticity scenario64.steep_elasticity = Finite t
        /\ 0 <= p /\ 0 <= t
        /\ nth_error (simulated res) 0 = Some s
        /\ validations (record s) = Finite (633318697598977 # 70368744177664)
        /\ ~ np.eq (validations (record s)) (Finite (100 * (1 - (p + t))))
        /\ f64.mul (Finite 100)
             (f64.sub (Finite 1) (total_elasticity scenario64.steep_elasticity))
           = Finite (1266637395197953 # 140737488355328)
        /\ ~ np.eq (validations (record s)) (Finite (1266637395197953 # 140737488355328))).
Proof.
  split.
  - eexists. eexists. eexists.
    split; [reflexivity|]. split; [reflexivity|].
    split; [reflexivity|]. split; [reflexivity|].
    split; [reflexivity|]. split; [reflexivity|].
    split; [vm_compute; reflexivity|]. vm_compute. reflexivity.
  - eexists. eexists. eexists. eexists.
    split; [reflexivity|]. split; [reflexivity|].
    split; [vm_compute; reflexivity|]. split; [vm_compute; reflexivity|].
    split; [vm_compute; discriminate|]. split; [vm_compute; discriminate|].
    split; [reflexivity|]. split; [vm_compute; reflexivity|].
    split; [vm_compute; discriminate|]. split; [vm_compute; reflexivity|].
    vm_compute. discriminate.
Qed.

(** C9, as amended.  A table without the [timestamp] column raises the
    [KeyError] of the column lookup; one whose [timestamp] column does
    not hold datetimes raises the [AttributeError] of [.dt]; one with
    datetimes but without the [validations] column raises the [KeyError]
    of that lookup; in each case nothing is returned.  Every other table
    is simulated, the empty one too: it yields empty tables and, for a
    finite fare, [revenue_delta_pct = 0]. *)
Theorem missing_column_raises_empty_table_returns (demand : DataFrame)
    (elasticity : ElasticityConfig) (fare : npfloat) :
  (has_column demand "timestamp" = false ->
   simulate_incentives demand elasticity fare = Raises (KeyError "timestamp"))
  /\ (has_column demand "timestamp" = true ->
      timestamp_dtype demand = object ->
      simulate_incentives demand elasticity fare = Raises (AttributeError "Series" "dt"))
  /\ (has_column demand "timestamp" = true ->
      timestamp_dtype demand = datetime64 ->
      has_column demand "validations" = false ->
      simulate_incentives demand elasticity fare = Raises (KeyError "validations"))
  /\ (has_column demand "timestamp" = true ->
      timestamp_dtype demand = datetime64 ->
      has_column demand "validations" = true ->
      exists res,
        simulate_incentives demand elasticity fare = Returns res
        /\ List.length (baseline res) = List.length (records demand)
        /\ List.length (simulated res) = List.length (records demand)
        /\ (records demand = [] ->
            baseline res = [] /\ simulated res = []
            /\ forall f, fare = Finite f -> revenue_delta_pct res = Finite 0)).
Proof.
  unfold simulate_incentives.
  split; [|split; [|split]].
  - intros ->. reflexivity.
  - intros -> ->. reflexivity.
  - intros -> -> ->. reflexivity.
  - intros -> -> ->. simpl. eexists. split; [reflexivity|]. split; [|split].
    + rewrite simulate_frame64_baseline, length_map. reflexivity.
    + rewrite simulate_frame64_simulated, set_validations64_length, length_map. reflexivity.
    + intros ->. split; [reflexivity|]. split; [reflexivity|].
      intros f ->. rewrite simulate_frame64_revenue_delta.
      cbn [map f64.sum f64.pairwise_sum List.length Nat.ltb Nat.leb f64.sum_loop fold_left
             f64.mul].
      assert (H0 : f64.round64 (0 * f) = Finite 0).
      { unfold f64.round64, f64.round_finite.
        assert (E : Qeq_bool (0 * f) 0 = true) by (apply Qeq_bool_iff; ring).
        rewrite E. reflexivity. }
      rewrite H0. reflexivity.
Qed.

Lemma missing_column_raises_empty_table_returns_witness :
  has_column scenario64.no_timestamp_demand "timestamp" = false
  /\ simulate_incentives scenario64.no_timestamp_demand scenario64.A_elasticity (Finite 2)
     = Raises (KeyError "timestamp")
  /\ has_column scenario64.empty_object_demand "timestamp" = true
  /\ timestamp_dtype scenario64.empty_object_demand = object
  /\ simulate_incentives scenario64.empty_object_demand scenario64.A_elasticity (Finite 2)
     = Raises (AttributeError "Series" "dt")
  /\ has_column scenario64.no_validations_demand "validations" = false
  /\ simulate_incentives scenario64.no_validations_demand scenario64.A_elasticity (Finite 2)
     = Raises (KeyError "validations").
Proof.
  pose proof (missing_column_raises_empty_table_returns scenario64.no_timestamp_demand
                scenario64.A_elasticity (Finite 2)) as H1.
  pose proof (missing_column_raises_empty_table_returns scenario64.empty_object_demand
                scenario64.A_elasticity (Finite 2)) as H2.
  pose proof (missing_column_raises_empty_table_returns scenario64.no_validations_demand
                scenario64.A_elasticity (Finite 2)) as H3.
  split; [reflexivity|]. split; [exact (proj1 H1 eq_refl)|].
  split; [reflexivity|]. split; [reflexivity|].
  split; [exact (proj1 (proj2 H2) eq_refl eq_refl)|].
  split; [reflexivity|].
  exact (proj1 (proj2 (proj2 H3)) eq_refl eq_refl eq_refl).
Defined.

(** C9 as stated fails on the empty table: the code checks nothing, and
    an empty table that has its columns, the timestamps typed as
    datetimes, is simulated like any other and raises nothing. *)
Lemma empty_table_raises_nothing :
  records scenario64.empty_demand = []
  /\ (exists res,
        simulate_incentives scenario64.empty_demand scenario64.A_elasticity (Finite 2)
        = Returns res
        /\ baseline res = [] /\ simulated res = [])
  /\ forall e,
       simulate_incentives scenario64.empty_demand scenario64.A_elasticity (Finite 2)
       <> Raises e.
Proof.
  split; [reflexivity|]. split.
  - eexists. split; [reflexivity|]. split; reflexivity.
  - intros e. discriminate.
Qed.

(** X4.  Every shoulder row receives the same share of the shifted
    demand: its simulated validations are its own minus
    [shifted.sum() / shoulder_count], where [shifted] holds
    [v * (-total_elasticity)] for every peak row and the sum is the
    pairwise sum of numpy, each operation rounded to binary64, clipped
    below at 0; also when the row lies in the peak range too. *)
Theorem shoulder_rows_receive_equal_share (demand : DataFrame)
    (elasticity : ElasticityConfig) (fare : npfloat) (res : SimulationResult) :
  simulate_incentives demand elasticity fare = Returns res ->
  forall (i : nat) (r : DemandRecord),
    nth_error (records demand) i = Some r ->
    in_shoulder elasticity r = true ->
    exists s,
      nth_error (simulated res) i = Some s
      /\ validations (record s)
         = f64.clip_lower_0
             (f64.sub (validations r)
                (f64.div
                   (f64.sum
                      (map (fun v => f64.mul v
                                       (f64.neg (f64.add (price_elasticity elasticity)
                                                   (time_elasticity elasticity))))
                         (map validations (filter (in_peak elasticity) (records demand)))))
                   (f64.of_nat
                      (Nat.max (List.length (filter (in_shoulder elasticity)
                                               (records demand))) 1)))).
Proof.
  intros Hres i r Hi Hs.
  apply simulate_incentives64_returns in Hres. subst res.
  rewrite simulate_frame64_simulated.
  eexists. split; [apply set_validations64_nth; exact Hi|].
  cbn [record with_validations validations].
  unfold simulated_cell. rewrite Hs. reflexivity.
Qed.

End Simulator64Properties.

Lemma shoulder_rows_receive_equal_share_witness :
  incentives64.simulate_incentives
    (scenario64.frame [scenario64.demand_row "R1" "S1" 8 (np.Finite 14);
                       scenario64.demand_row "R1" "S1" 9 (np.Finite 56);
                       scenario64.demand_row "R1" "S1" 10 (np.Finite 16)])
    (incentives64.default_config (scenario64.literal (1 # 20)) (scenario64.literal (1 # 10)))
    (np.Finite 2)
  = builtins.Returns
      (incentives64.simulate_frame
         [scenario64.demand_row "R1" "S1" 8 (np.Finite 14);
          scenario64.demand_row "R1" "S1" 9 (np.Finite 56);
          scenario64.demand_row "R1" "S1" 10 (np.Finite 16)]
         (incentives64.default_config (scenario64.literal (1 # 20))
            (scenario64.literal (1 # 10)))
         (np.Finite 2))
  /\ exists s,
      nth_error
        (incentives64.simulated
           (incentives64.simulate_frame
              [scenario64.demand_row "R1" "S1" 8 (np.Finite 14);
               scenario64.demand_row "R1" "S1" 9 (np.Finite 56);
               scenario64.demand_row "R1" "S1" 10 (np.Finite 16)]
              (incentives64.default_config (scenario64.literal (1 # 20))
                 (scenario64.literal (1 # 10)))
              (np.Finite 2))) 2 = Some s
      /\ incentives64.validations (incentives64.record s)
         = np.Finite (7459086882832385 # 281474976710656).
Proof.
  split; [reflexivity|].
  destruct (shoulder_rows_receive_equal_share
              (scenario64.frame [scenario64.demand_row "R1" "S1" 8 (np.Finite 14);
                                 scenario64.demand_row "R1" "S1" 9 (np.Finite 56);
                                 scenario64.demand_row "R1" "S1" 10 (np.Finite 16)])
              (incentives64.default_config (scenario64.literal (1 # 20))
                 (scenario64.literal (1 # 10)))
              (np.Finite 2) _ eq_refl 2%nat _ eq_refl eq_refl) as (s & Hs & Hcell).
  exists s. split; [exact Hs|]. rewrite Hcell. vm_compute. reflexivity.
Defined.
